(** * UnifiedCSWFlow: the workflow engine, its run registry and its job runner

    A shallow embedding of [main.py], [unifiedCSWFlow/workflow.py] and
    [unifiedCSWFlow/DAL.py].  Python strings are [string], Python integers
    are [Z], the registry table [CyberShake_Runs] is the list of its rows
    with the uniqueness of [Run_ID] enforced by the insert, the file system
    is a finite map from paths to text, and everything the program obtains
    from outside (the clock, the exit codes of scripts, the answers of
    [sbatch] and [squeue]) is an explicit argument. *)

From Stdlib Require Import ZArith QArith List String Ascii Lia Bool.
From Stdlib Require Import DecimalString DecimalPos.
From stdpp Require Import gmap strings list fin_maps relations.

Import ListNotations.
Local Open Scope string_scope.
Local Open Scope Z_scope.

(** ** Python primitives used by the program *)

Module Py.

(** [str(n)] for an integer. *)
Definition str (n : Z) : string := NilZero.string_of_int (Z.to_int n).

(** Truth value of a string ([if s:]): non-empty. *)
Definition truthy (s : string) : bool :=
  match s with EmptyString => false | String _ _ => true end.

(** Truth value of [None]-or-string ([if rstage:]). *)
Definition truthy_opt (o : option string) : bool :=
  match o with None => false | Some s => truthy s end.

(** Truth value of [None]-or-integer ([if row[0]:], [if not siteId:]). *)
Definition truthy_int (o : option Z) : bool :=
  match o with None => false | Some n => negb (n =? 0) end.

(** [s.split(c)] for a one-character separator: never the empty list. *)
Fixpoint split (c : ascii) (s : string) : list string :=
  match s with
  | EmptyString => [EmptyString]
  | String a rest =>
      if Ascii.eqb a c then EmptyString :: split c rest
      else match split c rest with
           | [] => [String a EmptyString]
           | hd :: tl => String a hd :: tl
           end
  end.

(** [l[-1]]; [None] stands for [IndexError]. *)
Definition last_item {A} (l : list A) : option A := List.last (map Some l) None.

(** Characters removed by [strip()] within ASCII. *)
Definition is_space (a : ascii) : bool :=
  let n := N_of_ascii a in
  ((9 <=? n) && (n <=? 13) || (n =? 32) || ((28 <=? n) && (n <=? 31)))%N.

Fixpoint lstrip (s : string) : string :=
  match s with
  | EmptyString => EmptyString
  | String a rest => if is_space a then lstrip rest else s
  end.

Fixpoint rstrip (s : string) : string :=
  match s with
  | EmptyString => EmptyString
  | String a rest =>
      match rstrip rest with
      | EmptyString => if is_space a then EmptyString else String a EmptyString
      | r => String a r
      end
  end.

Definition strip (s : string) : string := lstrip (rstrip s).

Definition is_digit (a : ascii) : bool :=
  let n := N_of_ascii a in ((48 <=? n) && (n <=? 57))%N.

Definition digit_val (a : ascii) : Z := Z.of_N (N_of_ascii a) - 48.

(** Value of a run of decimal digits, [None] when another character occurs. *)
Fixpoint digits_val (acc : Z) (s : string) : option Z :=
  match s with
  | EmptyString => Some acc
  | String a rest =>
      if is_digit a then digits_val (10 * acc + digit_val a) rest else None
  end.

(** A text of decimal digits only. *)
Fixpoint all_digits (s : string) : bool :=
  match s with
  | EmptyString => true
  | String a rest => is_digit a && all_digits rest
  end.

(** [int(s)] on text without underscores: surrounding white space, an
    optional sign, then at least one decimal digit; [None] stands for
    [ValueError]. *)
Definition int (s : string) : option Z :=
  match strip s with
  | EmptyString => None
  | String "+" (String a r) => digits_val 0 (String a r)
  | String "-" (String a r) => Z.opp <$> digits_val 0 (String a r)
  | t => digits_val 0 t
  end.

(** [a < b] on strings: lexicographic on character codes. *)
Fixpoint str_ltb (a b : string) : bool :=
  match a, b with
  | _, EmptyString => false
  | EmptyString, String _ _ => true
  | String x a', String y b' =>
      if (N_of_ascii x <? N_of_ascii y)%N then true
      else if (N_of_ascii y <? N_of_ascii x)%N then false
      else str_ltb a' b'
  end.

(** [min(l)] on strings: the first least element; [None] stands for the
    [ValueError] of an empty argument. *)
Fixpoint min (l : list string) : option string :=
  match l with
  | [] => None
  | x :: rest =>
      match min rest with
      | None => Some x
      | Some m => if str_ltb m x then Some m else Some x
      end
  end.

(** [f.readlines()] on text whose line ends are already ["\n"]: every line
    keeps its terminator, the last one may lack it. *)
Fixpoint readlines (s : string) : list string :=
  match s with
  | EmptyString => []
  | String a rest =>
      if Ascii.eqb a "010"%char then String a EmptyString :: readlines rest
      else match readlines rest with
           | [] => [String a EmptyString]
           | hd :: tl => String a hd :: tl
           end
  end.

End Py.

(** ** DAL.py: the run registry *)

Module DAL.

(** The clock reading of [datetime.now()]. *)
Record DateTime := {
  year : Z; month : Z; day : Z; hour : Z; minute : Z; second : Z
}.

(** What [datetime] guarantees of its fields. *)
Definition valid_datetime (d : DateTime) : Prop :=
  1000 <= year d <= 9999 /\ 1 <= month d <= 12 /\ 1 <= day d <= 31 /\
  0 <= hour d <= 23 /\ 0 <= minute d <= 59 /\ 0 <= second d <= 59.

(** A two-digit, zero-padded field ([%m], [%d], [%H], [%M], [%S]). *)
Definition pad2 (n : Z) : string :=
  if n <? 10 then "0" ++ Py.str n else Py.str n.

(** [strftime("%Y-0%m-%d %H:%M:%S")], the format of [addRunInfo]. *)
Definition strftime (d : DateTime) : string :=
  Py.str (year d) ++ "-0" ++ pad2 (month d) ++ "-" ++ pad2 (day d) ++ " "
  ++ pad2 (hour d) ++ ":" ++ pad2 (minute d) ++ ":" ++ pad2 (second d).

(** A row of [CyberShake_Runs], with the columns [addRunInfo] names. *)
Record RunRow := {
  Run_ID : Z;
  Site_ID : Z;
  ERF_ID : Z;
  SGT_Variation_ID : Z;
  Velocity_Model_ID : Z;
  Rup_Var_Scenario_ID : Z;
  Status : string;
  Status_Time : string;
  Last_User : string;
  Max_Frequency : Q;
  Low_Frequency_Cutoff : Q;
  SGT_Source_Filter_Frequency : Q
}.

(** A row of [CyberShake_Sites], with the columns the queries name. *)
Record SiteRow := {
  CS_Site_ID : Z;
  CS_Site_Name : string;
  CS_Short_Name : string
}.

Record Database := {
  CyberShake_Runs : list RunRow;
  CyberShake_Sites : list SiteRow
}.

Inductive SqlError := IntegrityError.

(** Number of rows of the runs table with a given key. *)
Definition count_runs (k : Z) (t : list RunRow) : nat :=
  length (List.filter (fun r => Run_ID r =? k) t).

(** The integrity constraint of the table: no two rows share a [Run_ID]. *)
Definition unique_Run_ID (t : list RunRow) : Prop :=
  forall k, (count_runs k t <= 1)%nat.

(** Modelled from the spec: the schema of [CyberShake_Runs] is not part of
    the sources; the registry schema of the specification makes the run id
    unique, so [cursor.execute] of an [insert into CyberShake_Runs] appends
    the row unless its key is taken, which raises [IntegrityError]. *)
Definition execute_insert (r : RunRow) (t : list RunRow)
  : SqlError + list RunRow :=
  if existsb (fun r' => Run_ID r' =? Run_ID r) t
  then inl IntegrityError
  else inr (t ++ [r])%list.

(** [select max(Run_ID) from CyberShake_Runs]: [None] is SQL's [NULL]. *)
Fixpoint max_Run_ID (t : list RunRow) : option Z :=
  match t with
  | [] => None
  | r :: rest =>
      match max_Run_ID rest with
      | None => Some (Run_ID r)
      | Some m => Some (Z.max (Run_ID r) m)
      end
  end.

Definition getValidRunId (db : Database) : Z :=
  let row0 := max_Run_ID (CyberShake_Runs db) in
  let runid := 1 in
  match row0 with
  | Some m => if Py.truthy_int row0 then runid + m else runid
  | None => runid
  end.

(** The row that the query text of [addRunInfo] describes. *)
Definition runRow (now : DateTime) (runID siteID erfID modelID : Z)
    (sfreq freq : Q) : RunRow :=
  {| Run_ID := runID; Site_ID := siteID; ERF_ID := erfID;
     SGT_Variation_ID := 1; Velocity_Model_ID := modelID;
     Rup_Var_Scenario_ID := 1; Status := "SGT Started";
     Status_Time := strftime now; Last_User := "BSC";
     Max_Frequency := freq; Low_Frequency_Cutoff := freq;
     SGT_Source_Filter_Frequency := sfreq |}.

(** [addRunInfo]: the [IntegrityError] of the insert is caught and dropped,
    then the transaction is committed.  The result is a sum so that an
    error that escaped would show. *)
Definition addRunInfo (now : DateTime) (runID siteID erfID modelID : Z)
    (sfreq freq : Q) (db : Database) : SqlError + Database :=
  let query := runRow now runID siteID erfID modelID sfreq freq in
  match execute_insert query (CyberShake_Runs db) with
  | inr t => inr {| CyberShake_Runs := t;
                    CyberShake_Sites := CyberShake_Sites db |}
  | inl IntegrityError => inr db
  end.

(** [_runQuery] over the sites table: the first matching row, or [None]. *)
Definition site_matches (site : string) (r : SiteRow) : bool :=
  String.eqb (CS_Site_Name r) site || String.eqb (CS_Short_Name r) site.

Definition getSiteID (site : string) (db : Database) : option Z :=
  CS_Site_ID <$> List.find (site_matches site) (CyberShake_Sites db).

Definition getSiteShortName (site : string) (db : Database) : option string :=
  CS_Short_Name <$> List.find (site_matches site) (CyberShake_Sites db).

(** [getRunIDInfo]: the four columns the query selects, of the first row
    with the run id; [None] when [fetchone] finds no row. *)
Definition getRunIDInfo (runID : Z) (db : Database)
  : option (Z * Z * Z * Z) :=
  (fun r => (ERF_ID r, Rup_Var_Scenario_ID r, SGT_Variation_ID r,
             Velocity_Model_ID r))
    <$> List.find (fun r => Run_ID r =? runID) (CyberShake_Runs db).

(** [dict_factory] (and the method [_dict_factory]): the dictionary of a
    row, built column after column from the names of [cursor.description],
    a later column replacing an earlier one of the same name; [None]
    stands for the [IndexError] of a row shorter than the description. *)
Fixpoint dict_factory_from {V} (idx : nat) (description : list string)
    (row : list V) (d : gmap string V) : option (gmap string V) :=
  match description with
  | [] => Some d
  | col :: rest =>
      match row !! idx with
      | None => None
      | Some v => dict_factory_from (S idx) rest row (<[col := v]> d)
      end
  end.

Definition dict_factory {V} (description : list string) (row : list V)
  : option (gmap string V) :=
  dict_factory_from 0 description row ∅.

End DAL.

(** ** The world a pipeline run acts on *)

(** What a stage does, in the order it does it; the log is ghost state. *)
Inductive Event :=
| EvStart (stage : string)        (* the controller is instantiated *)
| EvBuild (stage : string)        (* [build] saved the script *)
| EvRun (stage : string)          (* [run] returned *)
| EvPostprocess (stage : string). (* [postprocess] wrote the checkpoint *)

#[global] Instance Event_eq_dec : EqDecision Event.
Proof. solve_decision. Defined.

Record World := {
  dirs : gset string;           (* the directories that exist *)
  files : gmap string string;   (* the regular files and their text *)
  cwd : string;                 (* the active directory of the process *)
  db : DAL.Database;            (* the database at the configured path *)
  trace : list Event
}.

Inductive Exn :=
| CommandFailed (cmd stderr : string)   (* [Exception("Command ... failed")] *)
| IndexError
| ValueError
| KeyError
| AttributeError
| FileNotFoundError
| FileExistsError
| IsADirectoryError
| SqlFailure (e : DAL.SqlError).

(** Result of a computation: a value and the new world, an exception that
    unwinds the run, a calling thread that waits for ever on an event
    nobody will set, or not enough fuel to see the end of the polling. *)
Inductive Res (A : Type) :=
| Ok (a : A) (w : World)
| Raised (e : Exn) (w : World)
| Blocked (w : World)
| OutOfFuel.
Arguments Ok {A} a w.
Arguments Raised {A} e w.
Arguments Blocked {A} w.
Arguments OutOfFuel {A}.

Definition M (A : Type) : Type := World -> Res A.

(** Whether a computation returned. *)
Definition is_ok {A} (r : Res A) : bool :=
  match r with Ok _ _ => true | _ => false end.

Definition ret {A} (a : A) : M A := fun w => Ok a w.
Definition raise {A} (e : Exn) : M A := fun w => Raised e w.
Definition bind {A B} (m : M A) (k : A -> M B) : M B :=
  fun w => match m w with
           | Ok a w' => k a w'
           | Raised e w' => Raised e w'
           | Blocked w' => Blocked w'
           | OutOfFuel => OutOfFuel
           end.

Notation "'do' x <- m ; k" := (bind m (fun x => k))
  (at level 10, x name, m at level 100, k at level 200).
Notation "'do_' m ; k" := (bind m (fun _ => k))
  (at level 10, m at level 100, k at level 200).

Definition get : M World := fun w => Ok w w.
Definition modify (f : World -> World) : M unit := fun w => Ok tt (f w).

Definition set_dirs (d : gset string) (w : World) : World :=
  {| dirs := d; files := files w; cwd := cwd w; db := db w; trace := trace w |}.
Definition set_files (f : gmap string string) (w : World) : World :=
  {| dirs := dirs w; files := f; cwd := cwd w; db := db w; trace := trace w |}.
Definition set_cwd (c : string) (w : World) : World :=
  {| dirs := dirs w; files := files w; cwd := c; db := db w; trace := trace w |}.
Definition set_db (d : DAL.Database) (w : World) : World :=
  {| dirs := dirs w; files := files w; cwd := cwd w; db := d; trace := trace w |}.
Definition log (e : Event) (w : World) : World :=
  {| dirs := dirs w; files := files w; cwd := cwd w; db := db w;
     trace := (trace w ++ [e])%list |}.

(** [open(path, 'w')] followed by [write(text)]; a relative path is
    resolved against the active directory. *)
Definition resolve (w : World) (path : string) : string :=
  match path with
  | String "/" _ => path
  | _ => cwd w ++ "/" ++ path
  end.

Definition write_file (path text : string) : M unit :=
  fun w =>
    if decide (resolve w path ∈ dirs w) then Raised IsADirectoryError w
    else Ok tt (set_files (<[resolve w path := text]> (files w)) w).

(** [os.makedirs(path, exist_ok=True)]. *)
Definition makedirs (path : string) : M unit :=
  fun w =>
    match files w !! path with
    | Some _ => Raised FileExistsError w
    | None => Ok tt (set_dirs ({[path]} ∪ dirs w) w)
    end.

(** [os.chdir(path)]. *)
Definition chdir (path : string) : M unit :=
  fun w =>
    if decide (path ∈ dirs w) then Ok tt (set_cwd path w)
    else Raised FileNotFoundError w.

(** Two worlds that differ at most by files written and by the trace: the
    registry, the directories and the active directory are the same, and
    every file of the first is a file of the second. *)
Definition only_files_written (w w' : World) : Prop :=
  db w' = db w /\ dirs w' = dirs w /\ cwd w' = cwd w /\
  dom (files w) ⊆ dom (files w').

(** What the program asks of its environment. *)
Record Env := {
  (* the lines a stage's [build] assembles; [None] when a configuration
     key it needs is missing *)
  scriptLines : string -> option (list string);
  (* return code and stderr of a script run locally *)
  bash : string -> Z * string;
  (* return code, stdout and stderr of a submission command *)
  sbatch : string -> Z * string * string;
  (* return code, stdout and stderr of the i-th status query of a job *)
  squeue : string -> nat -> Z * string * string;
  (* the text [generateRuptureFile] writes *)
  ruptureFileList : string;
  (* the directories and files after [generateRuptures] has filled the
     directory it is given; their text is floating-point output *)
  generateRuptures :
    string -> gset string * gmap string string ->
    gset string * gmap string string;
  (* the clock *)
  now : DAL.DateTime
}.

(** ** workflow.py: the stage sequence, the stage controllers, the runner *)

Module workflow.

(** [Workflow().wf], which [__iter__] walks in order. *)
Definition wf : list string :=
  [ "preSGT"; "preAWP"; "AWPX"; "AWPY"; "checkX"; "checkY";
    "postX"; "postY"; "rupVar"; "runDS"; "cleanUp" ].

(** The stage controllers that [wf] names, in the order of the file.  The
    module defines three more ([insertDB], [checkDB], [curveCalc]), which
    belong to the complete workflow that is commented out. *)
Inductive StageClass :=
| preSGT | preAWP | AWPX | AWPY | checkX | checkY | postX | postY
| rupVar | runDS | cleanUp.

Definition classes : list StageClass :=
  [ preSGT; preAWP; AWPX; AWPY; checkX; checkY; postX; postY;
    rupVar; runDS; cleanUp ].

(** [cls.__name__]. *)
Definition className (c : StageClass) : string :=
  match c with
  | preSGT => "preSGT" | preAWP => "preAWP" | AWPX => "AWPX" | AWPY => "AWPY"
  | checkX => "checkX" | checkY => "checkY" | postX => "postX"
  | postY => "postY" | rupVar => "rupVar" | runDS => "runDS"
  | cleanUp => "cleanUp"
  end.

(** The class attribute [type] of each controller. *)
Definition type (c : StageClass) : string :=
  match c with
  | preSGT | preAWP | AWPX | AWPY | checkX | checkY | postX | postY => "slurm"
  | rupVar => "sh"
  | runDS => "slurm"
  | cleanUp => "sh"
  end.

(** The literal each [postprocess] writes to the restart file. *)
Definition checkpointToken (c : StageClass) : string :=
  match c with
  | preSGT => "preSGT" | preAWP => "preAWP" | AWPX => "AWPX" | AWPY => "AWPY"
  | checkX => "checkX" | checkY => "checkY" | postX => "postX"
  | postY => "postY" | rupVar => "rupVar" | runDS => "runDS"
  | cleanUp => "cleanUp"
  end.

(** [eval("workflow." + stage)] restricted to these controllers; [None]
    stands for a name that is not one of them. *)
Definition lookup (stage : string) : option StageClass :=
  List.find (fun c => String.eqb (className c) stage) classes.

(** *** scriptABC: the head of a script *)

(** [_getHeader]. *)
Definition getHeader (lines : list string) : list string :=
  (lines ++ ["#!/bin/bash"; EmptyString])%list.



(** *** Runner *)

(** The double quote of the status query's format argument. *)
Definition dquote : string := String (ascii_of_nat 34) EmptyString.

(** [runBashScript]: run and wait; a non-zero return code raises. *)
Definition runBashScript (env : Env) (cmd : string) : M unit :=
  let '(returncode, stderr) := bash env cmd in
  if negb (returncode =? 0) then raise (CommandFailed cmd stderr)
  else ret tt.

(** How the thread of [_waitForSlurmJob] ends: the event is set after so
    many queries, or the exception of a failed query ends the thread, the
    event left unset. *)
Inductive PollResult :=
| PollSet (queries : nat) (message : string)
| PollDied (queries : nat) (e : Exn)
| PollOutOfFuel.

(** [_waitForSlurmJob]: [i] queries have been made so far. *)
Fixpoint waitForSlurmJob (fuel : nat) (env : Env) (jobId : string) (i : nat)
  : PollResult :=
  match fuel with
  | O => PollOutOfFuel
  | S fuel' =>
      let cmd := "squeue -h -o " ++ dquote ++ "Slurm job %T (%M of %l)"
                 ++ dquote ++ " --job " ++ jobId in
      let '(returncode, stdout, stderr) := squeue env jobId i in
      if negb (returncode =? 0) then PollDied (S i) (CommandFailed cmd stderr)
      else
        let message := Py.rstrip stdout in
        if String.eqb stdout EmptyString then PollSet (S i) message
        else waitForSlurmJob fuel' env jobId (S i)
  end.

(** [enqueueSlurm]: submit, start the polling thread, wait for its event.
    The waiting loop leaves only when the event is set; when the polling
    thread has died the caller waits for ever. *)
Definition enqueueSlurm (fuel : nat) (env : Env) (cmd : string) : M unit :=
  let cmdm := "sbatch " ++ cmd in
  let '(returncode, stdout, stderr) := sbatch env cmdm in
  if negb (returncode =? 0) then raise (CommandFailed cmdm stderr)
  else
    match map Py.strip (Py.split " " stdout) !! 3%nat with
    | None => raise IndexError
    | Some jobId =>
        fun w =>
          match waitForSlurmJob fuel env jobId 0 with
          | PollSet _ _ => Ok tt w
          | PollDied _ _ => Blocked w
          | PollOutOfFuel => OutOfFuel
          end
    end.

(** *** The two threads of [enqueueSlurm]

    After the submission the caller starts a thread on [_waitForSlurmJob]
    and loops on [resultAvailable.wait(timeout)].  The threads share the
    event and the message only; every step below is one statement of one
    of the two threads, and a schedule chooses who moves. *)

Inductive Poller :=
| Polling (i : nat)     (* in the loop, [i] queries made *)
| Leaving               (* left the loop by [break], [set()] not yet called *)
| Finished              (* [set()] called, the thread is over *)
| Died (e : Exn).       (* the exception of a failed query ended the thread *)

Inductive Waiter :=
| Waiting               (* in the loop on [wait(timeout)] *)
| Unblocked.            (* [wait] returned [True], the loop is left *)

Record Threads := {
  resultAvailable : bool;   (* the flag of the event *)
  message : string;
  poller : Poller;
  waiter : Waiter;
  queries : nat;            (* status queries made *)
  sets : nat;               (* calls of [set()] *)
  updates : nat;            (* time-outs of [wait], one bar update each *)
  unblocks : nat            (* times [wait] returned [True] *)
}.

Inductive Tid := TMain | TPoller.

Definition threads0 : Threads :=
  {| resultAvailable := false; message := EmptyString; poller := Polling 0;
     waiter := Waiting; queries := 0; sets := 0; updates := 0;
     unblocks := 0 |}.

(** One statement of the polling thread. *)
Definition poller_step (env : Env) (jobId : string) (s : Threads) : Threads :=
  match poller s with
  | Polling i =>
      let cmd := "squeue -h -o " ++ dquote ++ "Slurm job %T (%M of %l)"
                 ++ dquote ++ " --job " ++ jobId in
      let '(returncode, stdout, stderr) := squeue env jobId i in
      if negb (returncode =? 0) then
        {| resultAvailable := resultAvailable s; message := message s;
           poller := Died (CommandFailed cmd stderr); waiter := waiter s;
           queries := S (queries s); sets := sets s; updates := updates s;
           unblocks := unblocks s |}
      else
        {| resultAvailable := resultAvailable s;
           message := Py.rstrip stdout;
           poller := if String.eqb stdout EmptyString then Leaving
                     else Polling (S i);
           waiter := waiter s;
           queries := S (queries s); sets := sets s; updates := updates s;
           unblocks := unblocks s |}
  | Leaving =>
      {| resultAvailable := true; message := message s;
         poller := Finished; waiter := waiter s;
         queries := queries s; sets := S (sets s); updates := updates s;
         unblocks := unblocks s |}
  | Finished | Died _ => s
  end.

(** One turn of the waiting loop: [wait] returns the flag. *)
Definition waiter_step (s : Threads) : Threads :=
  match waiter s with
  | Waiting =>
      if resultAvailable s then
        {| resultAvailable := resultAvailable s; message := message s;
           poller := poller s; waiter := Unblocked;
           queries := queries s; sets := sets s; updates := updates s;
           unblocks := S (unblocks s) |}
      else
        {| resultAvailable := resultAvailable s; message := message s;
           poller := poller s; waiter := Waiting;
           queries := queries s; sets := sets s; updates := S (updates s);
           unblocks := unblocks s |}
  | Unblocked => s
  end.

Definition thread_step (env : Env) (jobId : string) (s : Threads) (t : Tid)
  : Threads :=
  match t with
  | TMain => waiter_step s
  | TPoller => poller_step env jobId s
  end.

(** The state after a schedule, from the start of both threads. *)
Definition run_threads (env : Env) (jobId : string) (sched : list Tid)
  : Threads :=
  fold_left (thread_step env jobId) sched threads0.

(** The scheduler reports the job [N] times with a non-empty line and
    then with an empty result, every query succeeding. *)
Definition reported (env : Env) (jobId : string) (N : nat) : Prop :=
  (forall i, (i < N)%nat ->
     exists out err, squeue env jobId i = (0, out, err)
                     /\ out <> EmptyString) /\
  (exists err, squeue env jobId N = (0, EmptyString, err)).

(** The scheduler reports the job [k] times with a non-empty line and
    the next status query exits with a non-zero code. *)
Definition query_fails (env : Env) (jobId : string) (k : nat) : Prop :=
  (forall i, (i < k)%nat ->
     exists out err, squeue env jobId i = (0, out, err)
                     /\ out <> EmptyString) /\
  (exists rc out err, squeue env jobId k = (rc, out, err) /\ rc <> 0).

(** The turns of the polling thread in a schedule. *)
Fixpoint polls (sched : list Tid) : nat :=
  match sched with
  | [] => 0%nat
  | TPoller :: rest => S (polls rest)
  | TMain :: rest => polls rest
  end.

(** Where both threads stand after a schedule with [p] turns of the
    polling thread, for a job reported [N] times. *)
Definition standing (N p : nat) (s : Threads) : Prop :=
  poller s = (if (p <=? N)%nat then Polling p
              else if (p =? S N)%nat then Leaving else Finished) /\
  queries s = Nat.min p (S N) /\
  sets s = (if (S (S N) <=? p)%nat then 1 else 0)%nat /\
  resultAvailable s = (S (S N) <=? p)%nat /\
  match waiter s with
  | Waiting => unblocks s = 0%nat
  | Unblocked => unblocks s = 1%nat /\ resultAvailable s = true
  end.

(** *** scriptABC and the stages *)

(** [_saveScript]: every line followed by a newline. *)
Definition saveScript (c : StageClass) (lines : list string) : M unit :=
  let file := className c ++ "." ++ type c in
  write_file file (String.concat EmptyString (map (fun item => item ++ "
") lines)).

(** [build]: assemble the lines (their text is the environment's) and save
    the script; a missing configuration key raises. *)
Definition build (env : Env) (c : StageClass) : M unit :=
  match scriptLines env (className c) with
  | None => raise KeyError
  | Some lines => do_ saveScript c lines; modify (log (EvBuild (className c)))
  end.

(** [run]: the absolute name of the script, then the runner its type
    selects. *)
Definition run (fuel : nat) (env : Env) (c : StageClass) : M unit :=
  do w <- get;
  let script := resolve w (className c ++ "." ++ type c) in
  do_ (if String.eqb (type c) "slurm"
       then enqueueSlurm fuel env script
       else runBashScript env script);
  modify (log (EvRun (className c))).

(** [postprocess]: [rupVar] first writes the rupture file list; every
    stage then overwrites the restart file with its own literal. *)
Definition postprocess (env : Env) (restartFile region : string)
    (c : StageClass) : M unit :=
  do_ (match c with
       | rupVar =>
           write_file ("post-processing/rupture_file_list_" ++ region)
                      (ruptureFileList env)
       | _ => ret tt
       end);
  do_ write_file restartFile (checkpointToken c);
  modify (log (EvPostprocess (className c))).

End workflow.

(** ** main.py: one pipeline run per site *)

Module Main.

Import workflow.

(** The entries of the configuration that the engine reads or sets. *)
Record Config := {
  output_path : string;                  (* ["output"]["path"] *)
  output_cRunpath : string;              (* ["output"]["cRunpath"] *)
  input_database_path : string;          (* ["input"]["database"]["path"] *)
  input_cyberShake_path : string;        (* ["input"]["cyberShake"]["path"] *)
  input_ERF_id : Z;                      (* ["input"]["ERF"]["id"] *)
  input_ERF_ruptures : option string;    (* ["input"]["ERF"]["ruptures"] *)
  input_model_id : Z;                    (* ["input"]["model"]["id"] *)
  input_region : string;                 (* ["input"]["region"] *)
  input_sites : list string;             (* ["input"]["sites"] *)
  compute_restart : bool;                (* ["compute"]["restart"] *)
  compute_restartFile : string;          (* ["compute"]["restartFile"] *)
  compute_workers : Z;                   (* ["compute"]["workers"] *)
  setup_sourceFrequency : Q;  (* ["compute"]["setup"]["sourceFrequency"] *)
  setup_frequency : Q                    (* ["compute"]["setup"]["frequency"] *)
}.

Definition set_restartFile (v : string) (c : Config) : Config :=
  {| output_path := output_path c; output_cRunpath := output_cRunpath c;
     input_database_path := input_database_path c;
     input_cyberShake_path := input_cyberShake_path c;
     input_ERF_id := input_ERF_id c;
     input_ERF_ruptures := input_ERF_ruptures c;
     input_model_id := input_model_id c; input_region := input_region c;
     input_sites := input_sites c; compute_restart := compute_restart c;
     compute_restartFile := v; compute_workers := compute_workers c;
     setup_sourceFrequency := setup_sourceFrequency c;
     setup_frequency := setup_frequency c |}.

Definition set_cRunpath (v : string) (c : Config) : Config :=
  {| output_path := output_path c; output_cRunpath := v;
     input_database_path := input_database_path c;
     input_cyberShake_path := input_cyberShake_path c;
     input_ERF_id := input_ERF_id c;
     input_ERF_ruptures := input_ERF_ruptures c;
     input_model_id := input_model_id c; input_region := input_region c;
     input_sites := input_sites c; compute_restart := compute_restart c;
     compute_restartFile := compute_restartFile c;
     compute_workers := compute_workers c;
     setup_sourceFrequency := setup_sourceFrequency c;
     setup_frequency := setup_frequency c |}.

Definition set_ERF_ruptures (v : string) (c : Config) : Config :=
  {| output_path := output_path c; output_cRunpath := output_cRunpath c;
     input_database_path := input_database_path c;
     input_cyberShake_path := input_cyberShake_path c;
     input_ERF_id := input_ERF_id c;
     input_ERF_ruptures := Some v;
     input_model_id := input_model_id c; input_region := input_region c;
     input_sites := input_sites c; compute_restart := compute_restart c;
     compute_restartFile := compute_restartFile c;
     compute_workers := compute_workers c;
     setup_sourceFrequency := setup_sourceFrequency c;
     setup_frequency := setup_frequency c |}.

(** [generateCyberShakeCFG]. *)
Definition generateCyberShakeCFG (config : Config) : M unit :=
  let path := output_cRunpath config in
  let nl := String (ascii_of_nat 10) EmptyString in
  do_ write_file (path ++ "/cybershake.cfg")
       ("CS_PATH = " ++ input_cyberShake_path config ++ nl
        ++ "SCRATCH_PATH = " ++ (path ++ "/scratch") ++ nl
        ++ "TMP_PATH = " ++ (path ++ "/tmp") ++ nl
        ++ "RUPTURE_ROOT = "
        ++ default EmptyString (input_ERF_ruptures config) ++ nl
        ++ "MPI_CMD = " ++ "srun" ++ nl
        ++ "LOG_PATH = " ++ (path ++ "/logs") ++ nl);
  do w <- get;
  match files w !! (input_cyberShake_path config ++ "/config.py") with
  | None => raise FileNotFoundError
  | Some text => write_file (path ++ "/config.py") text
  end.

(** The numeric slot of the progress bar: [(runID%2+1)*2-1].  Python's [%]
    takes the sign of the divisor, as [Z.modulo] does. *)
Definition slot (runID : Z) : Z := (runID mod 2 + 1) * 2 - 1.

(** The working directory of a run. *)
Definition cRunPath (config : Config) (runID : Z) (site : string) : string :=
  output_path config ++ "/" ++ site ++ "_" ++ Py.str runID.

(** The first part of [runSite]: the directory is created, or, on a
    restart into an existing directory, the first line of the restart file
    is read. *)
Definition readCheckpoint (config : Config) (cRunPath : string)
  : M (option string) :=
  do w <- get;
  if negb (compute_restart config && bool_decide (cRunPath ∈ dirs w)) then
    do_ makedirs cRunPath; ret None
  else
    let stageFile := cRunPath ++ "/" ++ compute_restartFile config in
    match files w !! stageFile with
    | Some text =>
        match Py.readlines text with
        | [] => raise IndexError
        | line :: _ => ret (Some line)
        end
    | None =>
        if bool_decide (stageFile ∈ dirs w) then raise IsADirectoryError
        else ret None
    end.

(** [stage == rstage] where [rstage] is a string or [None]. *)
Definition eq_rstage (stage : string) (rstage : option string) : bool :=
  match rstage with
  | Some r => String.eqb stage r
  | None => false
  end.

(** One stage of the loop once the restart point is behind.  The short
    name that [getSiteShortName] returns, the slot and the run id only
    enter the text of the script, which is the environment's. *)
Definition runStage (fuel : nat) (env : Env) (config : Config)
    (stage : string) : M unit :=
  match lookup stage with
  | None => raise AttributeError
  | Some c =>
      do_ modify (log (EvStart (className c)));
      do_ build env c;
      do_ run fuel env c;
      postprocess env (compute_restartFile config) (input_region config) c
  end.

(** The loop [for stage in pbar] of [runSite]. *)
Fixpoint stagesLoop (fuel : nat) (env : Env) (config : Config)
    (stages : list string) (rstage : option string) : M unit :=
  match stages with
  | [] => ret tt
  | stage :: rest =>
      if Py.truthy_opt rstage then
        if eq_rstage stage rstage
        then stagesLoop fuel env config rest None
        else stagesLoop fuel env config rest rstage
      else
        do_ runStage fuel env config stage;
        stagesLoop fuel env config rest rstage
  end.

(** [runSite]. *)
Definition runSite (fuel : nat) (env : Env) (config : Config) (runID : Z)
    (site : string) : M unit :=
  let id := slot runID in
  let cRunPath := cRunPath config runID site in
  let config := set_restartFile "stage.txt" config in
  do rstage <- readCheckpoint config cRunPath;
  if Py.truthy_opt rstage
     && bool_decide (rstage = Py.last_item wf) then ret tt
  else
    do_ chdir cRunPath;
    let config := set_cRunpath cRunPath config in
    do w <- get;
    let siteId := DAL.getSiteID site (db w) in
    if negb (Py.truthy_int siteId) then ret tt
    else
      do_ (match DAL.addRunInfo (now env) runID (default 0 siteId)
                   (input_ERF_id config) (input_model_id config)
                   (setup_sourceFrequency config) (setup_frequency config)
                   (db w) with
           | inl e => raise (SqlFailure e)
           | inr db' => modify (set_db db')
           end);
      do config <-
        (match input_ERF_ruptures config with
         | Some _ => ret config
         | None =>
             let config := set_ERF_ruptures (cRunPath ++ "/ruptures/") config in
             let opath := cRunPath ++ "/ruptures/" ++ "Ruptures_erf"
                          ++ Py.str (input_ERF_id config) ++ "/" in
             do_ modify (fun w =>
                   let '(d, f) := generateRuptures env opath (dirs w, files w)
                   in set_files f (set_dirs d w));
             ret config
         end);
      do_ generateCyberShakeCFG config;
      stagesLoop fuel env config wf rstage.

(** [runSite] up to its loop, the answer of the registry to [getSiteID]
    left open.  The query pastes the site name between double quotes into
    SQL, so which rows it finds, and whether it raises, is a matter of
    SQLite and of the schema: [lookup] stands for that answer.  The result
    is the configuration and the restart point the loop is entered with,
    or [None] when [runSite] returns before its loop. *)
Definition loopEntry (lookup : string -> DAL.Database -> Exn + option Z)
    (env : Env) (config : Config) (runID : Z) (site : string)
  : M (option (Config * option string)) :=
  let cRunPath := cRunPath config runID site in
  let config := set_restartFile "stage.txt" config in
  do rstage <- readCheckpoint config cRunPath;
  if Py.truthy_opt rstage
     && bool_decide (rstage = Py.last_item wf) then ret None
  else
    do_ chdir cRunPath;
    let config := set_cRunpath cRunPath config in
    do w <- get;
    match lookup site (db w) with
    | inl e => raise e
    | inr siteId =>
        if negb (Py.truthy_int siteId) then ret None
        else
          do_ (match DAL.addRunInfo (now env) runID (default 0 siteId)
                       (input_ERF_id config) (input_model_id config)
                       (setup_sourceFrequency config) (setup_frequency config)
                       (db w) with
               | inl e => raise (SqlFailure e)
               | inr db' => modify (set_db db')
               end);
          do config <-
            (match input_ERF_ruptures config with
             | Some _ => ret config
             | None =>
                 let config :=
                   set_ERF_ruptures (cRunPath ++ "/ruptures/") config in
                 let opath := cRunPath ++ "/ruptures/" ++ "Ruptures_erf"
                              ++ Py.str (input_ERF_id config) ++ "/" in
                 do_ modify (fun w =>
                       let '(d, f) :=
                         generateRuptures env opath (dirs w, files w)
                       in set_files f (set_dirs d w));
                 ret config
             end);
          do_ generateCyberShakeCFG config;
          ret (Some (config, rstage))
    end.

(** [runSite] with the answer of the registry left open: the part before
    the loop, then the loop.  [runSite] is the instance in which the
    lookup is [getSiteID] as modelled above. *)
Definition runSiteWith (lookup : string -> DAL.Database -> Exn + option Z)
    (fuel : nat) (env : Env) (config : Config) (runID : Z) (site : string)
  : M unit :=
  do entry <- loopEntry lookup env config runID site;
  match entry with
  | None => ret tt
  | Some (config, rstage) => stagesLoop fuel env config wf rstage
  end.

(** *** The loop of [runSite], one action at a time

    The same loop as a transition system, to speak of the states a run goes
    through: a step skips a stage that the restart point covers,
    instantiates a controller, or performs its [build], [run] or
    [postprocess]. *)

Inductive Pc :=
| AtStage (stages : list string) (rstage : option string)
| Started (c : StageClass) (rest : list string) (rstage : option string)
| Built (c : StageClass) (rest : list string) (rstage : option string)
| Ran (c : StageClass) (rest : list string) (rstage : option string)
| Returned
| Failed (e : Exn)
| Hung.

Definition State : Type := Pc * World.

(** The state after an action of the current stage. *)
Definition after (r : Res unit) (next : Pc) : option State :=
  match r with
  | Ok _ w => Some (next, w)
  | Raised e w => Some (Failed e, w)
  | Blocked w => Some (Hung, w)
  | OutOfFuel => None
  end.

Definition step (fuel : nat) (env : Env) (config : Config) (s : State)
  : option State :=
  let '(pc, w) := s in
  match pc with
  | AtStage [] _ => Some (Returned, w)
  | AtStage (stage :: rest) rstage =>
      if Py.truthy_opt rstage then
        if eq_rstage stage rstage then Some (AtStage rest None, w)
        else Some (AtStage rest rstage, w)
      else
        match lookup stage with
        | None => Some (Failed AttributeError, w)
        | Some c => Some (Started c rest rstage, log (EvStart (className c)) w)
        end
  | Started c rest rstage => after (build env c w) (Built c rest rstage)
  | Built c rest rstage => after (run fuel env c w) (Ran c rest rstage)
  | Ran c rest rstage =>
      after (postprocess env (compute_restartFile config)
               (input_region config) c w)
            (AtStage rest rstage)
  | Returned | Failed _ | Hung => None
  end.

(** A step with whatever patience the polling needs. *)
Definition steps_to (env : Env) (config : Config) (s s' : State) : Prop :=
  exists fuel, step fuel env config s = Some s'.

(** The states a run reaches from [s]. *)
Definition reachable (env : Env) (config : Config) (s s' : State) : Prop :=
  rtc (steps_to env config) s s'.

(** [n] steps in a row. *)
Fixpoint iterate (n fuel : nat) (env : Env) (config : Config) (s : State)
  : option State :=
  match n with
  | O => Some s
  | S n' =>
      match step fuel env config s with
      | Some s' => iterate n' fuel env config s'
      | None => None
      end
  end.

(** The token of the restart file of the active directory, if any. *)
Definition checkpoint (config : Config) (w : World) : option string :=
  files w !! resolve w (compute_restartFile config).

(** A stage has started when its controller was instantiated, and is
    complete when its three methods have returned. *)
Definition started (stage : string) (w : World) : Prop :=
  EvStart stage ∈ trace w.

Definition completed (stage : string) (w : World) : Prop :=
  EvBuild stage ∈ trace w /\ EvRun stage ∈ trace w
  /\ EvPostprocess stage ∈ trace w.

(** The checkpoint invariant of a world: the sequence splits into the
    stages done and the stages to do, the token is the last stage done,
    every stage done is complete, and a stage has started only if it is
    done or is the first to do. *)
Definition checkpoint_inv (config : Config) (w : World) : Prop :=
  exists done todo,
    wf = (done ++ todo)%list /\
    checkpoint config w = last done /\
    (forall s, s ∈ done -> completed s w) /\
    (forall s, started s w -> s ∈ done \/ head todo = Some s).

(** The invariant of the states of the loop: the one of the world,
    together with where the loop stands in the sequence. *)
Definition state_inv (config : Config) (s : State) : Prop :=
  let '(pc, w) := s in
  exists done todo,
    wf = (done ++ todo)%list /\
    checkpoint config w = last done /\
    (forall x, x ∈ done -> completed x w) /\
    (forall x, started x w -> x ∈ done \/ head todo = Some x) /\
    match pc with
    | AtStage stages rstage =>
        if Py.truthy_opt rstage then
          rstage = last done /\
          exists skipped T, wf = (skipped ++ stages)%list /\
                            rstage = Some T /\ T ∈ stages
        else stages = todo
    | Started c rest rstage =>
        Py.truthy_opt rstage = false /\ todo = className c :: rest
    | Built c rest rstage =>
        Py.truthy_opt rstage = false /\ todo = className c :: rest /\
        EvBuild (className c) ∈ trace w
    | Ran c rest rstage =>
        Py.truthy_opt rstage = false /\ todo = className c :: rest /\
        EvBuild (className c) ∈ trace w /\ EvRun (className c) ∈ trace w
    | Returned | Failed _ | Hung => True
    end.

(** The state a run starts the loop in: at the head of the sequence, the
    restart point being the token of the restart file (or none), over a
    history that satisfies the invariant. *)
Definition initial (config : Config) (s : State) : Prop :=
  exists w, s = (AtStage wf (checkpoint config w), w) /\
            checkpoint_inv config w.

(** The invariant as the specification words it: under a token, all
    earlier stages are complete and no later stage has started. *)
Definition strict_checkpoint_invariant (env : Env) (config : Config)
    (s0 : State) : Prop :=
  forall s, reachable env config s0 s ->
  forall t pre post,
    checkpoint config (snd s) = Some t ->
    wf = (pre ++ t :: post)%list ->
    (forall x, x ∈ pre -> completed x (snd s)) /\
    (forall x, x ∈ post -> ~ started x (snd s)).

(** *** A pipeline run and its restarts *)

(** A working directory in which nothing has happened yet: no restart
    file, and no stage has started. *)
Definition fresh (config : Config) (w : World) : Prop :=
  checkpoint config w = None /\ forall stage, ~ started stage w.

(** What [runSite] in restart mode takes from the restart file of the
    working directory as its restart point: the first of its lines, and no
    restart point when there is no such file.  The outer [None] stands for
    the [IndexError] of a file without lines, which ends the run before
    the loop. *)
Definition restart_point (config : Config) (w : World)
  : option (option string) :=
  match checkpoint config w with
  | None => Some None
  | Some text =>
      match Py.readlines text with
      | [] => None
      | line :: _ => Some (Some line)
      end
  end.

(** Two worlds with the same restart file and the same history of stage
    actions: what lies between the stop of a run and the loop of the next
    one (a row of the registry, the configuration files written anew)
    leaves both alone. *)
Definition same_progress (config : Config) (w w' : World) : Prop :=
  checkpoint config w' = checkpoint config w /\ trace w' = trace w.

(** The states a pipeline run goes through, its restarts included.  The
    first run enters the loop in the world [w0] without a restart point.
    A run may stop in any of its states (it returned, a stage raised, it is
    blocked, or the process was ended); a restart then enters the loop with
    the restart point read from the restart file.  Every run has its own
    environment and its own configuration, whose restart file [runSite]
    has named [stage.txt].  ([runSite] does not enter the loop on a
    restart point that is the last stage; entering it skips every stage
    and changes nothing, so the states are the same.) *)
Inductive pipeline_state (w0 : World) : State -> Prop :=
| first_run (env : Env) (config : Config) (s : State) :
    compute_restartFile config = "stage.txt" ->
    reachable env config (AtStage wf None, w0) s ->
    pipeline_state w0 s
| restarted (env : Env) (config : Config) (pc : Pc) (w w1 : World)
    (rstage : option string) (s : State) :
    pipeline_state w0 (pc, w) ->
    compute_restartFile config = "stage.txt" ->
    same_progress config w w1 ->
    restart_point config w1 = Some rstage ->
    reachable env config (AtStage wf rstage, w1) s ->
    pipeline_state w0 s.

(** The events of a stage that runs from its instantiation to its
    checkpoint. *)
Definition stage_events (stage : string) : list Event :=
  [EvStart stage; EvBuild stage; EvRun stage; EvPostprocess stage].

(** The stages of a list executed one after the other, each from [build]
    to [postprocess]: what "executing these stages in order" means. *)
Fixpoint execute_in_order (fuel : nat) (env : Env) (config : Config)
    (stages : list string) : M unit :=
  match stages with
  | [] => ret tt
  | stage :: rest =>
      do_ runStage fuel env config stage;
      execute_in_order fuel env config rest
  end.

(** *** The allocation of run ids in [main] *)

Fixpoint has_char (c : ascii) (s : string) : bool :=
  match s with
  | EmptyString => false
  | String a rest => Ascii.eqb a c || has_char c rest
  end.

Fixpoint last_char (s : string) : option ascii :=
  match s with
  | EmptyString => None
  | String a EmptyString => Some a
  | String _ rest => last_char rest
  end.

(** A name that the pattern [*[0-9]] matches: it ends with a digit and is
    not hidden. *)
Definition matches_digit_suffix (name : string) : bool :=
  match name, last_char name with
  | String "." _, _ => false
  | _, Some a => Py.is_digit a
  | _, None => false
  end.

(** The name of [p] relative to the directory [path], when [p] lies
    directly in it. *)
Definition entry_of (path p : string) : option string :=
  let dir := path ++ "/" in
  if String.prefix dir p then
    let name := String.substring (String.length dir)
                  (String.length p - String.length dir) p in
    if has_char "/" name then None else Some name
  else None.

(** [glob.glob(path + "/*[0-9]")]: files and directories alike. *)
Definition glob_digit_suffix (w : World) (path : string) : list string :=
  List.filter
    (fun p => match entry_of path p with
              | Some name => matches_digit_suffix name
              | None => false
              end)
    (elements (dirs w ∪ dom (files w))).

(** The run id [main] starts the batch with. *)
Definition startingRunID (config : Config) (w : World) : Exn + Z :=
  let runID := DAL.getValidRunId (db w) in
  if compute_restart config then
    let tmpids :=
      map (fun i => default EmptyString (Py.last_item (Py.split "_" i)))
          (glob_digit_suffix w (output_path config)) in
    match tmpids with
    | [] => inr runID
    | _ :: _ =>
        match Py.min tmpids with
        | None => inl ValueError
        | Some m =>
            match Py.int m with
            | None => inl ValueError
            | Some n => inr n
            end
        end
    end
  else inr runID.

(** The loop that fills [runIDs]: [runID+i] for the [i]-th site. *)
Fixpoint runIDs (runID i : Z) (sites : list string) : list Z :=
  match sites with
  | [] => []
  | _ :: rest => (runID + i) :: runIDs runID (i + 1) rest
  end.

(** The calls [executor.map] makes: [runSite config id site] for the ids
    and the sites taken pairwise. *)
Definition dispatch (config : Config) (runID : Z) : list (Z * string) :=
  zip (runIDs runID 0 (input_sites config)) (input_sites config).

End Main.

(** ** Sample inputs

    A registry, a clock, a configuration and an environment on which the
    statements below are also evaluated. *)

Module Sample.

Import DAL Main.

Definition registry0 : Database :=
  {| CyberShake_Runs := []; CyberShake_Sites := [] |}.

Definition clock0 : DateTime :=
  {| year := 2024; month := 10; day := 5;
     hour := 9; minute := 30; second := 7 |}.

Definition config0 : Config :=
  {| output_path := "/scratch/out"; output_cRunpath := EmptyString;
     input_database_path := "/scratch/db.sqlite";
     input_cyberShake_path := "/opt/cybershake";
     input_ERF_id := 36; input_ERF_ruptures := Some "/scratch/ruptures";
     input_model_id := 5; input_region := "iceland";
     input_sites := ["A"; "B"]; compute_restart := false;
     compute_restartFile := EmptyString; compute_workers := 2;
     setup_sourceFrequency := 1#2; setup_frequency := 1#2 |}.

(** The same configuration in restart mode. *)
Definition config_restart : Config :=
  {| output_path := "/scratch/out"; output_cRunpath := EmptyString;
     input_database_path := "/scratch/db.sqlite";
     input_cyberShake_path := "/opt/cybershake";
     input_ERF_id := 36; input_ERF_ruptures := Some "/scratch/ruptures";
     input_model_id := 5; input_region := "iceland";
     input_sites := ["A"; "B"]; compute_restart := true;
     compute_restartFile := EmptyString; compute_workers := 2;
     setup_sourceFrequency := 1#2; setup_frequency := 1#2 |}.

(** The configuration as [runSite] has it inside the loop of site A. *)
Definition config_loop : Config :=
  set_cRunpath "/scratch/out/A_1" (set_restartFile "stage.txt" config0).

Definition sites0 : list SiteRow :=
  [ {| CS_Site_ID := 3; CS_Site_Name := "A"; CS_Short_Name := "A" |};
    {| CS_Site_ID := 4; CS_Site_Name := "B"; CS_Short_Name := "B" |} ].

Definition world0 : World :=
  {| dirs := {[ "/scratch/out" ]};
     files := {[ "/opt/cybershake/config.py" := "# settings" ]};
     cwd := "/scratch/out";
     db := {| CyberShake_Runs := []; CyberShake_Sites := sites0 |};
     trace := [] |}.

(** The working directory of site A, entered, before any stage. *)
Definition world_A : World :=
  {| dirs := {[ "/scratch/out"; "/scratch/out/A_1" ]};
     files := {[ "/opt/cybershake/config.py" := "# settings" ]};
     cwd := "/scratch/out/A_1";
     db := {| CyberShake_Runs := []; CyberShake_Sites := sites0 |};
     trace := [] |}.

(** Two earlier working directories, with the run ids 9 and 10. *)
Definition world_restart : World :=
  {| dirs := {[ "/scratch/out"; "/scratch/out/A_9"; "/scratch/out/B_10" ]};
     files := ∅;
     cwd := "/scratch/out";
     db := {| CyberShake_Runs := []; CyberShake_Sites := sites0 |};
     trace := [] |}.

Definition newline : string := String (ascii_of_nat 10) EmptyString.

(** Every script succeeds, every submission is accepted as job 4711, and
    the job is reported twice before it leaves the queue. *)
Definition env_ok : Env :=
  {| scriptLines := fun stage => Some ["#!/bin/bash"; stage];
     bash := fun _ => (0, EmptyString);
     sbatch := fun _ =>
       (0, "Submitted batch job 4711" ++ newline, EmptyString);
     squeue := fun _ i =>
       if (i <? 2)%nat
       then (0, "Slurm job RUNNING (0:01 of 10:00)" ++ newline, EmptyString)
       else (0, EmptyString, EmptyString);
     ruptureFileList := "0" ++ newline;
     generateRuptures := fun _ fs => fs;
     now := clock0 |}.

(** As [env_ok], but the first status query of a job fails. *)
Definition env_squeue_fails : Env :=
  {| scriptLines := fun stage => Some ["#!/bin/bash"; stage];
     bash := fun _ => (0, EmptyString);
     sbatch := fun _ =>
       (0, "Submitted batch job 4711" ++ newline, EmptyString);
     squeue := fun _ _ => (1, EmptyString, "slurm_load_jobs error");
     ruptureFileList := "0" ++ newline;
     generateRuptures := fun _ fs => fs;
     now := clock0 |}.

(** As [env_ok], but the scheduler goes on reporting the job as pending. *)
Definition env_job_stays : Env :=
  {| scriptLines := fun stage => Some ["#!/bin/bash"; stage];
     bash := fun _ => (0, EmptyString);
     sbatch := fun _ =>
       (0, "Submitted batch job 4711" ++ newline, EmptyString);
     squeue := fun _ _ =>
       (0, "Slurm job PENDING (0:00 of 10:00)" ++ newline, EmptyString);
     ruptureFileList := "0" ++ newline;
     generateRuptures := fun _ fs => fs;
     now := clock0 |}.

(** As [env_ok], but [sbatch] exits with 0 and prints nothing. *)
Definition env_sbatch_silent : Env :=
  {| scriptLines := fun stage => Some ["#!/bin/bash"; stage];
     bash := fun _ => (0, EmptyString);
     sbatch := fun _ => (0, EmptyString, EmptyString);
     squeue := fun _ _ => (0, EmptyString, EmptyString);
     ruptureFileList := "0" ++ newline;
     generateRuptures := fun _ fs => fs;
     now := clock0 |}.

(** The working directory of site A in restart mode, its restart file
    opened for writing and the token not yet written. *)
Definition world_empty_token : World :=
  {| dirs := {[ "/scratch/out"; "/scratch/out/A_1" ]};
     files := {[ "/scratch/out/A_1/stage.txt" := EmptyString ]};
     cwd := "/scratch/out";
     db := {| CyberShake_Runs := []; CyberShake_Sites := sites0 |};
     trace := [] |}.

End Sample.

(** * Properties *)

(** ** The run registry *)

Section Registry.

Import DAL Sample.

Lemma count_runs_app k t1 t2 :
  count_runs k (t1 ++ t2)%list = (count_runs k t1 + count_runs k t2)%nat.
Proof.
  unfold count_runs. rewrite List.filter_app, length_app. reflexivity.
Qed.

Lemma existsb_count_runs k t :
  existsb (fun r => Run_ID r =? k) t = negb (count_runs k t =? 0)%nat.
Proof.
  unfold count_runs. induction t as [|r t IH]; simpl; [reflexivity|].
  destruct (Run_ID r =? k); simpl; [reflexivity | exact IH].
Qed.

(** An insert keeps the constraint of the table. *)
Lemma execute_insert_unique r t t' :
  unique_Run_ID t -> execute_insert r t = inr t' -> unique_Run_ID t'.
Proof.
  unfold execute_insert. intros Hu H.
  rewrite existsb_count_runs in H.
  destruct (count_runs (Run_ID r) t =? 0)%nat eqn:E; simpl in H; [|discriminate].
  injection H as <-. apply Nat.eqb_eq in E.
  intros k. rewrite count_runs_app. unfold count_runs at 2. simpl.
  destruct (Run_ID r =? k) eqn:Ek; simpl.
  - apply Z.eqb_eq in Ek. subst k. lia.
  - specialize (Hu k). lia.
Qed.

(** [addRunInfo] never lets an error escape. *)
Lemma addRunInfo_returns now runID siteID erfID modelID sfreq freq db :
  exists db', addRunInfo now runID siteID erfID modelID sfreq freq db = inr db'.
Proof.
  unfold addRunInfo.
  destruct (execute_insert _ _) as [[]|t]; eauto.
Qed.

(** After [addRunInfo] the key is registered. *)
Lemma addRunInfo_registers now runID siteID erfID modelID sfreq freq db db' :
  addRunInfo now runID siteID erfID modelID sfreq freq db = inr db' ->
  (1 <= count_runs runID (CyberShake_Runs db'))%nat.
Proof.
  unfold addRunInfo, execute_insert. rewrite existsb_count_runs. simpl.
  destruct (count_runs runID (CyberShake_Runs db) =? 0)%nat eqn:E; simpl;
    intros H; injection H as <-; simpl.
  - rewrite count_runs_app. unfold count_runs at 2. simpl.
    rewrite Z.eqb_refl. simpl. lia.
  - apply Nat.eqb_neq in E. lia.
Qed.

(** On a registered key [addRunInfo] changes nothing. *)
Lemma addRunInfo_registered now runID siteID erfID modelID sfreq freq db :
  (1 <= count_runs runID (CyberShake_Runs db))%nat ->
  addRunInfo now runID siteID erfID modelID sfreq freq db = inr db.
Proof.
  unfold addRunInfo, execute_insert. rewrite existsb_count_runs. simpl.
  intros H.
  destruct (count_runs runID (CyberShake_Runs db) =? 0)%nat eqn:E; simpl.
  - apply Nat.eqb_eq in E. lia.
  - reflexivity.
Qed.

Lemma addRunInfo_unique now runID siteID erfID modelID sfreq freq db db' :
  unique_Run_ID (CyberShake_Runs db) ->
  addRunInfo now runID siteID erfID modelID sfreq freq db = inr db' ->
  unique_Run_ID (CyberShake_Runs db').
Proof.
  unfold addRunInfo. intros Hu H.
  destruct (execute_insert _ _) as [[]|t] eqn:E; injection H as <-;
    [exact Hu|]. simpl. eapply execute_insert_unique; eauto.
Qed.

(** C4: two calls of [addRunInfo] with one run id both return normally,
    the second leaves the registry as the first left it, and the registry
    then holds exactly one row with that id; when the id was new, that row
    is the one the first call wrote. *)
Theorem addRunInfo_twice_one_row
    now1 now2 runID site1 erf1 model1 sfreq1 freq1
    site2 erf2 model2 sfreq2 freq2 db :
  unique_Run_ID (CyberShake_Runs db) ->
  exists db1,
    addRunInfo now1 runID site1 erf1 model1 sfreq1 freq1 db = inr db1 /\
    addRunInfo now2 runID site2 erf2 model2 sfreq2 freq2 db1 = inr db1 /\
    count_runs runID (CyberShake_Runs db1) = 1%nat /\
    (count_runs runID (CyberShake_Runs db) = 0%nat ->
     List.filter (fun r => Run_ID r =? runID) (CyberShake_Runs db1)
     = [runRow now1 runID site1 erf1 model1 sfreq1 freq1]).
Proof.
  intros Hu.
  destruct (addRunInfo_returns now1 runID site1 erf1 model1 sfreq1 freq1 db)
    as [db1 H1].
  exists db1. split; [exact H1|].
  pose proof (addRunInfo_registers _ _ _ _ _ _ _ _ _ H1) as Hge.
  pose proof (addRunInfo_unique _ _ _ _ _ _ _ _ _ Hu H1 runID) as Hle.
  split; [apply addRunInfo_registered; exact Hge|].
  split; [lia|].
  intros H0. revert H1. unfold addRunInfo, execute_insert.
  rewrite existsb_count_runs. simpl. rewrite H0. simpl.
  intros H1. injection H1 as <-. simpl.
  rewrite List.filter_app. simpl. rewrite Z.eqb_refl.
  unfold count_runs in H0. apply length_zero_iff_nil in H0.
  rewrite H0. reflexivity.
Qed.

Lemma addRunInfo_twice_one_row_witness :
  unique_Run_ID (CyberShake_Runs registry0) /\
  exists db1,
    addRunInfo clock0 7 3 36 5 (1#2) (1#2) registry0 = inr db1 /\
    addRunInfo clock0 7 4 37 6 (1#1) (1#1) db1 = inr db1 /\
    count_runs 7 (CyberShake_Runs db1) = 1%nat /\
    (count_runs 7 (CyberShake_Runs registry0) = 0%nat ->
     List.filter (fun r => Run_ID r =? 7) (CyberShake_Runs db1)
     = [runRow clock0 7 3 36 5 (1#2) (1#2)]).
Proof.
  assert (H : unique_Run_ID (CyberShake_Runs registry0))
    by (intros k; unfold count_runs; simpl; lia).
  split; [exact H|].
  exact (addRunInfo_twice_one_row clock0 clock0 7 3 36 5 (1#2) (1#2)
           4 37 6 (1#1) (1#1) registry0 H).
Defined.

(** *** The run id handed out *)

Lemma max_Run_ID_nil t : max_Run_ID t = None <-> t = [].
Proof.
  destruct t as [|r t]; simpl; [tauto|].
  destruct (max_Run_ID t); split; discriminate.
Qed.

Lemma max_Run_ID_upper t m :
  max_Run_ID t = Some m -> forall r, In r t -> Run_ID r <= m.
Proof.
  revert m. induction t as [|r0 t IH]; simpl; intros m H r Hin; [tauto|].
  destruct (max_Run_ID t) as [m'|] eqn:E.
  - injection H as <-. destruct Hin as [<-|Hin]; [lia|].
    specialize (IH m' eq_refl r Hin). lia.
  - injection H as <-. apply max_Run_ID_nil in E. subst t.
    destruct Hin as [<-|[]]. lia.
Qed.

Lemma max_Run_ID_attained t m :
  max_Run_ID t = Some m -> exists r, In r t /\ Run_ID r = m.
Proof.
  revert m. induction t as [|r0 t IH]; simpl; intros m H; [discriminate|].
  destruct (max_Run_ID t) as [m'|] eqn:E.
  - injection H as <-. destruct (IH m' eq_refl) as (r & Hin & Hr).
    destruct (Z.max_spec (Run_ID r0) m') as [[_ ->]|[_ ->]]; eauto.
  - injection H as <-. eauto.
Qed.

(** [getValidRunId] is the greatest run id plus one, whatever its sign,
    and one on the empty table. *)
Lemma getValidRunId_max db :
  match max_Run_ID (CyberShake_Runs db) with
  | None => getValidRunId db = 1
  | Some m => getValidRunId db = m + 1
  end.
Proof.
  unfold getValidRunId. destruct (max_Run_ID _) as [m|]; [|reflexivity].
  simpl. destruct (m =? 0) eqn:E; simpl; [|lia].
  apply Z.eqb_eq in E. subst m. reflexivity.
Qed.

(** *** The time stamp *)

Lemma digits_no_minus d :
  Main.has_char "-" (NilEmpty.string_of_uint d) = false.
Proof. induction d; simpl; auto. Qed.

Lemma str_no_minus n : 0 <= n -> Main.has_char "-" (Py.str n) = false.
Proof.
  intros Hn. unfold Py.str. destruct n as [|p|p]; [reflexivity| |lia].
  simpl. unfold NilZero.string_of_uint.
  destruct (Pos.to_uint p); try apply digits_no_minus. reflexivity.
Qed.

Lemma has_char_app c s t :
  Main.has_char c (s ++ t) = Main.has_char c s || Main.has_char c t.
Proof.
  induction s as [|a s IH]; simpl; [reflexivity|].
  rewrite IH. apply orb_assoc.
Qed.

Lemma pad2_no_minus n : 0 <= n -> Main.has_char "-" (pad2 n) = false.
Proof.
  intros Hn. unfold pad2. destruct (n <? 10).
  - rewrite has_char_app, str_no_minus by exact Hn. reflexivity.
  - apply str_no_minus, Hn.
Qed.

Lemma split_sep c s t :
  Main.has_char c s = false ->
  Py.split c (s ++ String c t) = s :: Py.split c t.
Proof.
  induction s as [|a s IH]; simpl; intros H.
  - rewrite Ascii.eqb_refl. reflexivity.
  - apply orb_false_iff in H as [Ha Hs]. rewrite Ha, (IH Hs). reflexivity.
Qed.

Lemma pad2_month_length m : 1 <= m <= 12 -> String.length (pad2 m) = 2%nat.
Proof.
  intros H.
  assert (m = 1 \/ m = 2 \/ m = 3 \/ m = 4 \/ m = 5 \/ m = 6 \/ m = 7
          \/ m = 8 \/ m = 9 \/ m = 10 \/ m = 11 \/ m = 12) as Hm by lia.
  repeat (destruct Hm as [->|Hm]; [reflexivity|]). subst m. reflexivity.
Qed.

(** The field between the first two dashes of the time stamp. *)
Lemma strftime_month_field d :
  valid_datetime d ->
  Py.split "-" (strftime d) !! 1%nat = Some ("0" ++ pad2 (month d)).
Proof.
  intros (Hy & Hm & _). unfold strftime.
  change (Py.str (year d) ++ "-0" ++ pad2 (month d) ++ "-" ++ ?r)
    with (Py.str (year d) ++ String "-" (("0" ++ pad2 (month d))
            ++ String "-" r)).
  rewrite split_sep by (apply str_no_minus; lia).
  rewrite split_sep; [reflexivity|].
  rewrite has_char_app, pad2_no_minus by lia. reflexivity.
Qed.

(** A row that [addRunInfo] adds is the row of its arguments. *)
Lemma addRunInfo_new_row now runID siteID erfID modelID sfreq freq db db' r :
  addRunInfo now runID siteID erfID modelID sfreq freq db = inr db' ->
  In r (CyberShake_Runs db') -> ~ In r (CyberShake_Runs db) ->
  r = runRow now runID siteID erfID modelID sfreq freq.
Proof.
  unfold addRunInfo, execute_insert.
  destruct (existsb _ _); intros H Hin Hnot; injection H as <-.
  - contradiction.
  - simpl in Hin. apply in_app_or in Hin as [Hin|[<-|[]]];
      [contradiction | reflexivity].
Qed.

(** C10: a row that [addRunInfo] inserts carries the time stamp of the
    format with the literal zero: its month field, the text between the
    first two dashes, is a zero followed by the two-digit month, three
    characters in all, whatever the date. *)
Theorem addRunInfo_month_three_digits
    now runID siteID erfID modelID sfreq freq db db' r :
  valid_datetime now ->
  addRunInfo now runID siteID erfID modelID sfreq freq db = inr db' ->
  In r (CyberShake_Runs db') -> ~ In r (CyberShake_Runs db) ->
  Status_Time r = strftime now /\
  Py.split "-" (Status_Time r) !! 1%nat = Some ("0" ++ pad2 (month now)) /\
  String.length (pad2 (month now)) = 2%nat /\
  String.length ("0" ++ pad2 (month now)) = 3%nat.
Proof.
  intros Hv H Hin Hnot.
  rewrite (addRunInfo_new_row _ _ _ _ _ _ _ _ _ _ H Hin Hnot). simpl.
  pose proof Hv as (_ & Hm & _).
  split; [reflexivity|]. split; [apply strftime_month_field, Hv|].
  split; [apply pad2_month_length, Hm|].
  change (S (String.length (pad2 (month now))) = 3%nat).
  rewrite (pad2_month_length _ Hm). reflexivity.
Qed.

Lemma clock0_valid : valid_datetime clock0.
Proof. unfold valid_datetime, clock0; simpl; lia. Qed.

Lemma addRunInfo_month_three_digits_witness :
  Status_Time (runRow clock0 7 3 36 5 (1#2) (1#2)) = "2024-010-05 09:30:07"
  /\ Py.split "-" (Status_Time (runRow clock0 7 3 36 5 (1#2) (1#2))) !! 1%nat
     = Some "010".
Proof.
  assert (Hadd : addRunInfo clock0 7 3 36 5 (1#2) (1#2) registry0
                 = inr {| CyberShake_Runs := [runRow clock0 7 3 36 5 (1#2) (1#2)];
                          CyberShake_Sites := [] |}) by reflexivity.
  assert (Hin : In (runRow clock0 7 3 36 5 (1#2) (1#2))
                   (CyberShake_Runs
                      {| CyberShake_Runs := [runRow clock0 7 3 36 5 (1#2) (1#2)];
                         CyberShake_Sites := [] |})) by (left; reflexivity).
  assert (Hnot : ~ In (runRow clock0 7 3 36 5 (1#2) (1#2))
                      (CyberShake_Runs registry0)) by (intros []).
  destruct (addRunInfo_month_three_digits _ _ _ _ _ _ _ _ _ _
              clock0_valid Hadd Hin Hnot) as (H1 & H2 & _).
  split; [exact H1 | exact H2].
Defined.

End Registry.

(** ** The allocation of run ids and working directories *)

Section Allocation.

Import DAL Main Sample.

(** C5: [getValidRunId] is one on the empty table and the greatest run id
    plus one otherwise; so a batch over the sites A and B that starts on
    an empty registry, with no earlier working directory to restart from,
    gets the run ids 1 and 2 in the order of the list and works in
    [path/A_1] and [path/B_2]. *)
Theorem getValidRunId_fresh_batch :
  (forall db, CyberShake_Runs db = [] -> getValidRunId db = 1) /\
  (forall db, CyberShake_Runs db <> [] ->
     exists r, In r (CyberShake_Runs db) /\
       (forall r', In r' (CyberShake_Runs db) -> Run_ID r' <= Run_ID r) /\
       getValidRunId db = Run_ID r + 1) /\
  (forall config w,
     CyberShake_Runs (db w) = [] ->
     input_sites config = ["A"; "B"] ->
     compute_restart config = false
       \/ glob_digit_suffix w (output_path config) = [] ->
     startingRunID config w = inr 1 /\
     dispatch config 1 = [(1, "A"); (2, "B")] /\
     cRunPath config 1 "A" = output_path config ++ "/A_1" /\
     cRunPath config 2 "B" = output_path config ++ "/B_2").
Proof.
  split; [|split].
  - intros db H. pose proof (getValidRunId_max db) as Hm.
    apply max_Run_ID_nil in H. rewrite H in Hm. exact Hm.
  - intros db H. pose proof (getValidRunId_max db) as Hm.
    destruct (max_Run_ID (CyberShake_Runs db)) as [m|] eqn:E.
    + destruct (max_Run_ID_attained _ _ E) as (r & Hin & Hr).
      exists r. subst m. split; [exact Hin|]. split; [|exact Hm].
      apply (max_Run_ID_upper _ _ E).
    + apply max_Run_ID_nil in E. contradiction.
  - intros config w Hempty Hsites Hfresh.
    assert (Hid : getValidRunId (db w) = 1).
    { pose proof (getValidRunId_max (db w)) as Hm.
      apply max_Run_ID_nil in Hempty. rewrite Hempty in Hm. exact Hm. }
    split.
    + unfold startingRunID. rewrite Hid.
      destruct Hfresh as [-> | ->]; [reflexivity|].
      destruct (compute_restart config); reflexivity.
    + unfold dispatch. rewrite Hsites. repeat split; reflexivity.
Qed.

Lemma getValidRunId_fresh_batch_witness :
  startingRunID config0 world0 = inr 1 /\
  dispatch config0 1 = [(1, "A"); (2, "B")] /\
  cRunPath config0 1 "A" = "/scratch/out/A_1" /\
  cRunPath config0 2 "B" = "/scratch/out/B_2".
Proof.
  exact (proj2 (proj2 getValidRunId_fresh_batch) config0 world0
           eq_refl eq_refl (or_introl eq_refl)).
Defined.

(** C7, the behaviour of the code: on a restart over the working
    directories [A_9] and [B_10] the batch starts at run id 10, the least
    suffix in the order of strings, though 9 is the least number. *)
Theorem startingRunID_least_as_text :
  "/scratch/out/A_9"
    ∈ glob_digit_suffix world_restart (output_path config_restart) /\
  "/scratch/out/B_10"
    ∈ glob_digit_suffix world_restart (output_path config_restart) /\
  length (glob_digit_suffix world_restart (output_path config_restart))
    = 2%nat /\
  Py.int "9" = Some 9 /\ Py.int "10" = Some 10 /\
  Py.str_ltb "10" "9" = true /\
  startingRunID config_restart world_restart = inr 10.
Proof.
  repeat split; try (vm_compute; reflexivity);
    apply list_elem_of_In; vm_compute; tauto.
Qed.

(** C9, the claim as stated fails: with a pool of one worker the run id 1
    gets the slot 3, outside [0, 2). *)
Lemma slot_outside_single_pool : ~ (0 <= slot 1 < 2 * 1).
Proof. vm_compute. intros [_ H]. discriminate H. Qed.

(** C9 as amended: the slot is 1 for an even and 3 for an odd run id,
    whatever the pool size, hence within [0, 2*poolSize) as soon as the
    pool has two workers. *)
Theorem slot_bounds runID poolSize :
  2 <= poolSize ->
  (slot runID = 1 \/ slot runID = 3) /\
  (slot runID = if Z.even runID then 1 else 3) /\
  0 <= slot runID < 2 * poolSize.
Proof.
  intros Hp. unfold slot.
  pose proof (Z.mod_pos_bound runID 2 ltac:(lia)) as Hm.
  rewrite Zmod_even in *. destruct (Z.even runID); lia.
Qed.

Lemma slot_bounds_witness :
  2 <= 2 /\ (slot 1 = 1 \/ slot 1 = 3) /\
  (slot 1 = if Z.even 1 then 1 else 3) /\ 0 <= slot 1 < 2 * 2.
Proof.
  split; [lia | apply (slot_bounds 1 2); lia].
Defined.

End Allocation.

(** ** The stage loop *)

Section StageLoop.

Import workflow Main.

Variable fuel : nat.
Variable env : Env.
Variable config : Config.

Ltac monad :=
  unfold bind, ret, raise, get, modify in *; simpl in *.

Lemma wf_NoDup : NoDup wf.
Proof. apply (bool_decide_unpack _). vm_compute. exact I. Qed.

Lemma lookup_className stage c : lookup stage = Some c -> className c = stage.
Proof.
  unfold lookup. intros H. apply find_some in H as [_ H].
  apply String.eqb_eq in H. exact H.
Qed.

Lemma lookup_wf stage : stage ∈ wf -> is_Some (lookup stage).
Proof.
  intros H. apply list_elem_of_In in H. simpl in H.
  repeat (destruct H as [<-|H]; [vm_compute; eauto|]). destruct H.
Qed.

(** *** What each method leaves in the trace *)

Lemma write_file_trace path text w :
  match write_file path text w with
  | Ok _ w' => trace w' = trace w /\ dirs w' = dirs w /\ cwd w' = cwd w
               /\ db w' = db w
               /\ files w' = <[resolve w path := text]> (files w)
  | Raised _ w' => w' = w
  | _ => False
  end.
Proof. unfold write_file. destruct (decide _); simpl; auto. Qed.

Lemma build_trace c w :
  match build env c w with
  | Ok _ w' => trace w' = (trace w ++ [EvBuild (className c)])%list
  | Raised _ w' => w' = w
  | _ => False
  end.
Proof.
  unfold build. destruct (scriptLines env (className c)); [|reflexivity].
  unfold saveScript. monad.
  pose proof (write_file_trace (className c ++ "." ++ type c)
    (String.concat EmptyString (map (fun item => item ++ "
") l)) w) as H.
  destruct (write_file _ _ w); simpl; try tauto.
  destruct H as (-> & _). reflexivity.
Qed.

Lemma runBashScript_world cmd w :
  match runBashScript env cmd w with
  | Ok _ w' | Raised _ w' => w' = w
  | _ => False
  end.
Proof.
  unfold runBashScript. destruct (bash env cmd) as [rc err].
  destruct (negb (rc =? 0)); reflexivity.
Qed.

Lemma enqueueSlurm_world cmd w :
  match enqueueSlurm fuel env cmd w with
  | Ok _ w' | Raised _ w' | Blocked w' => w' = w
  | OutOfFuel => True
  end.
Proof.
  unfold enqueueSlurm. destruct (sbatch env _) as [[rc out] err].
  destruct (negb (rc =? 0)); [reflexivity|].
  destruct (_ !! 3%nat); [|reflexivity].
  destruct (waitForSlurmJob _ _ _ _); auto.
Qed.

Lemma run_trace c w :
  match run fuel env c w with
  | Ok _ w' => w' = log (EvRun (className c)) w
  | Raised _ w' | Blocked w' => w' = w
  | OutOfFuel => True
  end.
Proof.
  unfold run. monad. destruct (String.eqb (type c) "slurm").
  - pose proof (enqueueSlurm_world (resolve w (className c ++ "." ++ type c)) w).
    destruct (enqueueSlurm _ _ _ w); subst; auto.
  - pose proof (runBashScript_world (resolve w (className c ++ "." ++ type c)) w).
    destruct (runBashScript _ _ w); subst; tauto.
Qed.

Lemma postprocess_trace restartFile region c w :
  match postprocess env restartFile region c w with
  | Ok _ w' =>
      trace w' = (trace w ++ [EvPostprocess (className c)])%list
      /\ files w' !! resolve w restartFile = Some (checkpointToken c)
  | Raised _ w' => trace w' = trace w
  | _ => False
  end.
Proof.
  unfold postprocess. monad.
  assert (Hlast : forall w0, cwd w0 = cwd w -> trace w0 = trace w ->
    match
      match write_file restartFile (checkpointToken c) w0 with
      | Ok _ w' => Ok tt (log (EvPostprocess (className c)) w')
      | Raised e w' => Raised e w'
      | Blocked w' => Blocked w'
      | OutOfFuel => OutOfFuel
      end
    with
    | Ok _ w' =>
        trace w' = (trace w ++ [EvPostprocess (className c)])%list
        /\ files w' !! resolve w restartFile = Some (checkpointToken c)
    | Raised _ w' => trace w' = trace w
    | _ => False
    end).
  { intros w0 Hc Ht.
    pose proof (write_file_trace restartFile (checkpointToken c) w0) as H.
    destruct (write_file _ _ w0); simpl; try tauto.
    - destruct H as (H1 & _ & _ & _ & H5). rewrite H1, Ht.
      split; [reflexivity|]. rewrite H5.
      replace (resolve w restartFile) with (resolve w0 restartFile)
        by (unfold resolve; rewrite Hc; reflexivity).
      apply lookup_insert_eq.
    - subst. exact Ht. }
  destruct c; try (apply Hlast; reflexivity).
  pose proof (write_file_trace
    ("post-processing/rupture_file_list_" ++ region) (ruptureFileList env) w)
    as H.
  destruct (write_file _ _ w); simpl; try tauto.
  - destruct H as (H1 & _ & H3 & _). apply Hlast; assumption.
  - subst. reflexivity.
Qed.

(** A stage leaves its four events when it returns, and a proper prefix of
    them when it does not. *)
Lemma runStage_trace stage c w :
  lookup stage = Some c ->
  match runStage fuel env config stage w with
  | Ok _ w' => trace w' = (trace w ++ stage_events stage)%list
  | Raised _ w' | Blocked w' =>
      exists n, (n < 4)%nat /\
        trace w' = (trace w ++ take n (stage_events stage))%list
  | OutOfFuel => True
  end.
Proof.
  intros Hc. unfold runStage. rewrite Hc.
  pose proof (lookup_className _ _ Hc) as Hn. rewrite Hn. monad.
  set (w1 := log (EvStart stage) w).
  pose proof (build_trace c w1) as Hb. rewrite Hn in Hb.
  destruct (build env c w1) as [[] w2|e w2|w2|]; try tauto.
  2:{ subst w2. exists 1%nat. split; [lia|reflexivity]. }
  pose proof (run_trace c w2) as Hr. rewrite Hn in Hr.
  destruct (run fuel env c w2) as [[] w3|e w3|w3|]; auto.
  2,3: subst w3; exists 2%nat; split; [lia|]; rewrite Hb; simpl;
       rewrite <- app_assoc; reflexivity.
  pose proof (postprocess_trace (compute_restartFile config)
                (input_region config) c w3) as Hp. rewrite Hn in Hp.
  destruct (postprocess _ _ _ c w3) as [[] w4|e w4|w4|]; try tauto.
  - destruct Hp as [Hp _]. rewrite Hp, Hr. simpl. rewrite Hb. simpl.
    rewrite <- !app_assoc. reflexivity.
  - exists 3%nat. split; [lia|]. rewrite Hp, Hr. simpl. rewrite Hb. simpl.
    rewrite <- !app_assoc. reflexivity.
Qed.

Lemma runStage_unknown stage w :
  lookup stage = None ->
  runStage fuel env config stage w = Raised AttributeError w.
Proof. intros H. unfold runStage. rewrite H. reflexivity. Qed.

(** The trace after a list of stages executed in order: all their events
    when the run returns, a prefix of them otherwise. *)
Lemma execute_in_order_trace stages w :
  match execute_in_order fuel env config stages w with
  | Ok _ w' => trace w' = (trace w ++ flat_map stage_events stages)%list
  | Raised _ w' | Blocked w' =>
      exists n, (n < length (flat_map stage_events stages))%nat /\
        trace w' = (trace w ++ take n (flat_map stage_events stages))%list
  | OutOfFuel => True
  end.
Proof.
  revert w. induction stages as [|stage rest IH]; intros w.
  - simpl. rewrite app_nil_r. reflexivity.
  - cbn [execute_in_order flat_map]. unfold bind.
    destruct (lookup stage) as [c|] eqn:Hc.
    + pose proof (runStage_trace stage c w Hc) as Hs.
      destruct (runStage fuel env config stage w) as [[] w1|e w1|w1|]; auto.
      * specialize (IH w1).
        destruct (execute_in_order fuel env config rest w1)
          as [[] w2|e w2|w2|]; auto.
        -- rewrite IH, Hs, <- app_assoc. reflexivity.
        -- destruct IH as (n & Hn & IH). exists (4 + n)%nat.
           split; [rewrite length_app; simpl; lia|].
           rewrite IH, Hs, <- app_assoc. reflexivity.
        -- destruct IH as (n & Hn & IH). exists (4 + n)%nat.
           split; [rewrite length_app; simpl; lia|].
           rewrite IH, Hs, <- app_assoc. reflexivity.
      * destruct Hs as (n & Hn & Hs). exists n.
        split; [rewrite length_app; simpl; lia|].
        rewrite Hs, take_app_le by (simpl; lia). reflexivity.
      * destruct Hs as (n & Hn & Hs). exists n.
        split; [rewrite length_app; simpl; lia|].
        rewrite Hs, take_app_le by (simpl; lia). reflexivity.
    + rewrite (runStage_unknown _ _ Hc). exists 0%nat.
      split; [simpl; lia|]. simpl. rewrite app_nil_r. reflexivity.
Qed.

(** *** The restart point *)

(** Once the restart point is behind, the loop executes what is left. *)
Lemma stagesLoop_falsy stages rstage w :
  Py.truthy_opt rstage = false ->
  stagesLoop fuel env config stages rstage w
  = execute_in_order fuel env config stages w.
Proof.
  intros Hr. revert w. induction stages as [|stage rest IH]; intros w;
    [reflexivity|].
  cbn [stagesLoop execute_in_order]. rewrite Hr. unfold bind.
  destruct (runStage fuel env config stage w); auto.
Qed.

(** Up to the restart point every stage is passed over. *)
Lemma stagesLoop_skip T pre post w :
  Py.truthy T = true -> T ∉ pre ->
  stagesLoop fuel env config (pre ++ T :: post) (Some T) w
  = stagesLoop fuel env config post None w.
Proof.
  intros HT. induction pre as [|stage pre IH]; intros Hnot.
  - cbn [app stagesLoop Py.truthy_opt eq_rstage]. rewrite HT.
    rewrite String.eqb_refl. reflexivity.
  - apply not_elem_of_cons in Hnot as [Hne Hnot].
    cbn [app stagesLoop Py.truthy_opt eq_rstage]. rewrite HT.
    destruct (String.eqb stage T) eqn:E.
    + apply String.eqb_eq in E. congruence.
    + apply IH, Hnot.
Qed.

(** A restart point that no stage bears passes over all of them. *)
Lemma stagesLoop_no_match T stages w :
  Py.truthy T = true -> T ∉ stages ->
  stagesLoop fuel env config stages (Some T) w = Ok tt w.
Proof.
  intros HT. induction stages as [|stage rest IH]; intros Hnot;
    [reflexivity|].
  apply not_elem_of_cons in Hnot as [Hne Hnot].
  cbn [stagesLoop Py.truthy_opt eq_rstage]. rewrite HT.
  destruct (String.eqb stage T) eqn:E.
  - apply String.eqb_eq in E. congruence.
  - apply IH, Hnot.
Qed.

Lemma truthy_nonempty T : T <> EmptyString -> Py.truthy T = true.
Proof. destruct T; [congruence | reflexivity]. Qed.

(** C1: with a restart token [T] that stands in the sequence, the loop is
    the execution, in order, of the stages after [T] and of no other: its
    result is theirs, and the trace grows by their events, all of them when
    the run returns and a prefix of them when a stage fails; with a token
    that stands nowhere in the sequence the loop returns at once and the
    world is as before. *)
Theorem resume_executes_stages_after T w :
  T <> EmptyString ->
  (forall pre post, wf = (pre ++ T :: post)%list ->
     stagesLoop fuel env config wf (Some T) w
     = execute_in_order fuel env config post w /\
     match stagesLoop fuel env config wf (Some T) w with
     | Ok _ w' => trace w' = (trace w ++ flat_map stage_events post)%list
     | Raised _ w' | Blocked w' =>
         exists n, (n < length (flat_map stage_events post))%nat /\
           trace w' = (trace w ++ take n (flat_map stage_events post))%list
     | OutOfFuel => True
     end) /\
  (T ∉ wf -> stagesLoop fuel env config wf (Some T) w = Ok tt w).
Proof.
  intros HT. apply truthy_nonempty in HT. split.
  - intros pre post Hwf.
    assert (Heq : stagesLoop fuel env config wf (Some T) w
                  = execute_in_order fuel env config post w).
    { pose proof wf_NoDup as Hnd. rewrite Hwf in Hnd |- *.
      apply NoDup_app in Hnd as (_ & Hdis & _).
      rewrite stagesLoop_skip; [apply stagesLoop_falsy; reflexivity
                               | exact HT |].
      intros Hin. apply (Hdis _ Hin). left. }
    split; [exact Heq|]. rewrite Heq. apply execute_in_order_trace.
  - intros Hnot. apply stagesLoop_no_match; assumption.
Qed.

End StageLoop.

Lemma sample_resume_returns :
  is_ok (Main.stagesLoop 3 Sample.env_ok Sample.config_loop workflow.wf
           (Some "checkX") Sample.world_A) = true.
Proof. vm_compute. reflexivity. Qed.

Lemma resume_executes_stages_after_witness :
  "checkX" <> EmptyString /\
  exists w',
    Main.stagesLoop 3 Sample.env_ok Sample.config_loop workflow.wf
      (Some "checkX") Sample.world_A = Ok tt w' /\
    trace w' = flat_map Main.stage_events
                 ["checkY"; "postX"; "postY"; "rupVar"; "runDS"; "cleanUp"].
Proof.
  split; [discriminate|].
  destruct (resume_executes_stages_after 3 Sample.env_ok Sample.config_loop
              "checkX" Sample.world_A ltac:(discriminate)) as [H _].
  destruct (H ["preSGT"; "preAWP"; "AWPX"; "AWPY"]
              ["checkY"; "postX"; "postY"; "rupVar"; "runDS"; "cleanUp"]
              eq_refl) as [_ Ht].
  pose proof sample_resume_returns as Hok.
  destruct (Main.stagesLoop 3 Sample.env_ok Sample.config_loop workflow.wf
              (Some "checkX") Sample.world_A) as [[] w'|e w'|w'|];
    try discriminate Hok.
  exists w'. split; [reflexivity | exact Ht].
Defined.

(** ** [runSite] as a whole *)

Section RunSite.

Import workflow Main.

(** A first line read from a file is never empty, so a token that was read
    always counts as set. *)
Lemma readlines_truthy text line rest :
  Py.readlines text = line :: rest -> Py.truthy line = true.
Proof.
  revert line rest. induction text as [|a text IH]; simpl; intros line rest H;
    [discriminate|].
  destruct (Ascii.eqb a "010"%char).
  - injection H as <- _. reflexivity.
  - destruct (Py.readlines text); injection H as <- _; reflexivity.
Qed.

Lemma readCheckpoint_truthy config dir w T w' :
  readCheckpoint config dir w = Ok (Some T) w' -> Py.truthy T = true.
Proof.
  unfold readCheckpoint, bind, get, ret, raise.
  destruct (negb _).
  - destruct (makedirs dir w); discriminate.
  - destruct (files w !! _) as [text|].
    + destruct (Py.readlines text) as [|line rest] eqn:E; [discriminate|].
      intros H. injection H as <- _. eapply readlines_truthy, E.
    + destruct (bool_decide _); discriminate.
Qed.

(** C6: when the restart file of an existing working directory, read in
    restart mode, begins with the line [cleanUp], the last stage of the
    sequence, [runSite] returns at once: the world it leaves (directories,
    files, active directory, registry and trace of stage actions) is the
    world it found. *)
Theorem runSite_already_done fuel env config runID site w text rest :
  compute_restart config = true ->
  cRunPath config runID site ∈ dirs w ->
  files w !! (cRunPath config runID site ++ "/stage.txt") = Some text ->
  Py.readlines text = "cleanUp" :: rest ->
  Py.last_item wf = Some "cleanUp" /\
  runSite fuel env config runID site w = Ok tt w.
Proof.
  intros Hr Hd Hf Hl. split; [reflexivity|].
  unfold runSite, readCheckpoint, bind, get, ret.
  change (compute_restart (set_restartFile "stage.txt" config))
    with (compute_restart config).
  change (cRunPath config runID site ++ "/"
          ++ compute_restartFile (set_restartFile "stage.txt" config))
    with (cRunPath config runID site ++ "/stage.txt").
  rewrite Hr, (bool_decide_eq_true_2 _ Hd). cbn [andb negb].
  rewrite Hf, Hl. reflexivity.
Qed.

End RunSite.

Lemma runSite_already_done_witness :
  let w := {| dirs := {[ "/scratch/out"; "/scratch/out/A_1" ]};
              files := {[ "/scratch/out/A_1/stage.txt" := "cleanUp" ]};
              cwd := "/scratch/out";
              db := {| DAL.CyberShake_Runs := [];
                       DAL.CyberShake_Sites := Sample.sites0 |};
              trace := [] |} in
  Main.runSite 3 Sample.env_ok Sample.config_restart 1 "A" w = Ok tt w.
Proof.
  intros w.
  refine (proj2 (runSite_already_done 3 Sample.env_ok Sample.config_restart
                   1 "A" w "cleanUp" [] eq_refl _ _ eq_refl)).
  - apply (bool_decide_unpack _). vm_compute. exact I.
  - vm_compute. reflexivity.
Defined.

(** ** The checkpoint invariant *)

Section Checkpoint.

Import workflow Main.

Variable env : Env.
Variable config : Config.
Hypothesis restartFile_stage_txt : compute_restartFile config = "stage.txt".

Lemma string_app_inv_head p a b : p ++ a = p ++ b -> a = b.
Proof.
  induction p as [|c p IH]; simpl; intros H; [exact H|].
  injection H as H. apply IH, H.
Qed.

Lemma checkpoint_path w :
  resolve w (compute_restartFile config) = cwd w ++ "/stage.txt".
Proof. rewrite restartFile_stage_txt. reflexivity. Qed.

(** The script of a stage is not the restart file. *)
Lemma script_not_restart_file c w :
  resolve w (className c ++ "." ++ type c)
  <> resolve w (compute_restartFile config).
Proof.
  rewrite checkpoint_path. intros H.
  destruct c; apply string_app_inv_head in H; discriminate H.
Qed.

Lemma log_checkpoint e w : checkpoint config (log e w) = checkpoint config w.
Proof. reflexivity. Qed.

Lemma build_effect c w :
  match build env c w with
  | Ok _ w' => trace w' = (trace w ++ [EvBuild (className c)])%list
               /\ checkpoint config w' = checkpoint config w
  | Raised _ w' => w' = w
  | _ => False
  end.
Proof.
  unfold build. destruct (scriptLines env (className c)); [|reflexivity].
  unfold saveScript, bind, modify.
  match goal with |- context [write_file ?p ?t w] =>
    pose proof (write_file_trace p t w) as H;
    destruct (write_file p t w) as [[] w1|e w1|w1|]; try tauto
  end.
  destruct H as (Ht & _ & Hc & _ & Hf). simpl. split; [rewrite Ht; reflexivity|].
  unfold checkpoint, resolve. simpl. rewrite Hf, Hc.
  apply lookup_insert_ne. apply script_not_restart_file.
Qed.

Lemma postprocess_effect c w :
  match postprocess env (compute_restartFile config) (input_region config) c w
  with
  | Ok _ w' => trace w' = (trace w ++ [EvPostprocess (className c)])%list
               /\ checkpoint config w' = Some (className c)
  | Raised _ w' => trace w' = trace w
                   /\ checkpoint config w' = checkpoint config w
  | _ => False
  end.
Proof.
  assert (Htoken : checkpointToken c = className c) by (destruct c; reflexivity).
  assert (Hlast : forall w0,
    cwd w0 = cwd w -> trace w0 = trace w ->
    checkpoint config w0 = checkpoint config w ->
    match
      (do_ write_file (compute_restartFile config) (checkpointToken c);
       modify (log (EvPostprocess (className c)))) w0
    with
    | Ok _ w' => trace w' = (trace w ++ [EvPostprocess (className c)])%list
                 /\ checkpoint config w' = Some (className c)
    | Raised _ w' => trace w' = trace w
                     /\ checkpoint config w' = checkpoint config w
    | _ => False
    end).
  { intros w0 Hc Ht Hk. unfold bind, modify.
    pose proof (write_file_trace (compute_restartFile config)
                  (checkpointToken c) w0) as H.
    destruct (write_file _ _ w0) as [[] w1|e w1|w1|]; try tauto.
    - destruct H as (H1 & _ & H3 & _ & H5). simpl. rewrite H1, Ht.
      split; [reflexivity|]. unfold checkpoint. simpl.
      replace (resolve (log (EvPostprocess (className c)) w1)
                 (compute_restartFile config))
        with (resolve w0 (compute_restartFile config))
        by (unfold resolve; simpl; rewrite H3; reflexivity).
      rewrite H5, Htoken. apply lookup_insert_eq.
    - subst w1. split; assumption. }
  unfold postprocess.
  destruct c; try (unfold bind at 1, ret; apply Hlast; reflexivity).
  unfold bind at 1.
  match goal with |- context [write_file ?p ?t w] =>
    pose proof (write_file_trace p t w) as H;
    destruct (write_file p t w) as [[] w1|e w1|w1|]; try tauto
  end.
  - destruct H as (H1 & _ & H3 & _ & H5). apply Hlast; try assumption.
    unfold checkpoint. rewrite H5.
    replace (resolve w1 (compute_restartFile config))
      with (resolve w (compute_restartFile config))
      by (unfold resolve; rewrite H3; reflexivity).
    apply lookup_insert_ne. rewrite checkpoint_path. intros H.
    apply string_app_inv_head in H. discriminate H.
  - subst w1. split; reflexivity.
Qed.

(** *** Lists without repetition split in one way *)

Lemma NoDup_split_unique {A} (x : A) l1 l2 k1 k2 :
  NoDup (l1 ++ x :: l2) -> (l1 ++ x :: l2 = k1 ++ x :: k2)%list ->
  l1 = k1 /\ l2 = k2.
Proof.
  revert k1. induction l1 as [|a l1 IH]; intros k1 Hnd Heq.
  - destruct k1 as [|b k1]; simpl in Heq.
    + injection Heq as ->. auto.
    + injection Heq as <- ->. simpl in Hnd. apply NoDup_cons in Hnd as [Hn _].
      exfalso. apply Hn. apply elem_of_app. right. left.
  - destruct k1 as [|b k1]; simpl in Heq.
    + injection Heq as -> <-. simpl in Hnd. apply NoDup_cons in Hnd as [Hn _].
      exfalso. apply Hn. apply elem_of_app. right. left.
    + injection Heq as <- Heq. simpl in Hnd.
      apply NoDup_cons in Hnd as [_ Hnd].
      destruct (IH k1 Hnd Heq) as [-> ->]. auto.
Qed.

Lemma last_Some_split {A} (l : list A) x :
  last l = Some x -> exists l', l = (l' ++ [x])%list.
Proof.
  intros H. destruct l as [|a l] using rev_ind; [discriminate|].
  rewrite last_snoc in H. injection H as ->. eauto.
Qed.

Lemma started_log_other e w s :
  (forall x, e <> EvStart x) -> started s (log e w) -> started s w.
Proof.
  unfold started. simpl. intros He H. apply elem_of_app in H as [H|H];
    [exact H|]. apply list_elem_of_singleton in H. symmetry in H.
  destruct (He _ H).
Qed.

Lemma started_trace w w' e s :
  trace w' = (trace w ++ [e])%list -> (forall x, e <> EvStart x) ->
  started s w' -> started s w.
Proof.
  unfold started. intros Ht He H. rewrite Ht in H.
  apply elem_of_app in H as [H|H]; [exact H|].
  apply list_elem_of_singleton in H. symmetry in H. destruct (He _ H).
Qed.

Lemma completed_trace w w' e s :
  trace w' = (trace w ++ [e])%list -> completed s w -> completed s w'.
Proof.
  unfold completed. intros Ht (H1 & H2 & H3). rewrite Ht.
  repeat split; apply elem_of_app; left; assumption.
Qed.

Lemma state_inv_world pc w : state_inv config (pc, w) -> checkpoint_inv config w.
Proof.
  intros (done & todo & H1 & H2 & H3 & H4 & _). exists done, todo. auto.
Qed.

Lemma wf_nonempty_names s : s ∈ wf -> Py.truthy s = true.
Proof.
  intros H. apply list_elem_of_In in H. simpl in H.
  repeat (destruct H as [<-|H]; [reflexivity|]). destruct H.
Qed.

Ltac five := split; [|split; [|split; [|split]]].

Lemma initial_state_inv s : initial config s -> state_inv config s.
Proof.
  intros (w & -> & done & todo & H1 & H2 & H3 & H4).
  exists done, todo. five; try assumption.
  destruct (checkpoint config w) as [T|] eqn:E; simpl.
  - symmetry in H2. destruct (last_Some_split _ _ H2) as [d ->].
    assert (HT : T ∈ wf).
    { rewrite H1. apply elem_of_app. left. apply elem_of_app. right. left. }
    rewrite (wf_nonempty_names _ HT). split; [symmetry; exact H2|].
    exists [], T. auto.
  - symmetry in H2. destruct done as [|a done _] using rev_ind.
    + exact H1.
    + rewrite last_snoc in H2. discriminate.
Qed.

Lemma step_state_inv fuel s s' :
  state_inv config s -> step fuel env config s = Some s' -> state_inv config s'.
Proof.
  destruct s as [pc w].
  intros (done & todo & Hwf & Hck & Hdone & Hst & Hpc) Hstep.
  destruct pc as [stages rstage|c rest rstage|c rest rstage|c rest rstage| | |];
    simpl in Hstep; try discriminate.
  - (* at the head of the loop *)
    destruct stages as [|stage rest].
    { injection Hstep as <-. exists done, todo. five; auto. }
    destruct (Py.truthy_opt rstage) eqn:Etr.
    + destruct Hpc as (Hr & skipped & T & Hsk & -> & HT).
      simpl in Hstep. destruct (String.eqb stage T) eqn:E.
      * apply String.eqb_eq in E. subst stage. injection Hstep as <-.
        symmetry in Hr. destruct (last_Some_split _ _ Hr) as [d ->].
        pose proof wf_NoDup as Hnd. rewrite Hsk in Hnd.
        rewrite Hsk, <- app_assoc in Hwf. simpl in Hwf.
        destruct (NoDup_split_unique _ _ _ _ _ Hnd Hwf) as [-> ->].
        exists (d ++ [T])%list, todo. five; try assumption.
        -- rewrite Hsk, <- app_assoc. reflexivity.
        -- reflexivity.
      * injection Hstep as <-. exists done, todo. five; try assumption.
        cbn [Py.truthy_opt] in Etr |- *. rewrite Etr.
        split; [exact Hr|]. exists (skipped ++ [stage])%list, T.
        rewrite <- app_assoc. split; [exact Hsk|]. split; [reflexivity|].
        apply elem_of_cons in HT as [->|HT]; [|exact HT].
        rewrite String.eqb_refl in E. discriminate.
    + subst todo.
      assert (Hin : stage ∈ wf)
        by (rewrite Hwf; apply elem_of_app; right; left).
      destruct (lookup_wf _ Hin) as [c Hc]. rewrite Hc in Hstep.
      pose proof (lookup_className _ _ Hc) as Hn.
      injection Hstep as <-. exists done, (stage :: rest).
      five; try assumption.
      * intros x Hx. apply (completed_trace w _ (EvStart (className c)));
          [reflexivity | apply Hdone, Hx].
      * intros x Hx. unfold started in Hx. simpl in Hx.
        apply elem_of_app in Hx as [Hx|Hx]; [apply Hst, Hx|].
        apply list_elem_of_singleton in Hx. injection Hx as ->.
        right. simpl. rewrite Hn. reflexivity.
      * rewrite Hn. split; [exact Etr | reflexivity].
  - (* build *)
    destruct Hpc as (Hr & ->).
    pose proof (build_effect c w) as Hb.
    destruct (build env c w) as [[] w1|e w1|w1|]; try tauto;
      injection Hstep as <-.
    + destruct Hb as [Ht Hk]. exists done, (className c :: rest).
      five; try assumption.
      * rewrite Hk. exact Hck.
      * intros x Hx. eapply completed_trace; [exact Ht | apply Hdone, Hx].
      * intros x Hx. apply Hst. eapply started_trace; [exact Ht| |exact Hx].
        discriminate.
      * split; [exact Hr|]. split; [reflexivity|].
        rewrite Ht. apply elem_of_app. right. left.
    + subst w1. exists done, (className c :: rest). five; auto.
  - (* run *)
    destruct Hpc as (Hr & -> & Hb).
    pose proof (run_trace fuel env c w) as Hrun.
    destruct (run fuel env c w) as [[] w1|e w1|w1|]; try discriminate;
      injection Hstep as <-; subst w1.
    + exists done, (className c :: rest). five; try assumption.
      * intros x Hx. eapply completed_trace; [reflexivity | apply Hdone, Hx].
      * intros x Hx. apply Hst. eapply started_log_other; [|exact Hx].
        discriminate.
      * split; [exact Hr|]. split; [reflexivity|]. simpl. split.
        -- apply elem_of_app. left. exact Hb.
        -- apply elem_of_app. right. left.
    + exists done, (className c :: rest). five; auto.
    + exists done, (className c :: rest). five; auto.
  - (* postprocess *)
    destruct Hpc as (Hr & -> & Hb & Hrun).
    pose proof (postprocess_effect c w) as Hp.
    destruct (postprocess env _ _ c w) as [[] w1|e w1|w1|]; try tauto;
      injection Hstep as <-.
    + destruct Hp as [Ht Hk]. exists (done ++ [className c])%list, rest.
      five.
      * rewrite Hwf, <- app_assoc. reflexivity.
      * rewrite Hk, last_snoc. reflexivity.
      * intros x Hx. apply elem_of_app in Hx as [Hx|Hx].
        -- eapply completed_trace; [exact Ht | apply Hdone, Hx].
        -- apply list_elem_of_singleton in Hx. subst x. unfold completed.
           rewrite Ht. split; [|split].
           ++ apply elem_of_app. left. exact Hb.
           ++ apply elem_of_app. left. exact Hrun.
           ++ apply elem_of_app. right. left.
      * intros x Hx. left.
        assert (Hx' : started x w).
        { eapply started_trace; [exact Ht| |exact Hx]. discriminate. }
        destruct (Hst x Hx') as [H|H].
        -- apply elem_of_app. left. exact H.
        -- simpl in H. injection H as <-. apply elem_of_app. right. left.
      * simpl. rewrite Hr. reflexivity.
    + destruct Hp as [Ht Hk]. exists done, (className c :: rest).
      five; try assumption.
      * rewrite Hk. exact Hck.
      * intros x Hx. destruct (Hdone x Hx) as (H1 & H2 & H3).
        unfold completed. rewrite Ht. auto.
      * intros x Hx. apply Hst. unfold started in *. rewrite <- Ht. exact Hx.
      * exact I.
Qed.

Lemma reachable_state_inv s s' :
  state_inv config s -> reachable env config s s' -> state_inv config s'.
Proof.
  intros Hs Hr. induction Hr as [|s1 s2 s3 [fuel Hstep] _ IH]; [exact Hs|].
  apply IH. eapply step_state_inv; eassumption.
Qed.

(** *** The loop as a function and the loop as a transition system *)

Lemma iterate_reachable n fuel s s' :
  iterate n fuel env config s = Some s' -> reachable env config s s'.
Proof.
  revert s. induction n as [|n IH]; simpl; intros s H.
  - injection H as <-. apply rtc_refl.
  - destruct (step fuel env config s) as [s1|] eqn:E; [|discriminate].
    eapply rtc_l; [exists fuel; exact E | apply IH, H].
Qed.



End Checkpoint.

(** *** The invariant over a run and its restarts *)

Section Pipeline.

Import workflow Main.

Lemma checkpoint_ext c1 c2 w :
  compute_restartFile c1 = compute_restartFile c2 ->
  checkpoint c1 w = checkpoint c2 w.
Proof. unfold checkpoint. intros ->. reflexivity. Qed.

Lemma state_inv_ext c1 c2 s :
  compute_restartFile c1 = compute_restartFile c2 ->
  state_inv c1 s -> state_inv c2 s.
Proof.
  intros H. destruct s as [pc w]. unfold state_inv.
  rewrite (checkpoint_ext c1 c2 w H). auto.
Qed.

Lemma checkpoint_inv_ext c1 c2 w :
  compute_restartFile c1 = compute_restartFile c2 ->
  checkpoint_inv c1 w -> checkpoint_inv c2 w.
Proof.
  intros H. unfold checkpoint_inv. rewrite (checkpoint_ext c1 c2 w H). auto.
Qed.

(** A fresh working directory satisfies the invariant: nothing is done,
    everything is to do. *)
Lemma fresh_inv config w : fresh config w -> checkpoint_inv config w.
Proof.
  intros [Hck Hst]. exists [], wf. split; [reflexivity|].
  split; [exact Hck|]. split.
  - intros s Hs. apply elem_of_nil in Hs. destruct Hs.
  - intros s Hs. destruct (Hst s Hs).
Qed.

(** The invariant speaks of the restart file and of the history only. *)
Lemma same_progress_inv config w w1 :
  same_progress config w w1 -> checkpoint_inv config w ->
  checkpoint_inv config w1.
Proof.
  intros [Hck Htr] (done & todo & H1 & H2 & H3 & H4).
  exists done, todo. split; [exact H1|]. split; [rewrite Hck; exact H2|].
  unfold completed, started in *. rewrite Htr. split; assumption.
Qed.

Lemma readlines_stage_name s : s ∈ wf -> Py.readlines s = [s].
Proof.
  intros H. apply list_elem_of_In in H. simpl in H.
  repeat (destruct H as [<-|H]; [reflexivity|]). destruct H.
Qed.

(** Under the invariant the restart file holds one line, the name of the
    last stage done: the restart point [runSite] reads is the token. *)
Lemma restart_point_token config w :
  checkpoint_inv config w ->
  restart_point config w = Some (checkpoint config w).
Proof.
  intros (done & todo & Hwf & Hck & _). unfold restart_point.
  destruct (checkpoint config w) as [T|]; [|reflexivity].
  symmetry in Hck. destruct (last_Some_split _ _ Hck) as [d ->].
  assert (HT : T ∈ wf).
  { rewrite Hwf. apply elem_of_app. left. apply elem_of_app. right. left. }
  rewrite (readlines_stage_name _ HT). reflexivity.
Qed.

(** Every state of a pipeline run that started in a fresh working
    directory, restarts included, satisfies the invariant of the loop. *)
Lemma pipeline_state_inv config w0 s :
  compute_restartFile config = "stage.txt" ->
  fresh config w0 -> pipeline_state w0 s -> state_inv config s.
Proof.
  intros Hrf Hfresh Hp.
  induction Hp as [env cfg s Hcfg Hreach
                  |env cfg pc w w1 rstage s _ IH Hcfg Hsame Hrp Hreach].
  - assert (E : compute_restartFile config = compute_restartFile cfg)
      by (rewrite Hrf, Hcfg; reflexivity).
    apply (state_inv_ext cfg config); [symmetry; exact E|].
    apply (reachable_state_inv env cfg Hcfg (AtStage wf None, w0)); [|exact Hreach].
    apply initial_state_inv. exists w0.
    pose proof (checkpoint_inv_ext _ _ _ E (fresh_inv _ _ Hfresh)) as Hinv.
    destruct Hfresh as [Hck _]. rewrite (checkpoint_ext _ _ _ E) in Hck.
    rewrite Hck. split; [reflexivity | exact Hinv].
  - assert (E : compute_restartFile config = compute_restartFile cfg)
      by (rewrite Hrf, Hcfg; reflexivity).
    apply (state_inv_ext cfg config); [symmetry; exact E|].
    apply (reachable_state_inv env cfg Hcfg (AtStage wf rstage, w1));
      [|exact Hreach].
    apply initial_state_inv. exists w1.
    assert (Hinv : checkpoint_inv cfg w1).
    { apply (same_progress_inv cfg w); [exact Hsame|].
      apply (checkpoint_inv_ext config cfg _ E).
      apply (state_inv_world config pc w), IH. }
    rewrite (restart_point_token _ _ Hinv) in Hrp. injection Hrp as <-.
    split; [reflexivity | exact Hinv].
Qed.

(** C2 as amended: in every state that a pipeline run reaches from a
    fresh working directory (no restart file, no stage started), the
    restarts included that enter the loop with the first line of the
    restart file as [runSite] does in restart mode, a token [t] of the
    restart file means: every stage before [t], and [t] itself, is
    complete, and a stage after [t] has started only if it is the
    immediate successor of [t]. *)
Theorem checkpoint_invariant config w0 s :
  compute_restartFile config = "stage.txt" ->
  fresh config w0 -> pipeline_state w0 s ->
  forall t pre post,
    checkpoint config (snd s) = Some t ->
    wf = (pre ++ t :: post)%list ->
    (forall x, x ∈ pre -> completed x (snd s)) /\
    completed t (snd s) /\
    (forall x, x ∈ post -> started x (snd s) -> head post = Some x).
Proof.
  intros Hrf Hfresh Hp t pre post Hck Hwf.
  pose proof (pipeline_state_inv config w0 s Hrf Hfresh Hp) as Hs.
  destruct s as [pc w]. apply state_inv_world in Hs.
  destruct Hs as (done & todo & Hwf' & Hck' & Hdone & Hst). simpl in *.
  rewrite Hck in Hck'. symmetry in Hck'.
  destruct (last_Some_split _ _ Hck') as [d ->].
  rewrite <- app_assoc in Hwf'. simpl in Hwf'.
  pose proof wf_NoDup as Hnd. rewrite Hwf in Hnd. rewrite Hwf in Hwf'.
  destruct (NoDup_split_unique _ _ _ _ _ Hnd Hwf') as [<- <-].
  split; [|split].
  - intros x Hx. apply Hdone. apply elem_of_app. left. exact Hx.
  - apply Hdone. apply elem_of_app. right. left.
  - intros x Hx Hsx. destruct (Hst x Hsx) as [H|H]; [|exact H].
    exfalso. apply NoDup_app in Hnd as (_ & Hdis & Hnd2).
    apply NoDup_cons in Hnd2 as [Hn _].
    apply elem_of_app in H as [H|H].
    + apply (Hdis x H). right. exact Hx.
    + apply list_elem_of_singleton in H. subst x. contradiction.
Qed.

End Pipeline.

Lemma sample_five_steps :
  match Main.iterate 5 3 Sample.env_ok Sample.config_loop
          (Main.AtStage workflow.wf None, Sample.world_A) with
  | Some (_, w) =>
      bool_decide (Main.checkpoint Sample.config_loop w = Some "preSGT")
      && bool_decide (EvStart "preAWP" ∈ trace w)
      && bool_decide (EvBuild "preSGT" ∈ trace w)
      && bool_decide (EvRun "preSGT" ∈ trace w)
      && bool_decide (EvPostprocess "preSGT" ∈ trace w)
  | None => false
  end = true.
Proof. vm_compute. reflexivity. Qed.

(** C2, the claim as stated fails: a fresh run whose first stage has
    written its token and whose second stage has been instantiated is in a
    state where the token is [preSGT] and [preAWP], a later stage, has
    started. *)
Lemma successor_started_under_checkpoint :
  ~ Main.strict_checkpoint_invariant Sample.env_ok Sample.config_loop
      (Main.AtStage workflow.wf None, Sample.world_A).
Proof.
  intros Hclaim. pose proof sample_five_steps as H5.
  destruct (Main.iterate 5 3 Sample.env_ok Sample.config_loop
              (Main.AtStage workflow.wf None, Sample.world_A))
    as [[pc w]|] eqn:E; [|discriminate H5].
  apply iterate_reachable in E.
  repeat (apply andb_prop in H5 as [H5 ?]).
  apply bool_decide_eq_true_1 in H5.
  destruct (Hclaim _ E "preSGT" []
              ["preAWP"; "AWPX"; "AWPY"; "checkX"; "checkY"; "postX";
               "postY"; "rupVar"; "runDS"; "cleanUp"] H5 eq_refl)
    as [_ Hlater].
  apply (Hlater "preAWP"); [left|].
  apply (bool_decide_eq_true_1 (EvStart "preAWP" ∈ trace w)). assumption.
Qed.

Lemma sample_world_A_fresh : Main.fresh Sample.config_loop Sample.world_A.
Proof.
  split; [reflexivity|]. intros stage H. unfold Main.started in H.
  apply elem_of_nil in H. exact H.
Qed.

(** Site A: the first run is ended when its second stage has been
    instantiated; the restart reads [preSGT], skips it, and is ended when
    the third stage has been instantiated. *)
Lemma sample_restart_steps :
  match Main.iterate 5 3 Sample.env_ok Sample.config_loop
          (Main.AtStage workflow.wf None, Sample.world_A) with
  | Some (_, w) =>
      match Main.restart_point Sample.config_loop w with
      | Some rstage =>
          match Main.iterate 6 3 Sample.env_ok Sample.config_loop
                  (Main.AtStage workflow.wf rstage, w) with
          | Some (_, w') =>
              bool_decide (rstage = Some "preSGT")
              && bool_decide
                   (Main.checkpoint Sample.config_loop w' = Some "preAWP")
              && bool_decide (EvStart "AWPX" ∈ trace w')
          | None => false
          end
      | None => false
      end
  | None => false
  end = true.
Proof. vm_compute. reflexivity. Qed.

Lemma checkpoint_invariant_witness :
  Main.compute_restartFile Sample.config_loop = "stage.txt" /\
  Main.fresh Sample.config_loop Sample.world_A /\
  exists s,
    Main.pipeline_state Sample.world_A s /\
    Main.checkpoint Sample.config_loop (snd s) = Some "preAWP" /\
    (forall x, x ∈ ["preSGT"] -> Main.completed x (snd s)) /\
    Main.completed "preAWP" (snd s) /\
    (forall x, x ∈ ["AWPX"; "AWPY"; "checkX"; "checkY"; "postX";
                    "postY"; "rupVar"; "runDS"; "cleanUp"] ->
               Main.started x (snd s) -> Some "AWPX" = Some x).
Proof.
  split; [reflexivity|]. split; [exact sample_world_A_fresh|].
  pose proof sample_restart_steps as H.
  destruct (Main.iterate 5 3 Sample.env_ok Sample.config_loop
              (Main.AtStage workflow.wf None, Sample.world_A))
    as [[pc w]|] eqn:E1; [|discriminate H].
  destruct (Main.restart_point Sample.config_loop w) as [rstage|] eqn:E2;
    [|discriminate H].
  destruct (Main.iterate 6 3 Sample.env_ok Sample.config_loop
              (Main.AtStage workflow.wf rstage, w))
    as [[pc' w']|] eqn:E3; [|discriminate H].
  apply iterate_reachable in E1. apply iterate_reachable in E3.
  assert (Hck : Main.checkpoint Sample.config_loop w' = Some "preAWP").
  { apply andb_prop in H as [H _]. apply andb_prop in H as [_ H].
    apply bool_decide_eq_true_1 in H. exact H. }
  assert (Hp : Main.pipeline_state Sample.world_A (pc', w')).
  { apply (Main.restarted Sample.world_A Sample.env_ok Sample.config_loop
             pc w w rstage (pc', w')).
    - apply (Main.first_run Sample.world_A Sample.env_ok Sample.config_loop);
        [reflexivity | exact E1].
    - reflexivity.
    - split; reflexivity.
    - exact E2.
    - exact E3. }
  exists (pc', w'). split; [exact Hp|]. split; [exact Hck|].
  exact (checkpoint_invariant Sample.config_loop Sample.world_A (pc', w')
           eq_refl sample_world_A_fresh Hp "preAWP" ["preSGT"]
           ["AWPX"; "AWPY"; "checkX"; "checkY"; "postX";
            "postY"; "rupVar"; "runDS"; "cleanUp"] Hck eq_refl).
Defined.

(** The fresh start is needed: over a restart file written by hand, the
    history being empty, [runSite] in restart mode reads the token and
    enters the loop in a state where no earlier stage is complete. *)
Lemma token_without_history :
  let w := {| dirs := {[ "/scratch/out"; "/scratch/out/A_1" ]};
              files := {[ "/scratch/out/A_1/stage.txt" := "checkX" ]};
              cwd := "/scratch/out/A_1";
              db := {| DAL.CyberShake_Runs := [];
                       DAL.CyberShake_Sites := Sample.sites0 |};
              trace := [] |} in
  Main.restart_point Sample.config_loop w = Some (Some "checkX") /\
  Main.checkpoint Sample.config_loop w = Some "checkX" /\
  ~ Main.completed "preSGT" w.
Proof.
  intros w. split; [reflexivity|]. split; [reflexivity|].
  intros (H & _). apply elem_of_nil in H. exact H.
Qed.

(** So is the restart mode of the later runs: a run that went through all
    the stages and is run again from the start, the restart point being
    none though the restart file holds [cleanUp], comes to a state with
    the token [preSGT] in which [AWPX], not its successor, has started. *)
Lemma rerun_without_restart_point :
  match Main.stagesLoop 3 Sample.env_ok Sample.config_loop workflow.wf None
          Sample.world_A with
  | Ok _ w =>
      match Main.iterate 5 3 Sample.env_ok Sample.config_loop
              (Main.AtStage workflow.wf None, w) with
      | Some (_, w') =>
          bool_decide (Main.checkpoint Sample.config_loop w = Some "cleanUp")
          && bool_decide
               (Main.checkpoint Sample.config_loop w' = Some "preSGT")
          && bool_decide (EvStart "AWPX" ∈ trace w')
      | None => false
      end
  | _ => false
  end = true.
Proof. vm_compute. reflexivity. Qed.

(** ** The polling thread and the waiting loop *)

Section Polling.

Import workflow.

Local Open Scope nat_scope.

Variable env : Env.
Variable jobId : string.

Lemma polls_app a b : polls (a ++ b)%list = polls a + polls b.
Proof.
  induction a as [|[] a IH]; simpl; rewrite ?IH; reflexivity.
Qed.

Lemma run_threads_snoc sched t :
  run_threads env jobId (sched ++ [t])%list
  = thread_step env jobId (run_threads env jobId sched) t.
Proof. unfold run_threads. rewrite fold_left_app. reflexivity. Qed.

Lemma standing_main N p s :
  standing N p s -> standing N p (waiter_step s).
Proof.
  intros (Hp & Hq & Hs & Hr & Hw). unfold waiter_step, standing.
  destruct (waiter s) eqn:Ew; [destruct (resultAvailable s) eqn:Er|];
    simpl; rewrite ?Ew, ?Er; repeat split; try assumption; try lia.
  destruct Hw; assumption.
Qed.

Lemma leb_true a b : a <= b -> (a <=? b) = true.
Proof. apply Nat.leb_le. Qed.

Lemma leb_false a b : b < a -> (a <=? b) = false.
Proof. apply Nat.leb_gt. Qed.

Lemma eqb_false a b : a <> b -> (a =? b) = false.
Proof. apply Nat.eqb_neq. Qed.

Lemma standing_poller N p s :
  reported env jobId N -> standing N p s -> standing N (S p) (poller_step env jobId s).
Proof.
  intros [Hbusy [err Hgone]] (Hp & Hq & Hs & Hr & Hw).
  assert (Hwait : waiter s = Waiting \/ S (S N) <= p).
  { destruct (waiter s); [left; reflexivity|]. right.
    destruct Hw as [_ Ht]. rewrite Hr in Ht. apply Nat.leb_le, Ht. }
  unfold poller_step, standing. rewrite Hp.
  destruct (le_lt_dec p N) as [Hle|Hgt].
  - rewrite (leb_true _ _ Hle).
    rewrite (leb_false (S (S N)) p) in Hs, Hr by lia.
    rewrite (leb_false (S (S N)) (S p)) by lia.
    destruct Hwait as [Hwt|]; [|lia]. rewrite Hwt in Hw.
    destruct (Nat.eq_dec p N) as [->|Hne].
    + rewrite Hgone. cbn [Z.eqb negb String.eqb].
      rewrite (leb_false (S N) N) by lia. rewrite Nat.eqb_refl.
      cbn [poller queries sets resultAvailable waiter unblocks].
      rewrite Hwt. repeat split; try assumption; lia.
    + destruct (Hbusy p ltac:(lia)) as (out & err' & Hq' & Hout).
      rewrite Hq'. cbn [Z.eqb negb].
      destruct (String.eqb out EmptyString) eqn:Eo;
        [apply String.eqb_eq in Eo; contradiction|].
      rewrite (leb_true (S p) N) by lia.
      cbn [poller queries sets resultAvailable waiter unblocks].
      rewrite Hwt. repeat split; try assumption; lia.
  - rewrite (leb_false p N) by lia. rewrite (leb_false (S p) N) by lia.
    rewrite (eqb_false (S p) (S N)) by lia.
    rewrite (leb_true (S (S N)) (S p)) by lia.
    destruct (Nat.eq_dec p (S N)) as [->|Hne].
    + rewrite Nat.eqb_refl.
      rewrite (leb_false (S (S N)) (S N)) in Hs, Hr by lia.
      destruct Hwait as [Hwt|]; [|lia]. rewrite Hwt in Hw.
      cbn [poller queries sets resultAvailable waiter unblocks].
      rewrite Hwt. repeat split; try assumption; lia.
    + rewrite (eqb_false p (S N)) by lia.
      rewrite (leb_true (S (S N)) p) in Hs, Hr by lia.
      rewrite (leb_false p N), (eqb_false p (S N)) in Hp by lia.
      repeat split; try assumption; lia.
Qed.

Lemma standing_run N sched :
  reported env jobId N -> standing N (polls sched) (run_threads env jobId sched).
Proof.
  intros Hrep. induction sched as [|t sched IH] using rev_ind.
  - repeat split.
  - rewrite run_threads_snoc, polls_app. destruct t; simpl.
    + rewrite Nat.add_0_r. apply standing_main, IH.
    + rewrite Nat.add_1_r. apply standing_poller; [exact Hrep | exact IH].
Qed.

(** The polling of [_waitForSlurmJob] as a function agrees: it sets the
    event after [N+1] queries. *)
Lemma waitForSlurmJob_reported N fuel i :
  reported env jobId N -> i <= N -> N - i < fuel ->
  exists message, waitForSlurmJob fuel env jobId i = PollSet (S N) message.
Proof.
  intros [Hbusy [err Hgone]]. revert i.
  induction fuel as [|fuel IH]; intros i Hi Hf; [lia|].
  cbn [waitForSlurmJob].
  destruct (Nat.eq_dec i N) as [->|Hne].
  - rewrite Hgone. simpl. eauto.
  - destruct (Hbusy i ltac:(lia)) as (out & err' & Hq & Hout).
    rewrite Hq. simpl.
    destruct (String.eqb out EmptyString) eqn:Eo;
      [apply String.eqb_eq in Eo; contradiction|].
    apply IH; lia.
Qed.

Lemma unblocked_stable sched s :
  waiter s = Unblocked ->
  waiter (fold_left (thread_step env jobId) sched s) = Unblocked
  /\ unblocks (fold_left (thread_step env jobId) sched s) = unblocks s.
Proof.
  revert s. induction sched as [|t sched IH]; intros s Hs; [auto|].
  simpl. destruct t; simpl.
  - unfold waiter_step. rewrite Hs. apply IH, Hs.
  - assert (H : waiter (poller_step env jobId s) = Unblocked
                /\ unblocks (poller_step env jobId s) = unblocks s).
    { unfold poller_step. destruct (poller s); auto.
      destruct (squeue env jobId i) as [[rc out] err].
      destruct (negb (rc =? 0)%Z); auto. }
    destruct H as [H1 H2]. rewrite <- H2. apply IH, H1.
Qed.

(** C8: a job reported [N] times and then gone.  Whatever the schedule of
    the two threads: the polling thread makes at most [N+1] queries and
    sets the event at most once, and sets it only after the [N+1]-th
    query; the waiting loop is left at most once, and only with the event
    set, that is after exactly [N+1] queries and exactly one [set()].
    Once the polling thread has had its [N+2] turns ([N+1] queries and the
    [set()]) the next turn of the caller leaves the loop.  As a function,
    [_waitForSlurmJob] sets the event after [N+1] queries. *)
Theorem poller_signals_once_after_last_query N sched :
  reported env jobId N ->
  let s := run_threads env jobId sched in
  queries s <= S N /\ sets s <= 1 /\ unblocks s <= 1 /\
  (resultAvailable s = true -> queries s = S N /\ sets s = 1) /\
  (waiter s = Unblocked ->
     resultAvailable s = true /\ queries s = S N /\ sets s = 1
     /\ unblocks s = 1) /\
  (S (S N) <= polls sched ->
     poller s = Finished /\ queries s = S N /\ sets s = 1 /\
     forall later, In TMain later ->
       let s' := run_threads env jobId (sched ++ later)%list in
       waiter s' = Unblocked /\ unblocks s' = 1 /\ queries s' = S N
       /\ sets s' = 1) /\
  (forall fuel, N < fuel ->
     exists message, waitForSlurmJob fuel env jobId 0 = PollSet (S N) message).
Proof.
  intros Hrep s.
  pose proof (standing_run N sched Hrep) as (Hp & Hq & Hs & Hr & Hw).
  fold s in Hp, Hq, Hs, Hr, Hw.
  assert (Hset : resultAvailable s = true -> queries s = S N /\ sets s = 1).
  { intros Ht. rewrite Hr in Ht. rewrite Hs, Ht, Hq.
    apply Nat.leb_le in Ht. split; [lia | reflexivity]. }
  split; [lia|]. split; [rewrite Hs; destruct (S (S N) <=? polls sched); lia|].
  split; [destruct (waiter s); [lia | destruct Hw as [Hu _]; lia]|].
  split; [exact Hset|]. split.
  - intros Hu. rewrite Hu in Hw. destruct Hw as [Hu1 Ht].
    destruct (Hset Ht). auto.
  - split.
    + intros Hdone.
      assert (Ht : resultAvailable s = true)
        by (rewrite Hr; apply Nat.leb_le; exact Hdone).
      destruct (Hset Ht) as [Hq1 Hs1].
      split.
      { rewrite Hp.
        replace (polls sched <=? N) with false
          by (symmetry; apply Nat.leb_gt; lia).
        replace (polls sched =? S N) with false
          by (symmetry; apply Nat.eqb_neq; lia). reflexivity. }
      split; [exact Hq1|]. split; [exact Hs1|].
      intros later Hin s'.
      apply in_split in Hin as (a & b & ->).
      set (s1 := run_threads env jobId (sched ++ a)).
      pose proof (standing_run N (sched ++ a) Hrep)
        as (_ & _ & _ & Hr' & _).
      fold s1 in Hr'.
      pose proof (standing_run N (sched ++ a ++ TMain :: b) Hrep)
        as (_ & Hq'' & Hs'' & Hr'' & Hw'').
      fold s' in Hq'', Hs'', Hr'', Hw''.
      assert (Hr1 : resultAvailable s1 = true).
      { rewrite Hr'. apply Nat.leb_le. rewrite polls_app. lia. }
      assert (Hu : waiter (waiter_step s1) = Unblocked).
      { unfold waiter_step. destruct (waiter s1) eqn:E1; [|exact E1].
        rewrite Hr1. reflexivity. }
      assert (Hs'u : waiter s' = Unblocked).
      { unfold s', run_threads.
        rewrite app_assoc, fold_left_app. simpl.
        apply unblocked_stable. exact Hu. }
      rewrite Hs'u in Hw''. destruct Hw'' as [Hu1 Ht'].
      rewrite Hr'' in Ht'. rewrite Hs'', Ht', Hq''.
      apply Nat.leb_le in Ht'. repeat split; try assumption; lia.
    + intros fuel Hf. apply waitForSlurmJob_reported; [exact Hrep|lia|lia].
Qed.

End Polling.

Lemma env_ok_reported : workflow.reported Sample.env_ok "4711" 2.
Proof.
  split.
  - intros i Hi. destruct i as [|[|i]]; [| |lia];
      eexists; eexists; (split; [reflexivity | discriminate]).
  - eexists. reflexivity.
Qed.

Lemma poller_signals_once_after_last_query_witness :
  workflow.reported Sample.env_ok "4711" 2 /\
  let s := workflow.run_threads Sample.env_ok "4711"
             [workflow.TMain; workflow.TPoller; workflow.TPoller;
              workflow.TMain; workflow.TPoller; workflow.TPoller;
              workflow.TMain] in
  workflow.waiter s = workflow.Unblocked /\
  workflow.queries s = 3%nat /\ workflow.sets s = 1%nat
  /\ workflow.unblocks s = 1%nat.
Proof.
  split; [exact env_ok_reported|].
  intros s.
  destruct (poller_signals_once_after_last_query Sample.env_ok "4711" 2
              [workflow.TMain; workflow.TPoller; workflow.TPoller;
               workflow.TMain; workflow.TPoller; workflow.TPoller;
               workflow.TMain] env_ok_reported)
    as (_ & _ & _ & _ & Hu & _).
  destruct (Hu eq_refl) as (_ & Hq & Hs & Hn).
  split; [reflexivity|]. split; [exact Hq|]. split; [exact Hs | exact Hn].
Defined.

(** ** A stage whose execution fails *)

Section Failure.

Import workflow Main.

Variable env : Env.

(** A script run locally that exits with a non-zero code raises. *)
Lemma run_local_failure fuel c w rc stderr :
  type c = "sh" ->
  bash env (resolve w (className c ++ "." ++ type c)) = (rc, stderr) ->
  rc <> 0 ->
  run fuel env c w
  = Raised (CommandFailed (resolve w (className c ++ "." ++ type c)) stderr) w.
Proof.
  intros Ht Hb Hrc.
  assert (E0 : String.eqb (type c) "slurm" = false)
    by (rewrite Ht; reflexivity).
  unfold run, bind, get. rewrite E0.
  unfold runBashScript. rewrite Hb.
  destruct (rc =? 0) eqn:E; [apply Z.eqb_eq in E; contradiction|].
  reflexivity.
Qed.

(** A submission that exits with a non-zero code raises. *)
Lemma run_submission_failure fuel c w rc stdout stderr :
  type c = "slurm" ->
  sbatch env ("sbatch " ++ resolve w (className c ++ "." ++ type c))
  = (rc, stdout, stderr) ->
  rc <> 0 ->
  run fuel env c w
  = Raised (CommandFailed
              ("sbatch " ++ resolve w (className c ++ "." ++ type c)) stderr) w.
Proof.
  intros Ht Hs Hrc.
  assert (E0 : String.eqb (type c) "slurm" = true)
    by (rewrite Ht; reflexivity).
  unfold run, bind, get. rewrite E0.
  unfold enqueueSlurm. rewrite Hs.
  destruct (rc =? 0) eqn:E; [apply Z.eqb_eq in E; contradiction|].
  reflexivity.
Qed.

(** The polling function on a job whose [k+1]-th query fails: the thread
    dies there. *)
Lemma waitForSlurmJob_query_fails jobId k fuel i :
  query_fails env jobId k -> (i <= k)%nat -> (k - i < fuel)%nat ->
  exists e, waitForSlurmJob fuel env jobId i = PollDied (S k) e.
Proof.
  intros [Hbusy (rc & out & err & Hq & Hrc)]. revert i.
  induction fuel as [|fuel IH]; intros i Hi Hf; [lia|].
  cbn [waitForSlurmJob].
  destruct (Nat.eq_dec i k) as [->|Hne].
  - rewrite Hq. destruct (rc =? 0) eqn:E;
      [apply Z.eqb_eq in E; contradiction|]. simpl. eauto.
  - destruct (Hbusy i ltac:(lia)) as (out' & err' & Hq' & Hout).
    rewrite Hq'. simpl.
    destruct (String.eqb out' EmptyString) eqn:Eo;
      [apply String.eqb_eq in Eo; contradiction|].
    apply IH; lia.
Qed.

(** In the two threads: the event is never set, so the caller never
    leaves its loop. *)
Lemma dead_poller_never_sets jobId k sched :
  query_fails env jobId k ->
  let s := run_threads env jobId sched in
  resultAvailable s = false /\ waiter s = Waiting /\ sets s = 0%nat
  /\ unblocks s = 0%nat
  /\ ((exists i, poller s = Polling i /\ (i <= k)%nat)
      \/ exists e, poller s = Died e).
Proof.
  intros [Hbusy (rc & out & err & Hq & Hrc)].
  induction sched as [|t sched IH] using rev_ind.
  - simpl. repeat split. left. exists 0%nat. split; [reflexivity|lia].
  - intros s. unfold s. rewrite run_threads_snoc.
    destruct IH as (Hr & Hw & Hs & Hu & Hp).
    set (s0 := run_threads env jobId sched) in *.
    destruct t; simpl.
    + unfold waiter_step. rewrite Hw, Hr. simpl. auto.
    + unfold poller_step. destruct Hp as [(i & Hp & Hi)|[e Hp]]; rewrite Hp.
      * destruct (Nat.eq_dec i k) as [->|Hne].
        -- rewrite Hq. destruct (rc =? 0) eqn:E;
             [apply Z.eqb_eq in E; contradiction|]. simpl.
           repeat split; try assumption. right. eauto.
        -- destruct (Hbusy i ltac:(lia)) as (out' & err' & Hq' & Hout).
           rewrite Hq'. simpl.
           destruct (String.eqb out' EmptyString) eqn:Eo;
             [apply String.eqb_eq in Eo; contradiction|].
           repeat split; try assumption. left. exists (S i).
           split; [reflexivity|lia].
      * repeat split; try assumption. right. eauto.
Qed.

(** A status query that exits with a non-zero code does not raise in the
    caller: [run] neither returns nor raises, the caller is blocked. *)
Lemma run_status_query_failure fuel c w stdout stderr jobId k :
  type c = "slurm" ->
  sbatch env ("sbatch " ++ resolve w (className c ++ "." ++ type c))
  = (0, stdout, stderr) ->
  map Py.strip (Py.split " " stdout) !! 3%nat = Some jobId ->
  query_fails env jobId k -> (k < fuel)%nat ->
  run fuel env c w = Blocked w.
Proof.
  intros Ht Hs Hj Hq Hf.
  assert (E0 : String.eqb (type c) "slurm" = true)
    by (rewrite Ht; reflexivity).
  unfold run, bind, get. rewrite E0.
  unfold enqueueSlurm. rewrite Hs. cbn [Z.eqb negb]. rewrite Hj.
  destruct (waitForSlurmJob_query_fails jobId k fuel 0%nat Hq) as [e ->];
    [lia | lia | reflexivity].
Qed.

End Failure.

(** C3, the behaviour of the code: the first status query of the first
    stage fails.  [runSite] does not raise: it is blocked for ever, the
    stage built and neither run to its end nor postprocessed, no restart
    file written; in the two threads the event is never set and the caller
    never leaves its waiting loop, whatever the schedule. *)
Theorem failed_status_query_blocks_the_run :
  match Main.runSite 3 Sample.env_squeue_fails Sample.config0 1 "A"
          Sample.world0 with
  | Blocked w' =>
      trace w' = [EvStart "preSGT"; EvBuild "preSGT"] /\
      files w' !! "/scratch/out/A_1/stage.txt" = None
  | _ => False
  end /\
  forall sched,
    let s := workflow.run_threads Sample.env_squeue_fails "4711" sched in
    workflow.resultAvailable s = false /\ workflow.waiter s = workflow.Waiting.
Proof.
  split.
  - vm_compute. split; reflexivity.
  - intros sched.
    assert (Hq : workflow.query_fails Sample.env_squeue_fails "4711" 0).
    { split; [intros i Hi; lia|]. exists 1, EmptyString, "slurm_load_jobs error".
      split; [reflexivity | discriminate]. }
    destruct (dead_poller_never_sets Sample.env_squeue_fails "4711" 0 sched Hq)
      as (H1 & H2 & _).
    split; assumption.
Qed.

(** * Further properties *)

(** ** The registry: what an insert keeps and what a lookup finds *)

Section RegistryFrame.

Import DAL Sample.

(** [addRunInfo] in one equation. *)
Lemma addRunInfo_rows now runID siteID erfID modelID sfreq freq db :
  addRunInfo now runID siteID erfID modelID sfreq freq db
  = inr (if (count_runs runID (CyberShake_Runs db) =? 0)%nat
         then {| CyberShake_Runs :=
                   (CyberShake_Runs db
                    ++ [runRow now runID siteID erfID modelID sfreq freq])%list;
                 CyberShake_Sites := CyberShake_Sites db |}
         else db).
Proof.
  unfold addRunInfo, execute_insert. rewrite existsb_count_runs. simpl.
  destruct (count_runs runID (CyberShake_Runs db) =? 0)%nat; reflexivity.
Qed.

Lemma max_Run_ID_snoc t r m :
  max_Run_ID t = Some m -> m < Run_ID r ->
  max_Run_ID (t ++ [r]) = Some (Run_ID r).
Proof.
  intros Hm Hlt.
  destruct (max_Run_ID (t ++ [r])) as [m'|] eqn:E.
  - destruct (max_Run_ID_attained _ _ E) as (r0 & Hin & Hr0).
    pose proof (max_Run_ID_upper _ _ E r ltac:(apply in_or_app; right; left;
                                               reflexivity)) as Hup.
    apply in_app_or in Hin as [Hin|[<-|[]]].
    + pose proof (max_Run_ID_upper _ _ Hm _ Hin). f_equal. lia.
    + congruence.
  - apply max_Run_ID_nil in E. destruct t; discriminate.
Qed.

(** X2: the id that [getValidRunId] hands out is borne by no row; an
    [addRunInfo] with it therefore appends its row, and the next id handed
    out is one more. *)
Theorem getValidRunId_is_fresh now siteID erfID modelID sfreq freq db :
  count_runs (getValidRunId db) (CyberShake_Runs db) = 0%nat /\
  match addRunInfo now (getValidRunId db) siteID erfID modelID sfreq freq db
  with
  | inr db' =>
      CyberShake_Runs db'
      = (CyberShake_Runs db
         ++ [runRow now (getValidRunId db) siteID erfID modelID sfreq freq])%list
      /\ getValidRunId db' = getValidRunId db + 1
  | inl _ => False
  end.
Proof.
  assert (Hfresh : count_runs (getValidRunId db) (CyberShake_Runs db) = 0%nat).
  { pose proof (getValidRunId_max db) as Hm.
    destruct (max_Run_ID (CyberShake_Runs db)) as [m|] eqn:E.
    - unfold count_runs. apply length_zero_iff_nil.
      destruct (List.filter _ _) as [|r l] eqn:Ef; [reflexivity|].
      assert (Hin : In r (List.filter
                (fun r => Run_ID r =? getValidRunId db) (CyberShake_Runs db)))
        by (rewrite Ef; left; reflexivity).
      apply filter_In in Hin as [Hin Hk]. apply Z.eqb_eq in Hk.
      pose proof (max_Run_ID_upper _ _ E _ Hin). lia.
    - apply max_Run_ID_nil in E. rewrite E. reflexivity. }
  split; [exact Hfresh|].
  rewrite addRunInfo_rows, Hfresh. cbn [Nat.eqb].
  set (db' := {| CyberShake_Runs := _; CyberShake_Sites := _ |}).
  split; [reflexivity|].
  pose proof (getValidRunId_max db) as Hm.
  pose proof (getValidRunId_max db') as Hm'. cbn [db' CyberShake_Runs] in Hm'.
  destruct (max_Run_ID (CyberShake_Runs db)) as [m|] eqn:E.
  - rewrite (max_Run_ID_snoc _ _ m E) in Hm' by (simpl; lia).
    simpl in Hm'. exact Hm'.
  - apply max_Run_ID_nil in E. rewrite E in Hm'. simpl in Hm'.
    rewrite Hm'. reflexivity.
Qed.

Lemma find_snoc {A} (f : A -> bool) l x :
  List.find f (l ++ [x])
  = match List.find f l with
    | Some y => Some y
    | None => if f x then Some x else None
    end.
Proof.
  induction l as [|a l IH]; simpl; [reflexivity|].
  destruct (f a); [reflexivity | exact IH].
Qed.

Lemma find_count_runs k t :
  List.find (fun r => Run_ID r =? k) t = None <-> count_runs k t = 0%nat.
Proof.
  unfold count_runs. induction t as [|r t IH]; simpl; [tauto|].
  destruct (Run_ID r =? k); simpl; [split; discriminate | exact IH].
Qed.

(** X3: what [getRunIDInfo] finds after [addRunInfo].  For a new run id
    it is the forecast and model ids just written, with scenario and
    variation 1; for a run id already registered it is what was found
    before (the first writer wins); other run ids are not affected. *)
Theorem getRunIDInfo_after_addRunInfo
    now runID siteID erfID modelID sfreq freq db :
  match addRunInfo now runID siteID erfID modelID sfreq freq db with
  | inr db' =>
      getRunIDInfo runID db'
      = (if (count_runs runID (CyberShake_Runs db) =? 0)%nat
         then Some (erfID, 1, 1, modelID)
         else getRunIDInfo runID db) /\
      (forall k, k <> runID -> getRunIDInfo k db' = getRunIDInfo k db)
  | inl _ => False
  end.
Proof.
  rewrite addRunInfo_rows. unfold getRunIDInfo.
  destruct (count_runs runID (CyberShake_Runs db) =? 0)%nat eqn:E.
  - cbn [CyberShake_Runs]. split.
    + rewrite find_snoc. apply Nat.eqb_eq, find_count_runs in E.
      rewrite E. simpl. rewrite Z.eqb_refl. reflexivity.
    + intros k Hk. rewrite find_snoc.
      destruct (List.find _ (CyberShake_Runs db)); [reflexivity|].
      simpl. destruct (runID =? k) eqn:Ek; [|reflexivity].
      apply Z.eqb_eq in Ek. congruence.
  - split; [reflexivity | intros; reflexivity].
Qed.

(** X4: the dictionary of a row.  A row at least as long as the
    description gives a dictionary in which every column name holds the
    value of the last column of that name, and nothing else; a shorter row
    raises. *)
Lemma dict_factory_from_spec {V} description :
  forall idx (row : list V) d,
    (idx + length description <= length row)%nat ->
    exists d', dict_factory_from idx description row d = Some d' /\
      (forall l1 col l2, description = (l1 ++ col :: l2)%list -> col ∉ l2 ->
         d' !! col = row !! (idx + length l1)%nat) /\
      (forall col, col ∉ description -> d' !! col = d !! col).
Proof.
  induction description as [|c rest IH]; intros idx row d Hlen.
  - exists d. split; [reflexivity|]. split; [|reflexivity].
    intros l1 col l2 H. destruct l1; discriminate.
  - simpl in Hlen |- *.
    destruct (row !! idx) as [v|] eqn:Ev.
    2:{ apply lookup_ge_None in Ev. lia. }
    destruct (IH (S idx) row (<[c:=v]> d) ltac:(lia)) as (d' & Hd' & H1 & H2).
    exists d'. split; [exact Hd'|]. split.
    + intros l1 col l2 Heq Hnot. destruct l1 as [|a l1]; simpl in Heq.
      * injection Heq as <- <-. rewrite (H2 c Hnot), lookup_insert_eq.
        rewrite Nat.add_0_r. symmetry. exact Ev.
      * injection Heq as <- ->. rewrite (H1 l1 col l2 eq_refl Hnot).
        f_equal. simpl. lia.
    + intros col Hnot. apply not_elem_of_cons in Hnot as [Hne Hnot].
      rewrite (H2 col Hnot). apply lookup_insert_ne. congruence.
Qed.

Theorem dict_factory_last_column_wins {V} description (row : list V) :
  ((length description <= length row)%nat ->
   exists d, dict_factory description row = Some d /\
     (forall l1 col l2, description = (l1 ++ col :: l2)%list -> col ∉ l2 ->
        d !! col = row !! length l1) /\
     (forall col, col ∉ description -> d !! col = None)) /\
  ((length row < length description)%nat ->
   dict_factory description row = None).
Proof.
  split.
  - intros Hlen.
    destruct (dict_factory_from_spec description 0%nat row ∅ Hlen)
      as (d & Hd & H1 & H2).
    exists d. split; [exact Hd|]. split; [exact H1|].
    intros col Hnot. rewrite (H2 col Hnot). apply lookup_empty.
  - unfold dict_factory. generalize (∅ : gmap string V).
    assert (H : forall idx g,
      (idx <= length row < idx + length description)%nat ->
      dict_factory_from idx description row g = None).
    { induction description as [|c rest IH]; intros idx g Hlen; simpl in *.
      - lia.
      - destruct (row !! idx) as [v|] eqn:Ev; [|reflexivity].
        apply IH. apply lookup_lt_Some in Ev. lia. }
    intros g Hlen. apply H. lia.
Qed.

End RegistryFrame.

Lemma dict_factory_last_column_wins_witness :
  exists d,
    DAL.dict_factory ["Source_ID"; "Mag"; "Source_ID"] [7; 5; 9] = Some d /\
    d !! "Source_ID" = Some 9 /\ d !! "Mag" = Some 5 /\
    DAL.dict_factory ["Source_ID"; "Mag"] [7] = (None : option (gmap string Z)).
Proof.
  destruct (dict_factory_last_column_wins
              ["Source_ID"; "Mag"; "Source_ID"] [7; 5; 9]) as [H _].
  destruct (H ltac:(simpl; lia)) as (d & Hd & H1 & _).
  exists d. split; [exact Hd|]. split; [|split].
  - apply (H1 ["Source_ID"; "Mag"] "Source_ID" [] eq_refl).
    apply not_elem_of_nil.
  - apply (H1 ["Source_ID"] "Mag" ["Source_ID"] eq_refl).
    intros Hin. apply list_elem_of_singleton in Hin. discriminate Hin.
  - apply (proj2 (dict_factory_last_column_wins ["Source_ID"; "Mag"] [7])).
    simpl. lia.
Defined.

(** ** Run ids in text and in directory names *)

Section RunIdText.

Import DAL Main Sample.

Lemma digits_val_acc d (acc : positive) :
  Py.digits_val (Zpos acc) (NilEmpty.string_of_uint d)
  = Some (Zpos (Pos.of_uint_acc d acc)).
Proof.
  revert acc. induction d; intros acc; simpl; try reflexivity;
    (change (Py.is_digit _) with true; cbv iota;
     rewrite <- IHd; f_equal; unfold Py.digit_val; simpl; lia).
Qed.

Lemma digits_val_uint d :
  Py.digits_val 0 (NilEmpty.string_of_uint d) = Some (Z.of_N (Pos.of_uint d)).
Proof.
  induction d; simpl; try reflexivity; [exact IHd | ..];
    change (Py.is_digit _) with true; cbv iota.
  - apply (digits_val_acc d 1).
  - apply (digits_val_acc d 2).
  - apply (digits_val_acc d 3).
  - apply (digits_val_acc d 4).
  - apply (digits_val_acc d 5).
  - apply (digits_val_acc d 6).
  - apply (digits_val_acc d 7).
  - apply (digits_val_acc d 8).
  - apply (digits_val_acc d 9).
Qed.

Lemma uint_all_digits d : Py.all_digits (NilEmpty.string_of_uint d) = true.
Proof. induction d; simpl; auto. Qed.

Lemma all_digits_lstrip s : Py.all_digits s = true -> Py.lstrip s = s.
Proof.
  destruct s as [|a s]; [reflexivity|]. simpl. intros H.
  apply andb_prop in H as [Ha _].
  assert (Hs : Py.is_space a = false).
  { unfold Py.is_digit, Py.is_space in *.
    destruct (N_of_ascii a) as [|p] eqn:E; [discriminate Ha|].
    apply andb_prop in Ha as [H1 H2].
    apply N.leb_le in H1. apply N.leb_le in H2.
    repeat match goal with
           | |- context [(?x <=? ?y)%N] =>
               destruct (N.leb_spec x y); try lia
           | |- context [(?x =? ?y)%N] =>
               destruct (N.eqb_spec x y); try lia
           end; reflexivity. }
  rewrite Hs. reflexivity.
Qed.

Lemma all_digits_rstrip s : Py.all_digits s = true -> Py.rstrip s = s.
Proof.
  induction s as [|a s IH]; [reflexivity|]. simpl. intros H.
  apply andb_prop in H as [Ha Hs]. rewrite (IH Hs).
  destruct s; [|reflexivity].
  assert (Hsp : Py.lstrip (String a EmptyString) = String a EmptyString)
    by (apply all_digits_lstrip; simpl; rewrite Ha; reflexivity).
  simpl in Hsp. destruct (Py.is_space a); [discriminate Hsp | reflexivity].
Qed.

Lemma all_digits_strip s : Py.all_digits s = true -> Py.strip s = s.
Proof.
  intros H. unfold Py.strip. rewrite (all_digits_rstrip s H).
  apply all_digits_lstrip, H.
Qed.

Lemma rstrip_cons c s :
  Py.rstrip s <> EmptyString -> Py.rstrip (String c s) = String c (Py.rstrip s).
Proof. simpl. destruct (Py.rstrip s); [congruence | reflexivity]. Qed.

(** [int] of a non-empty text of digits is the value of the digits. *)
Lemma int_digits a s :
  Py.all_digits (String a s) = true ->
  Py.int (String a s) = Py.digits_val 0 (String a s).
Proof.
  intros H. unfold Py.int. rewrite (all_digits_strip _ H).
  simpl in H. apply andb_prop in H as [Ha _].
  destruct a as [[] [] [] [] [] [] [] []]; try discriminate Ha; reflexivity.
Qed.

Lemma to_uint_string p :
  NilZero.string_of_uint (Pos.to_uint p)
  = NilEmpty.string_of_uint (Pos.to_uint p)
  /\ exists a s, NilEmpty.string_of_uint (Pos.to_uint p) = String a s.
Proof.
  pose proof (DecimalPos.Unsigned.to_uint_nonnil p) as Hn.
  unfold NilZero.string_of_uint.
  destruct (Pos.to_uint p); try contradiction; split; try reflexivity;
    simpl; eauto.
Qed.

Lemma int_str_pos p : Py.int (Py.str (Zpos p)) = Some (Zpos p).
Proof.
  change (Py.str (Zpos p)) with (NilZero.string_of_uint (Pos.to_uint p)).
  destruct (to_uint_string p) as [-> (a & s & E)].
  pose proof (uint_all_digits (Pos.to_uint p)) as Hd.
  pose proof (digits_val_uint (Pos.to_uint p)) as Hv.
  rewrite DecimalPos.Unsigned.of_to in Hv.
  rewrite E in *. rewrite (int_digits _ _ Hd). exact Hv.
Qed.

(** [int(str(n)) = n] for every integer. *)
Lemma int_str n : Py.int (Py.str n) = Some n.
Proof.
  destruct n as [|p|p]; [reflexivity | apply int_str_pos |].
  change (Py.str (Zneg p))
    with (String "-" (NilZero.string_of_uint (Pos.to_uint p))).
  destruct (to_uint_string p) as [-> (a & s & E)].
  pose proof (uint_all_digits (Pos.to_uint p)) as Hd.
  pose proof (digits_val_uint (Pos.to_uint p)) as Hv.
  rewrite DecimalPos.Unsigned.of_to in Hv.
  rewrite E in *.
  assert (Hstrip : Py.strip (String "-" (String a s)) = String "-" (String a s)).
  { unfold Py.strip.
    assert (Hr : Py.rstrip (String "-" (String a s)) = String "-" (String a s)).
    { rewrite rstrip_cons; rewrite (all_digits_rstrip _ Hd);
        [reflexivity | discriminate]. }
    rewrite Hr. reflexivity. }
  unfold Py.int. rewrite Hstrip. cbv iota beta.
  change (Z.opp <$> Py.digits_val 0 (String a s) = Some (Zneg p)).
  rewrite Hv. reflexivity.
Qed.

Lemma str_inj a b : Py.str a = Py.str b -> a = b.
Proof.
  intros H. pose proof (int_str a) as Ha. rewrite H, int_str in Ha.
  injection Ha as <-. reflexivity.
Qed.

Lemma digit_not_underscore a : Py.is_digit a = true -> Ascii.eqb a "_" = false.
Proof.
  destruct a as [[] [] [] [] [] [] [] []]; intros H; try reflexivity;
    discriminate H.
Qed.

Lemma all_digits_no_underscore s :
  Py.all_digits s = true -> has_char "_" s = false.
Proof.
  induction s as [|a s IH]; simpl; intros H; [reflexivity|].
  apply andb_prop in H as [Ha Hs].
  rewrite (digit_not_underscore _ Ha), (IH Hs). reflexivity.
Qed.

Lemma str_no_underscore n : has_char "_" (Py.str n) = false.
Proof.
  destruct n as [|p|p]; [reflexivity | |].
  - change (Py.str (Zpos p)) with (NilZero.string_of_uint (Pos.to_uint p)).
    destruct (to_uint_string p) as [-> _].
    apply all_digits_no_underscore, uint_all_digits.
  - change (Py.str (Zneg p))
      with (String "-" (NilZero.string_of_uint (Pos.to_uint p))).
    destruct (to_uint_string p) as [-> _]. simpl.
    apply all_digits_no_underscore, uint_all_digits.
Qed.

Lemma split_no_sep c s : has_char c s = false -> Py.split c s = [s].
Proof.
  induction s as [|a s IH]; simpl; intros H; [reflexivity|].
  apply orb_false_iff in H as [Ha Hs]. rewrite Ha, (IH Hs). reflexivity.
Qed.

(** The last piece of a split is what follows the last separator. *)
Lemma split_last c s d :
  has_char c d = false ->
  exists l, l <> [] /\ Py.split c (s ++ String c d) = (l ++ [d])%list.
Proof.
  intros Hd. induction s as [|a s (l & Hl & IH)]; simpl.
  - rewrite Ascii.eqb_refl, (split_no_sep _ _ Hd).
    exists [EmptyString]. split; [discriminate | reflexivity].
  - rewrite IH. destruct (Ascii.eqb a c).
    + exists (EmptyString :: l). split; [discriminate | reflexivity].
    + destruct l as [|hd tl]; [contradiction|]. simpl.
      exists (String a hd :: tl). split; [discriminate | reflexivity].
Qed.

Lemma last_item_snoc {A} (l : list A) x : Py.last_item (l ++ [x]) = Some x.
Proof.
  unfold Py.last_item. rewrite map_app. simpl. apply last_last.
Qed.

Lemma suffix_after_last_underscore s d :
  has_char "_" d = false ->
  default EmptyString (Py.last_item (Py.split "_" (s ++ "_" ++ d))) = d.
Proof.
  intros Hd. destruct (split_last "_" s d Hd) as (l & _ & H).
  change (s ++ "_" ++ d) with (s ++ String "_" d).
  rewrite H, last_item_snoc. reflexivity.
Qed.

Lemma string_app_assoc (a b c : string) : (a ++ b) ++ c = a ++ (b ++ c).
Proof.
  induction a as [|x a IH]; [reflexivity|].
  change (String x ((a ++ b) ++ c) = String x (a ++ b ++ c)).
  f_equal. exact IH.
Qed.

Lemma string_length_app (a b : string) :
  String.length (a ++ b) = (String.length a + String.length b)%nat.
Proof.
  induction a as [|x a IH]; [reflexivity|].
  change (S (String.length (a ++ b))
          = S (String.length a + String.length b)).
  f_equal. exact IH.
Qed.

Lemma string_app_inv_tail (t a b : string) : a ++ t = b ++ t -> a = b.
Proof.
  revert b. induction a as [|x a IH]; intros b H.
  - destruct b as [|y b]; [reflexivity|]. exfalso.
    apply (f_equal String.length) in H.
    rewrite !string_length_app in H. simpl in H. lia.
  - destruct b as [|y b].
    + exfalso. apply (f_equal String.length) in H.
      rewrite !string_length_app in H. simpl in H. lia.
    + change (String x (a ++ t) = String y (b ++ t)) in H.
      injection H as <- H. f_equal. apply IH, H.
Qed.

(** X6: the run id is read back from the name of the working directory:
    what follows the last underscore of the path [runSite] builds, taken
    through [int] as [main] does on a restart, is the run id, whatever
    the output path and the name of the site. *)
Theorem run_id_read_back_from_directory config runID site :
  Py.int (default EmptyString
            (Py.last_item (Py.split "_" (cRunPath config runID site))))
  = Some runID.
Proof.
  unfold cRunPath.
  replace (output_path config ++ "/" ++ site ++ "_" ++ Py.str runID)
    with ((output_path config ++ "/" ++ site) ++ "_" ++ Py.str runID)
    by (rewrite !string_app_assoc; reflexivity).
  rewrite suffix_after_last_underscore by apply str_no_underscore.
  apply int_str.
Qed.

(** The working directory determines the site and the run id. *)
Lemma cRunPath_inj config id1 site1 id2 site2 :
  cRunPath config id1 site1 = cRunPath config id2 site2 ->
  id1 = id2 /\ site1 = site2.
Proof.
  unfold cRunPath. intros H.
  apply string_app_inv_head in H. apply (string_app_inv_head "/") in H.
  assert (Hs : Py.str id1 = Py.str id2).
  { rewrite <- (suffix_after_last_underscore site1 (Py.str id1))
      by apply str_no_underscore.
    rewrite H. apply suffix_after_last_underscore, str_no_underscore. }
  split; [apply str_inj, Hs|].
  rewrite Hs in H. apply (string_app_inv_tail ("_" ++ Py.str id2)), H.
Qed.

Lemma runIDs_lower runID i sites id site :
  In (id, site) (zip (runIDs runID i sites) sites) -> runID + i <= id.
Proof.
  revert i. induction sites as [|s sites IH]; simpl; intros i H; [tauto|].
  destruct H as [H|H].
  - injection H as <- _. lia.
  - specialize (IH _ H). lia.
Qed.

(** X5: the calls that [main] dispatches take the sites in their order
    with consecutive run ids, and no two of them get the same working
    directory, even for sites of the same name. *)
Theorem dispatch_directories_distinct config runID :
  map snd (dispatch config runID) = input_sites config /\
  map fst (dispatch config runID)
  = map (fun k => runID + Z.of_nat k) (seq 0 (length (input_sites config))) /\
  NoDup (map (fun t => cRunPath config (fst t) (snd t))
             (dispatch config runID)).
Proof.
  unfold dispatch.
  assert (H : forall sites i,
    map snd (zip (runIDs runID i sites) sites) = sites /\
    map fst (zip (runIDs runID i sites) sites)
    = map (fun k => runID + i + Z.of_nat k) (seq 0 (length sites)) /\
    NoDup (map (fun t => cRunPath config (fst t) (snd t))
               (zip (runIDs runID i sites) sites))).
  { induction sites as [|s sites IH]; intros i; simpl.
    - repeat split. constructor.
    - destruct (IH (i + 1)) as (H1 & H2 & H3). split; [|split].
      + f_equal. exact H1.
      + f_equal; [lia|]. rewrite H2, <- seq_shift, map_map.
        apply map_ext. intros k. lia.
      + apply NoDup_cons. split; [|exact H3].
        intros Hin. apply list_elem_of_In, in_map_iff in Hin
          as ([id site] & Heq & Hin). simpl in Heq.
        apply cRunPath_inj in Heq as [Heq _].
        apply runIDs_lower in Hin. lia. }
  destruct (H (input_sites config) 0) as (H1 & H2 & H3).
  split; [exact H1|]. split; [|exact H3].
  rewrite H2. apply map_ext. intros k. lia.
Qed.

(** *** The least suffix as text *)

Lemma str_ltb_irrefl a : Py.str_ltb a a = false.
Proof.
  induction a as [|x a IH]; simpl; [reflexivity|].
  rewrite N.ltb_irrefl. exact IH.
Qed.

Lemma str_ltb_asym a b : Py.str_ltb a b = true -> Py.str_ltb b a = false.
Proof.
  revert b. induction a as [|x a IH]; intros [|y b]; simpl; try congruence.
  destruct (N.ltb_spec (N_of_ascii x) (N_of_ascii y)),
           (N.ltb_spec (N_of_ascii y) (N_of_ascii x));
    try lia; try congruence. apply IH.
Qed.

Lemma str_ltb_negtrans a b c :
  Py.str_ltb a b = false -> Py.str_ltb b c = false -> Py.str_ltb a c = false.
Proof.
  revert b c. induction a as [|x a IH]; intros [|y b] [|z c]; simpl;
    try congruence.
  destruct (N.ltb_spec (N_of_ascii x) (N_of_ascii y)),
           (N.ltb_spec (N_of_ascii y) (N_of_ascii x)),
           (N.ltb_spec (N_of_ascii y) (N_of_ascii z)),
           (N.ltb_spec (N_of_ascii z) (N_of_ascii y)),
           (N.ltb_spec (N_of_ascii x) (N_of_ascii z)),
           (N.ltb_spec (N_of_ascii z) (N_of_ascii x));
    try lia; try congruence. apply IH.
Qed.

(** [min] returns an element that no element is below. *)
Lemma min_least l :
  match Py.min l with
  | Some m => In m l /\ forall x, In x l -> Py.str_ltb x m = false
  | None => l = []
  end.
Proof.
  induction l as [|x l IH]; simpl; [reflexivity|].
  destruct (Py.min l) as [m|].
  - destruct IH as [Hin Hle]. destruct (Py.str_ltb m x) eqn:E.
    + split; [right; exact Hin|]. intros y [<-|Hy];
        [apply str_ltb_asym, E | apply Hle, Hy].
    + split; [left; reflexivity|]. intros y [<-|Hy];
        [apply str_ltb_irrefl|].
      eapply str_ltb_negtrans; [apply Hle, Hy | exact E].
  - subst l. split; [left; reflexivity|]. intros y [<-|[]].
    apply str_ltb_irrefl.
Qed.

(** X7: on a restart that finds entries with a numeric ending under the
    output path, the starting run id is read from the entry whose text
    after the last underscore is least in the order of strings
    (character by character, not by value); when that text is no integer
    the lookup raises [ValueError].  The registry is not consulted. *)
Theorem startingRunID_on_restart config w :
  compute_restart config = true ->
  glob_digit_suffix w (output_path config) <> [] ->
  exists p,
    In p (glob_digit_suffix w (output_path config)) /\
    (forall q, In q (glob_digit_suffix w (output_path config)) ->
       Py.str_ltb (default EmptyString (Py.last_item (Py.split "_" q)))
                  (default EmptyString (Py.last_item (Py.split "_" p)))
       = false) /\
    startingRunID config w
    = match Py.int (default EmptyString (Py.last_item (Py.split "_" p))) with
      | Some n => inr n
      | None => inl ValueError
      end.
Proof.
  intros Hr Hne. unfold startingRunID. rewrite Hr.
  set (suffix := fun i => default EmptyString (Py.last_item (Py.split "_" i))).
  set (g := glob_digit_suffix w (output_path config)) in *.
  pose proof (min_least (map suffix g)) as Hmin.
  destruct (map suffix g) as [|s0 rest] eqn:Eg.
  { destruct g; [contradiction | discriminate]. }
  destruct (Py.min (s0 :: rest)) as [m|]; [|discriminate].
  destruct Hmin as [Hin Hle]. rewrite <- Eg in Hin, Hle.
  apply in_map_iff in Hin as (p & Hp & Hin).
  exists p. split; [exact Hin|]. split.
  - intros q Hq. fold (suffix q) (suffix p). rewrite Hp.
    apply Hle, in_map, Hq.
  - fold (suffix p). rewrite Hp. destruct (Py.int m); reflexivity.
Qed.

End RunIdText.

Lemma startingRunID_on_restart_witness :
  exists p,
    In p ["/scratch/out/A_9"; "/scratch/out/B_10"] /\
    Py.str_ltb "9" (default EmptyString (Py.last_item (Py.split "_" p)))
    = false /\
    Py.str_ltb "10" (default EmptyString (Py.last_item (Py.split "_" p)))
    = false /\
    Main.startingRunID Sample.config_restart Sample.world_restart
    = match Py.int (default EmptyString (Py.last_item (Py.split "_" p))) with
      | Some n => inr n
      | None => inl ValueError
      end.
Proof.
  assert (Hg : Main.glob_digit_suffix Sample.world_restart
                 (Main.output_path Sample.config_restart)
               = ["/scratch/out/A_9"; "/scratch/out/B_10"])
    by (vm_compute; reflexivity).
  destruct (startingRunID_on_restart Sample.config_restart
              Sample.world_restart eq_refl) as (p & Hin & Hle & Hs).
  - rewrite Hg. discriminate.
  - rewrite Hg in Hin, Hle. exists p. split; [exact Hin|].
    split; [apply (Hle "/scratch/out/A_9"); left; reflexivity|].
    split; [apply (Hle "/scratch/out/B_10"); right; left; reflexivity|].
    exact Hs.
Defined.

(** ** What the stage loop leaves alone *)

Section LoopFrame.

Import workflow Main.

Variable fuel : nat.
Variable env : Env.
Variable config : Config.

Lemma only_files_written_refl w : only_files_written w w.
Proof. unfold only_files_written. repeat split; reflexivity. Qed.

Lemma only_files_written_trans w1 w2 w3 :
  only_files_written w1 w2 -> only_files_written w2 w3 ->
  only_files_written w1 w3.
Proof.
  unfold only_files_written.
  intros (Ha & Hb & Hc & Hd) (Ka & Kb & Kc & Kd).
  split; [congruence|]. split; [congruence|]. split; [congruence|].
  clear -Hd Kd. set_solver.
Qed.

Lemma only_files_written_log e w : only_files_written w (log e w).
Proof. unfold only_files_written. repeat split; reflexivity. Qed.

Lemma write_file_frame path text w :
  match write_file path text w with
  | Ok _ w' | Raised _ w' => only_files_written w w'
  | _ => False
  end.
Proof.
  pose proof (write_file_trace path text w) as H.
  destruct (write_file path text w) as [[] w'|e w'|w'|]; try tauto.
  - destruct H as (_ & Hb & Hc & Hd & He). unfold only_files_written.
    split; [exact Hd|]. split; [exact Hb|]. split; [exact Hc|].
    rewrite He, dom_insert. clear. set_solver.
  - subst w'. apply only_files_written_refl.
Qed.

Lemma build_frame c w :
  match build env c w with
  | Ok _ w' | Raised _ w' => only_files_written w w'
  | _ => False
  end.
Proof.
  unfold build. destruct (scriptLines env (className c));
    [|apply only_files_written_refl].
  unfold saveScript, bind, modify.
  match goal with |- context [write_file ?p ?t w] =>
    pose proof (write_file_frame p t w) as H;
    destruct (write_file p t w) as [[] w1|e w1|w1|]; try tauto
  end.
  all: try (apply (only_files_written_trans _ _ _ H);
            apply only_files_written_log).
Qed.

Lemma run_frame c w :
  match run fuel env c w with
  | Ok _ w' | Raised _ w' | Blocked w' => only_files_written w w'
  | OutOfFuel => True
  end.
Proof.
  pose proof (run_trace fuel env c w) as H.
  destruct (run fuel env c w) as [[] w'|e w'|w'|]; try exact I; subst w';
    [apply only_files_written_log | apply only_files_written_refl
     | apply only_files_written_refl].
Qed.

Lemma postprocess_frame restartFile region c w :
  match postprocess env restartFile region c w with
  | Ok _ w' | Raised _ w' => only_files_written w w'
  | _ => False
  end.
Proof.
  assert (Hlast : forall w0, only_files_written w w0 ->
    match (do_ write_file restartFile (checkpointToken c);
           modify (log (EvPostprocess (className c)))) w0 with
    | Ok _ w' | Raised _ w' => only_files_written w w'
    | _ => False
    end).
  { intros w0 H0. unfold bind, modify.
    pose proof (write_file_frame restartFile (checkpointToken c) w0) as H.
    destruct (write_file _ _ w0) as [[] w1|e w1|w1|]; try tauto.
    - apply (only_files_written_trans _ _ _ H0).
      apply (only_files_written_trans _ _ _ H).
      apply only_files_written_log.
    - exact (only_files_written_trans _ _ _ H0 H). }
  unfold postprocess.
  destruct c; try (unfold bind at 1, ret; apply Hlast;
                   apply only_files_written_refl).
  unfold bind at 1.
  match goal with |- context [write_file ?p ?t w] =>
    pose proof (write_file_frame p t w) as H;
    destruct (write_file p t w) as [[] w1|e w1|w1|]; try tauto
  end.
  apply Hlast, H.
Qed.

Lemma runStage_frame stage w :
  match runStage fuel env config stage w with
  | Ok _ w' | Raised _ w' | Blocked w' => only_files_written w w'
  | OutOfFuel => True
  end.
Proof.
  unfold runStage. destruct (lookup stage) as [c|];
    [|apply only_files_written_refl].
  unfold bind at 1, modify at 1. set (w1 := log (EvStart (className c)) w).
  assert (H1 : only_files_written w w1) by apply only_files_written_log.
  unfold bind at 1.
  pose proof (build_frame c w1) as Hb.
  destruct (build env c w1) as [[] w2|e w2|w2|]; try contradiction;
    cbv beta iota; pose proof (only_files_written_trans _ _ _ H1 Hb) as H2;
    [|exact H2].
  unfold bind at 1.
  pose proof (run_frame c w2) as Hr.
  destruct (run fuel env c w2) as [[] w3|e w3|w3|]; try exact I;
    cbv beta iota; pose proof (only_files_written_trans _ _ _ H2 Hr) as H3;
    [|exact H3|exact H3].
  pose proof (postprocess_frame (compute_restartFile config)
                (input_region config) c w3) as Hp.
  destruct (postprocess env _ _ c w3) as [[] w4|e w4|w4|]; try contradiction;
    cbv beta iota; exact (only_files_written_trans _ _ _ H3 Hp).
Qed.

Lemma execute_in_order_frame stages w :
  match execute_in_order fuel env config stages w with
  | Ok _ w' | Raised _ w' | Blocked w' => only_files_written w w'
  | OutOfFuel => True
  end.
Proof.
  revert w. induction stages as [|stage rest IH]; intros w.
  - apply only_files_written_refl.
  - cbn [execute_in_order]. unfold bind.
    pose proof (runStage_frame stage w) as Hs.
    destruct (runStage fuel env config stage w) as [[] w1|e w1|w1|];
      try assumption.
    specialize (IH w1).
    destruct (execute_in_order fuel env config rest w1)
      as [[] w2|e w2|w2|]; try exact I;
      exact (only_files_written_trans _ _ _ Hs IH).
Qed.

End LoopFrame.

(** ** Stopping and restarting *)

Section Restart.

Import workflow Main.

Variable config : Config.


Hypothesis restartFile_stage_txt : compute_restartFile config = "stage.txt".


Lemma readlines_checkpointToken c :
  Py.readlines (checkpointToken c) = [className c].
Proof. destruct c; reflexivity. Qed.

(** X9: the token a [postprocess] writes is the token a restart reads:
    once the [postprocess] of a stage has returned in a working directory,
    [runSite]'s reading of the restart file of that directory, in restart
    mode, gives the name of the stage, and changes nothing. *)
Theorem checkpoint_written_is_checkpoint_read env c w w' :
  compute_restart config = true ->
  cwd w ∈ dirs w ->
  postprocess env (compute_restartFile config) (input_region config) c w
  = Ok tt w' ->
  readCheckpoint config (cwd w) w' = Ok (Some (className c)) w'.
Proof.
  intros Hr Hd Hp.
  pose proof (postprocess_effect env config restartFile_stage_txt c w) as He.
  pose proof (postprocess_frame env (compute_restartFile config)
                (input_region config) c w) as Hf.
  rewrite Hp in He, Hf. destruct He as (_ & Hck).
  destruct Hf as (_ & Hdirs & Hcwd & _).
  unfold checkpoint in Hck. rewrite checkpoint_path in Hck by assumption.
  rewrite Hcwd in Hck.
  unfold readCheckpoint, bind, get, ret.
  rewrite Hr, Hdirs, (bool_decide_eq_true_2 _ Hd). cbn [andb negb].
  rewrite restartFile_stage_txt.
  change (cwd w ++ "/" ++ "stage.txt") with (cwd w ++ "/stage.txt").
  rewrite Hck, readlines_checkpointToken. reflexivity.
Qed.

End Restart.



Lemma sample_postprocess :
  workflow.postprocess Sample.env_ok
    (Main.compute_restartFile
       (Main.set_restartFile "stage.txt" Sample.config_restart))
    (Main.input_region
       (Main.set_restartFile "stage.txt" Sample.config_restart))
    workflow.preSGT Sample.world_A
  = Ok tt (log (EvPostprocess "preSGT")
             (set_files (<["/scratch/out/A_1/stage.txt" := "preSGT"]>
                           (files Sample.world_A)) Sample.world_A)).
Proof. vm_compute. reflexivity. Qed.

Lemma checkpoint_written_is_checkpoint_read_witness :
  Main.readCheckpoint (Main.set_restartFile "stage.txt" Sample.config_restart)
    "/scratch/out/A_1"
    (log (EvPostprocess "preSGT")
       (set_files (<["/scratch/out/A_1/stage.txt" := "preSGT"]>
                     (files Sample.world_A)) Sample.world_A))
  = Ok (Some "preSGT")
      (log (EvPostprocess "preSGT")
         (set_files (<["/scratch/out/A_1/stage.txt" := "preSGT"]>
                       (files Sample.world_A)) Sample.world_A)).
Proof.
  refine (checkpoint_written_is_checkpoint_read
            (Main.set_restartFile "stage.txt" Sample.config_restart) eq_refl
            Sample.env_ok workflow.preSGT Sample.world_A _ eq_refl _
            sample_postprocess).
  apply (bool_decide_unpack _). vm_compute. exact I.
Defined.

(** ** [runSite] from its first line to its last *)

Section WholeRun.

Import workflow Main.

Variable fuel : nat.
Variable env : Env.
Variable config : Config.
Variable runID : Z.
Variable site : string.

Lemma readCheckpoint_frame cfg dir w :
  match readCheckpoint cfg dir w with
  | Ok _ w' | Raised _ w' =>
      db w' = db w /\ files w' = files w /\ trace w' = trace w /\
      cwd w' = cwd w /\ dirs w' ⊆ {[dir]} ∪ dirs w
  | _ => False
  end.
Proof.
  unfold readCheckpoint, bind, get, ret, raise.
  destruct (negb _).
  - unfold makedirs. destruct (files w !! dir); cbn;
      repeat (split; [reflexivity|]); set_solver.
  - destruct (files w !! _) as [text|].
    + destruct (Py.readlines text);
        repeat (split; [reflexivity|]); set_solver.
    + destruct (bool_decide _);
        repeat (split; [reflexivity|]); set_solver.
Qed.

(** [runSite] is [runSiteWith] on the lookup as modelled. *)
Lemma runSite_runSiteWith w :
  runSite fuel env config runID site w
  = runSiteWith (fun s d => inr (DAL.getSiteID s d))
      fuel env config runID site w.
Proof.
  cbv [runSite runSiteWith loopEntry bind ret get modify raise].
  destruct (readCheckpoint _ _ w) as [rstage w1|e w1|w1|]; try reflexivity.
  destruct (Py.truthy_opt rstage && bool_decide _); [reflexivity|].
  destruct (chdir _ w1) as [[] w2|e w2|w2|]; try reflexivity.
  destruct (negb _); [reflexivity|].
  destruct (DAL.addRunInfo _ _ _ _ _ _ _ _) as [e|db'];
    [destruct e; reflexivity|].
  destruct (input_ERF_ruptures _);
    destruct (generateCyberShakeCFG _ _) as [[] w5|e w5|w5|]; reflexivity.
Qed.


(** X11: in restart mode, a working directory whose restart file is empty
    stops [runSite] at once with [IndexError] (the first of no lines),
    before the directory is entered and before the registry is asked. *)
Theorem runSite_empty_restart_file w :
  compute_restart config = true ->
  cRunPath config runID site ∈ dirs w ->
  files w !! (cRunPath config runID site ++ "/stage.txt") = Some EmptyString ->
  runSite fuel env config runID site w = Raised IndexError w.
Proof.
  intros Hr Hd Hf.
  unfold runSite, readCheckpoint, bind, get, ret.
  change (compute_restart (set_restartFile "stage.txt" config))
    with (compute_restart config).
  change (cRunPath config runID site ++ "/"
          ++ compute_restartFile (set_restartFile "stage.txt" config))
    with (cRunPath config runID site ++ "/stage.txt").
  rewrite Hr, (bool_decide_eq_true_2 _ Hd). cbn [andb negb].
  rewrite Hf. reflexivity.
Qed.

Lemma generateCyberShakeCFG_frame cfg w :
  match generateCyberShakeCFG cfg w with
  | Ok _ w' | Raised _ w' => only_files_written w w' /\ trace w' = trace w
  | _ => False
  end.
Proof.
  unfold generateCyberShakeCFG. unfold bind at 1.
  match goal with |- context [write_file ?p ?t w] =>
    pose proof (write_file_frame p t w) as H;
    pose proof (write_file_trace p t w) as Ht;
    destruct (write_file p t w) as [[] w1|e w1|w1|]; try contradiction
  end.
  2:{ subst w1. split; [exact H | reflexivity]. }
  destruct Ht as (Ht & _).
  unfold bind, get, raise. destruct (files w1 !! _) as [text|];
    [|split; assumption].
  match goal with |- context [write_file ?p ?t w1] =>
    pose proof (write_file_frame p t w1) as H';
    pose proof (write_file_trace p t w1) as Ht';
    destruct (write_file p t w1) as [[] w2|e w2|w2|]; try contradiction
  end.
  - destruct Ht' as (Ht' & _).
    split; [exact (only_files_written_trans _ _ _ H H') | congruence].
  - subst w2. split; assumption.
Qed.

Lemma execute_in_order_checkpoint cfg stages w w' :
  compute_restartFile cfg = "stage.txt" ->
  stages <> [] ->
  execute_in_order fuel env cfg stages w = Ok tt w' ->
  checkpoint cfg w' = last stages.
Proof.
  intros Hrf. revert w. induction stages as [|stage rest IH]; intros w Hne He;
    [contradiction|].
  cbn [execute_in_order] in He. unfold bind at 1 in He.
  destruct (runStage fuel env cfg stage w) as [[] w1|e w1|w1|] eqn:Es;
    try discriminate He.
  destruct rest as [|stage' rest'].
  - cbn [execute_in_order] in He. injection He as <-.
    unfold runStage in Es. destruct (lookup stage) as [c|] eqn:El;
      [|discriminate Es].
    apply lookup_className in El. subst stage.
    unfold bind at 1, modify at 1 in Es. unfold bind at 1 in Es.
    destruct (build env c _) as [[] w2|e w2|w2|]; try discriminate Es.
    unfold bind at 1 in Es.
    destruct (run fuel env c w2) as [[] w3|e w3|w3|]; try discriminate Es.
    pose proof (postprocess_effect env cfg Hrf c w3) as Hp.
    rewrite Es in Hp. destruct Hp as (_ & Hp). exact Hp.
  - rewrite (IH w1 ltac:(discriminate) He). reflexivity.
Qed.

Lemma resolve_cases w path :
  resolve w path = path \/ resolve w path = cwd w ++ "/" ++ path.
Proof.
  unfold resolve. destruct path as [|[[] [] [] [] [] [] [] []] s]; auto.
Qed.

(** A file that [runSite] writes under the working directory by a name
    longer than that of the restart file is not the restart file. *)
Lemma resolve_not_restart_file w p tail :
  cwd w = p -> tail <> "/stage.txt" -> (9 < String.length tail)%nat ->
  resolve w (p ++ tail) <> p ++ "/stage.txt".
Proof.
  intros Hc Ht Hl. destruct (resolve_cases w (p ++ tail)) as [-> | ->].
  - intros H. apply string_app_inv_head in H. contradiction.
  - rewrite Hc. intros H. apply string_app_inv_head in H.
    change ("/" ++ p ++ tail) with (String "/" (p ++ tail)) in H.
    injection H as H.
    apply (f_equal String.length) in H. rewrite string_length_app in H.
    simpl in H. lia.
Qed.

Lemma generateCyberShakeCFG_keeps_restart_file cfg w :
  cwd w = output_cRunpath cfg ->
  match generateCyberShakeCFG cfg w with
  | Ok _ w' | Raised _ w' =>
      files w' !! (output_cRunpath cfg ++ "/stage.txt")
      = files w !! (output_cRunpath cfg ++ "/stage.txt")
  | _ => False
  end.
Proof.
  intros Hc. unfold generateCyberShakeCFG. unfold bind at 1.
  match goal with |- context [write_file ?p ?t w] =>
    pose proof (write_file_trace p t w) as Ht;
    destruct (write_file p t w) as [[] w1|e w1|w1|]; try contradiction
  end.
  2:{ subst w1. reflexivity. }
  destruct Ht as (_ & _ & Hc1 & _ & Hf1).
  assert (E1 : files w1 !! (output_cRunpath cfg ++ "/stage.txt")
               = files w !! (output_cRunpath cfg ++ "/stage.txt")).
  { rewrite Hf1. apply lookup_insert_ne.
    apply resolve_not_restart_file;
      [exact Hc | discriminate | simpl; lia]. }
  unfold bind, get, raise.
  destruct (files w1 !! (input_cyberShake_path cfg ++ "/config.py"))
    as [text|]; [|exact E1].
  match goal with |- context [write_file ?p ?t w1] =>
    pose proof (write_file_trace p t w1) as Ht';
    destruct (write_file p t w1) as [[] w2|e w2|w2|]; try contradiction
  end.
  - destruct Ht' as (_ & _ & _ & _ & Hf2). rewrite Hf2, <- E1.
    apply lookup_insert_ne. apply resolve_not_restart_file;
      [rewrite Hc1; exact Hc | discriminate | simpl; lia].
  - subst w2. exact E1.
Qed.

(** What [readCheckpoint] gives, in restart mode in the existing working
    directory or where there is no restart file, is the first line of the
    restart file. *)
Lemma readCheckpoint_reads cfg p w rstage w1 :
  compute_restartFile cfg = "stage.txt" ->
  (compute_restart cfg = true /\ p ∈ dirs w)
  \/ files w !! (p ++ "/stage.txt") = None ->
  readCheckpoint cfg p w = Ok rstage w1 ->
  match files w !! (p ++ "/stage.txt") with
  | None => Some None
  | Some text =>
      match Py.readlines text with
      | [] => None
      | line :: _ => Some (Some line)
      end
  end = Some rstage.
Proof.
  intros Hrf Hmode. unfold readCheckpoint, bind, get, ret, raise.
  rewrite Hrf.
  change (p ++ "/" ++ "stage.txt") with (p ++ "/stage.txt").
  destruct (negb (compute_restart cfg && bool_decide (p ∈ dirs w))) eqn:En.
  - destruct Hmode as [[Hr Hd]|Hn].
    + rewrite Hr, (bool_decide_eq_true_2 _ Hd) in En. discriminate En.
    + rewrite Hn. destruct (makedirs p w) as [[] w2|e w2|w2|];
        intros H; try discriminate H. injection H as <- _. reflexivity.
  - destruct (files w !! (p ++ "/stage.txt")) as [text|].
    + destruct (Py.readlines text) as [|line rest];
        intros H; [discriminate H|]. injection H as <- _. reflexivity.
    + destruct (bool_decide (p ++ "/stage.txt" ∈ dirs w)); intros H;
        [discriminate H|]. injection H as <- _. reflexivity.
Qed.

(** How [runSite] enters its loop.  In restart mode in the existing working
    directory, or where there is no restart file, and when the generation
    of the rupture set (if any) leaves the restart file alone: the restart
    file is named [stage.txt], the working directory is the active one, no
    stage action was taken, the restart file is as it was, and the restart
    point is the one read from it.  So a restart by [runSite] is a restart
    in the sense of [pipeline_state]. *)
Lemma loopEntry_is_a_restart lookup w cfg rstage w1 :
  loopEntry lookup env config runID site w = Ok (Some (cfg, rstage)) w1 ->
  (compute_restart config = true /\ cRunPath config runID site ∈ dirs w)
  \/ files w !! (cRunPath config runID site ++ "/stage.txt") = None ->
  match input_ERF_ruptures config with
  | Some _ => True
  | None =>
      forall opath fs,
        snd (generateRuptures env opath fs)
          !! (cRunPath config runID site ++ "/stage.txt")
        = snd fs !! (cRunPath config runID site ++ "/stage.txt")
  end ->
  compute_restartFile cfg = "stage.txt" /\
  cwd w1 = cRunPath config runID site /\
  trace w1 = trace w /\
  checkpoint cfg w1 = files w !! (cRunPath config runID site ++ "/stage.txt") /\
  restart_point cfg w1 = Some rstage.
Proof.
  intros H Hmode Hrup. set (p := cRunPath config runID site) in *.
  unfold loopEntry in H. fold p in H. unfold bind at 1 in H.
  pose proof (readCheckpoint_frame (set_restartFile "stage.txt" config) p w)
    as Hf.
  pose proof (readCheckpoint_reads (set_restartFile "stage.txt" config) p w)
    as Hread.
  destruct (readCheckpoint _ p w) as [r w2|e w2|w2|]; try discriminate H.
  specialize (Hread r w2 eq_refl Hmode eq_refl).
  destruct Hf as (_ & Hfi & Htr & _).
  destruct (Py.truthy_opt r && bool_decide _); [discriminate H|].
  unfold bind at 1, chdir in H.
  destruct (decide _) as [_|]; [|discriminate H].
  unfold bind at 1, get in H. cbn [db set_cwd] in H.
  destruct (lookup site (db w2)) as [e|siteId]; [discriminate H|].
  destruct (negb _); [discriminate H|].
  unfold bind at 1 in H.
  destruct (DAL.addRunInfo _ _ _ _ _ _ _ _) as [e|db'];
    [discriminate H|].
  unfold modify at 1 in H.
  set (w3 := set_db db' (set_cwd p w2)) in H.
  assert (H3 : cwd w3 = p /\ trace w3 = trace w
               /\ files w3 !! (p ++ "/stage.txt")
                  = files w !! (p ++ "/stage.txt")).
  { split; [reflexivity|]. split; [exact Htr|].
    unfold w3. cbn [files set_db set_cwd]. rewrite Hfi. reflexivity. }
  clearbody w3.
  assert (Hgoal : forall c w4,
    compute_restartFile c = "stage.txt" -> output_cRunpath c = p ->
    cwd w4 = p -> trace w4 = trace w ->
    files w4 !! (p ++ "/stage.txt") = files w !! (p ++ "/stage.txt") ->
    (do_ generateCyberShakeCFG c; ret (Some (c, r))) w4
    = Ok (Some (cfg, rstage)) w1 ->
    compute_restartFile cfg = "stage.txt" /\ cwd w1 = p /\
    trace w1 = trace w /\
    checkpoint cfg w1 = files w !! (p ++ "/stage.txt") /\
    restart_point cfg w1 = Some rstage).
  { intros c w4 Hc1 Hc2 Hc4 Ht4 Hf4 He. unfold bind, ret in He.
    pose proof (generateCyberShakeCFG_frame c w4) as Hg.
    pose proof (generateCyberShakeCFG_keeps_restart_file c w4) as Hk.
    destruct (generateCyberShakeCFG c w4) as [[] w5|e w5|w5|];
      try discriminate He.
    injection He as <- <- <-.
    destruct Hg as ((_ & _ & Hc5 & _) & Ht5).
    rewrite Hc2 in Hk. specialize (Hk Hc4).
    assert (Hck : checkpoint c w5 = files w !! (p ++ "/stage.txt")).
    { unfold checkpoint. rewrite (checkpoint_path c Hc1), Hc5, Hc4, Hk.
      exact Hf4. }
    split; [exact Hc1|]. split; [rewrite Hc5; exact Hc4|].
    split; [rewrite Ht5; exact Ht4|]. split; [exact Hck|].
    unfold restart_point. rewrite Hck. exact Hread. }
  destruct H3 as (Hc3 & Ht3 & Hf3).
  unfold bind at 1 in H.
  change (input_ERF_ruptures (set_cRunpath p (set_restartFile "stage.txt" config)))
    with (input_ERF_ruptures config) in H.
  destruct (input_ERF_ruptures config) as [rup|].
  - unfold ret at 1 in H.
    refine (Hgoal _ w3 _ _ Hc3 Ht3 Hf3 H); reflexivity.
  - unfold bind at 1, modify at 1, ret at 1 in H.
    match type of H with context [generateRuptures env ?o ?fs] =>
      specialize (Hrup o fs);
      destruct (generateRuptures env o fs) as [d f]
    end.
    cbn [snd] in Hrup.
    refine (Hgoal _ _ _ _ _ _ _ H).
    + reflexivity.
    + reflexivity.
    + exact Hc3.
    + exact Ht3.
    + cbn [files set_files set_dirs]. rewrite Hrup. exact Hf3.
Qed.

(** The first run: called where the working directory holds no restart
    file and no stage has started, [runSite] enters its loop without
    restart point in a fresh working directory. *)
Lemma runSite_first_run_is_fresh lookup w cfg rstage w1 :
  files w !! (cRunPath config runID site ++ "/stage.txt") = None ->
  (forall stage, ~ started stage w) ->
  match input_ERF_ruptures config with
  | Some _ => True
  | None =>
      forall opath fs,
        snd (generateRuptures env opath fs)
          !! (cRunPath config runID site ++ "/stage.txt")
        = snd fs !! (cRunPath config runID site ++ "/stage.txt")
  end ->
  loopEntry lookup env config runID site w = Ok (Some (cfg, rstage)) w1 ->
  compute_restartFile cfg = "stage.txt" /\ fresh cfg w1 /\ rstage = None.
Proof.
  intros Hnone Hst Hrup H.
  destruct (loopEntry_is_a_restart lookup w cfg rstage w1 H
              (or_intror Hnone) Hrup) as (Hrf & _ & Htr & Hck & Hrp).
  rewrite Hnone in Hck. unfold restart_point in Hrp. rewrite Hck in Hrp.
  injection Hrp as <-. split; [exact Hrf|]. split; [|reflexivity].
  split; [exact Hck|]. intros stage Hs. apply (Hst stage).
  unfold started in *. rewrite <- Htr. exact Hs.
Qed.

(** A restart: called in restart mode where a run has stopped, the restart
    file and the history being as that run left them, [runSite] enters
    its loop as a restart does, so the states of its loop are states of
    the pipeline run. *)
Lemma runSite_restart_is_a_restart lookup w0 pc w wc cfg rstage w1 :
  pipeline_state w0 (pc, w) ->
  cwd w = cRunPath config runID site ->
  files wc !! (cRunPath config runID site ++ "/stage.txt")
  = files w !! (cRunPath config runID site ++ "/stage.txt") ->
  trace wc = trace w ->
  compute_restart config = true ->
  cRunPath config runID site ∈ dirs wc ->
  match input_ERF_ruptures config with
  | Some _ => True
  | None =>
      forall opath fs,
        snd (generateRuptures env opath fs)
          !! (cRunPath config runID site ++ "/stage.txt")
        = snd fs !! (cRunPath config runID site ++ "/stage.txt")
  end ->
  loopEntry lookup env config runID site wc = Ok (Some (cfg, rstage)) w1 ->
  forall env' s,
    reachable env' cfg (AtStage wf rstage, w1) s -> pipeline_state w0 s.
Proof.
  intros Hp Hcwd Hfile Htrace Hmode Hdir Hrup H env' s Hreach.
  destruct (loopEntry_is_a_restart lookup wc cfg rstage w1 H
              (or_introl (conj Hmode Hdir)) Hrup)
    as (Hrf & _ & Htr & Hck & Hrp).
  apply (restarted w0 env' cfg pc w w1 rstage s Hp Hrf); [|exact Hrp|exact Hreach].
  split; [|rewrite Htr; exact Htrace].
  rewrite Hck, Hfile. unfold checkpoint.
  rewrite (checkpoint_path cfg Hrf), Hcwd. reflexivity.
Qed.

(** X20: no stage starts for a run the registry was not told of.  When
    [runSite] gets to its loop, whatever the answers of the registry, the
    lookup of the site has answered an id that is not 0, the registry is
    the one [addRunInfo] left for the run id and that id, and no stage
    action has been taken since [runSite] was called. *)
Theorem loop_entered_for_a_registered_run lookup w cfg rstage w1 :
  loopEntry lookup env config runID site w = Ok (Some (cfg, rstage)) w1 ->
  trace w1 = trace w /\
  exists siteId,
    lookup site (db w) = inr (Some siteId) /\ siteId <> 0 /\
    DAL.addRunInfo (now env) runID siteId (input_ERF_id config)
      (input_model_id config) (setup_sourceFrequency config)
      (setup_frequency config) (db w) = inr (db w1).
Proof.
  intros H. unfold loopEntry in H. unfold bind at 1 in H.
  pose proof (readCheckpoint_frame (set_restartFile "stage.txt" config)
                (cRunPath config runID site) w) as Hf.
  destruct (readCheckpoint _ _ w) as [r w2|e w2|w2|]; try discriminate H.
  destruct Hf as (Hdb & _ & Htr & _).
  destruct (Py.truthy_opt r && bool_decide _); [discriminate H|].
  unfold bind at 1, chdir in H.
  destruct (decide _) as [_|]; [|discriminate H].
  unfold bind at 1, get in H. cbn [db set_cwd] in H. rewrite Hdb in H.
  destruct (lookup site (db w)) as [e|[siteId|]]; try discriminate H.
  cbn [Py.truthy_int] in H.
  destruct (siteId =? 0) eqn:Ez; [discriminate H|]. cbn [negb default] in H.
  apply Z.eqb_neq in Ez.
  unfold bind at 1 in H.
  match type of H with context [DAL.addRunInfo ?a ?b ?c ?d ?e ?f ?g ?h] =>
    destruct (DAL.addRunInfo a b c d e f g h) as [err|db'] eqn:Ea
  end; [discriminate H|].
  unfold modify at 1 in H.
  set (w3 := set_db db' (set_cwd (cRunPath config runID site) w2)) in H.
  assert (H3 : db w3 = db' /\ trace w3 = trace w)
    by (split; [reflexivity | exact Htr]).
  clearbody w3.
  assert (Hgoal : forall c w4, db w4 = db' -> trace w4 = trace w ->
    (do_ generateCyberShakeCFG c; ret (Some (c, r))) w4
    = Ok (Some (cfg, rstage)) w1 ->
    trace w1 = trace w /\ db w1 = db').
  { intros c w4 Hd4 Ht4 He. unfold bind, ret in He.
    pose proof (generateCyberShakeCFG_frame c w4) as Hg.
    destruct (generateCyberShakeCFG c w4) as [[] w5|e w5|w5|];
      try discriminate He.
    injection He as _ _ <-. destruct Hg as ((Hd5 & _) & Ht5).
    split; congruence. }
  destruct H3 as (Hd3 & Ht3).
  assert (Hend : trace w1 = trace w /\ db w1 = db').
  { unfold bind at 1 in H.
    destruct (input_ERF_ruptures _) as [rup|].
    - unfold ret at 1 in H. exact (Hgoal _ w3 Hd3 Ht3 H).
    - unfold bind at 1, modify at 1, ret at 1 in H.
      refine (Hgoal _ _ _ _ H);
        destruct (generateRuptures env _ _) as [d f]; assumption. }
  destruct Hend as (Ht1 & Hd1). split; [exact Ht1|].
  exists siteId. split; [reflexivity|]. split; [exact Ez|].
  rewrite Hd1. exact Ea.
Qed.

Lemma readlines_cleanUp : Py.readlines "cleanUp" = ["cleanUp"].
Proof. reflexivity. Qed.

(** X12: a run of a known site that went through all the stages is
    recognised by a later run in restart mode: started afresh (restart off,
    or no working directory yet) with the ruptures given, once [runSite]
    has returned, [runSite] in restart mode on the world it left returns at
    once and leaves that world as it is, whatever the environment then
    does. *)
Theorem finished_run_is_skipped_on_restart fuel' env' config' r w w' :
  input_ERF_ruptures config = Some r ->
  Py.truthy_int (DAL.getSiteID site (db w)) = true ->
  compute_restart config
  && bool_decide (cRunPath config runID site ∈ dirs w) = false ->
  compute_restart config' = true ->
  output_path config' = output_path config ->
  runSite fuel env config runID site w = Ok tt w' ->
  runSite fuel' env' config' runID site w' = Ok tt w'.
Proof.
  intros Herf Hsite Hfresh Hr' Hpath Hrun.
  set (p := cRunPath config runID site) in *.
  assert (Hp' : cRunPath config' runID site = p)
    by (unfold p, cRunPath; rewrite Hpath; reflexivity).
  assert (Hend : cwd w' = p /\ p ∈ dirs w'
                 /\ files w' !! (p ++ "/stage.txt") = Some "cleanUp").
  { unfold runSite in Hrun. fold p in Hrun. unfold bind at 1 in Hrun.
    unfold readCheckpoint, bind at 1, get in Hrun.
    change (compute_restart (set_restartFile "stage.txt" config))
      with (compute_restart config) in Hrun.
    rewrite Hfresh in Hrun. cbn [negb] in Hrun.
    unfold bind at 1, makedirs in Hrun.
    destruct (files w !! p); [discriminate Hrun|].
    unfold ret at 1 in Hrun. cbn [Py.truthy_opt andb] in Hrun.
    unfold bind at 1, chdir in Hrun.
    destruct (decide _) as [_|]; [|discriminate Hrun].
    unfold bind at 1, get in Hrun.
    cbn [db set_cwd set_dirs] in Hrun. rewrite Hsite in Hrun.
    cbn [negb] in Hrun.
    unfold bind at 1 in Hrun.
    destruct (DAL.addRunInfo _ _ _ _ _ _ _ _) as [e|db'];
      [discriminate Hrun|].
    unfold modify at 1 in Hrun. unfold bind at 1 in Hrun.
    change (input_ERF_ruptures
              (set_cRunpath p (set_restartFile "stage.txt" config)))
      with (input_ERF_ruptures config) in Hrun.
    rewrite Herf in Hrun. unfold ret at 1 in Hrun.
    unfold bind at 1 in Hrun.
    set (cfg := set_cRunpath p (set_restartFile "stage.txt" config)) in *.
    match type of Hrun with context [generateCyberShakeCFG cfg ?w0] =>
      set (w3 := w0) in *;
      pose proof (generateCyberShakeCFG_frame cfg w3) as Hg;
      destruct (generateCyberShakeCFG cfg w3) as [[] w4|e w4|w4|];
        try discriminate Hrun
    end.
    destruct Hg as ((_ & Hd4 & Hc4 & _) & _).
    rewrite stagesLoop_falsy in Hrun by reflexivity.
    pose proof (execute_in_order_frame fuel env cfg wf w4) as Hfr.
    rewrite Hrun in Hfr. destruct Hfr as (_ & Hd' & Hc' & _).
    pose proof (execute_in_order_checkpoint cfg wf w4 w' eq_refl
                  ltac:(discriminate) Hrun) as Hck.
    unfold checkpoint in Hck.
    rewrite (checkpoint_path cfg eq_refl) in Hck.
    assert (Hcwd : cwd w' = p) by (rewrite Hc', Hc4; reflexivity).
    rewrite Hcwd in Hck.
    split; [exact Hcwd|]. split; [|exact Hck].
    rewrite Hd', Hd4. unfold w3. cbn [dirs set_db set_cwd set_dirs].
    apply elem_of_union_l, elem_of_singleton. reflexivity. }
  destruct Hend as (_ & Hd & Hf).
  unfold runSite, readCheckpoint, bind, get, ret.
  change (compute_restart (set_restartFile "stage.txt" config'))
    with (compute_restart config').
  change (cRunPath config' runID site ++ "/"
          ++ compute_restartFile (set_restartFile "stage.txt" config'))
    with (cRunPath config' runID site ++ "/stage.txt").
  rewrite Hp', Hr', (bool_decide_eq_true_2 _ Hd). cbn [andb negb].
  rewrite Hf, readlines_cleanUp. reflexivity.
Qed.

End WholeRun.

(** ** The runner: the job submitted, the job polled *)

Section Runner.

Import workflow Main.

Lemma split_app_sep c p s :
  has_char c p = false -> Py.split c (p ++ String c s) = p :: Py.split c s.
Proof.
  induction p as [|a p IH]; simpl; intros H.
  - rewrite Ascii.eqb_refl. reflexivity.
  - apply orb_false_iff in H as [Ha Hp]. rewrite Ha, (IH Hp). reflexivity.
Qed.

Lemma digit_not_space a : Py.is_digit a = true -> Ascii.eqb a " " = false.
Proof.
  destruct a as [[] [] [] [] [] [] [] []]; intros H; try reflexivity;
    discriminate H.
Qed.

Lemma all_digits_no_space s :
  Py.all_digits s = true -> has_char " " s = false.
Proof.
  induction s as [|a s IH]; simpl; intros H; [reflexivity|].
  apply andb_prop in H as [Ha Hs].
  rewrite (digit_not_space _ Ha), (IH Hs). reflexivity.
Qed.

Lemma digit_not_blank a : Py.is_digit a = true -> Py.is_space a = false.
Proof.
  destruct a as [[] [] [] [] [] [] [] []]; intros H; try reflexivity;
    discriminate H.
Qed.

Lemma rstrip_digits_newline s :
  Py.all_digits s = true ->
  Py.rstrip (s ++ String "010" EmptyString) = s.
Proof.
  induction s as [|a s IH]; intros H; [reflexivity|].
  simpl in H. apply andb_prop in H as [Ha Hs].
  change (Py.rstrip (String a (s ++ String "010" EmptyString)) = String a s).
  cbn [Py.rstrip]. rewrite (IH Hs).
  destruct s; [rewrite (digit_not_blank _ Ha)|]; reflexivity.
Qed.

(** What [str] gives stands alone in the reply of [sbatch]: it holds no
    blank, and stripping it with the line end gives it back. *)
Lemma str_stands_alone n :
  has_char " " (Py.str n ++ String "010" EmptyString) = false /\
  Py.strip (Py.str n ++ String "010" EmptyString) = Py.str n.
Proof.
  assert (Hpos : forall p,
    Py.all_digits (NilZero.string_of_uint (Pos.to_uint p)) = true /\
    NilZero.string_of_uint (Pos.to_uint p) <> EmptyString).
  { intros p. destruct (to_uint_string p) as [-> (a & s & E)].
    split; [apply uint_all_digits | rewrite E; discriminate]. }
  assert (Hd : forall d, Py.all_digits d = true ->
    has_char " " (d ++ String "010" EmptyString) = false /\
    Py.strip (d ++ String "010" EmptyString) = d).
  { intros d H. split.
    - rewrite has_char_app, (all_digits_no_space _ H). reflexivity.
    - unfold Py.strip. rewrite (rstrip_digits_newline _ H).
      apply all_digits_lstrip, H. }
  destruct n as [|p|p].
  - split; reflexivity.
  - change (Py.str (Zpos p)) with (NilZero.string_of_uint (Pos.to_uint p)).
    apply Hd, Hpos.
  - change (Py.str (Zneg p))
      with (String "-" (NilZero.string_of_uint (Pos.to_uint p))).
    destruct (Hpos p) as [H1 H2]. destruct (Hd _ H1) as [H3 H4].
    set (d := NilZero.string_of_uint (Pos.to_uint p)) in *.
    change (String "-" d ++ String "010" EmptyString)
      with (String "-" (d ++ String "010" EmptyString)).
    split.
    + cbn [has_char]. rewrite H3. reflexivity.
    + unfold Py.strip in *. rewrite (rstrip_digits_newline _ H1) in H4.
      rewrite rstrip_cons
        by (rewrite (rstrip_digits_newline _ H1); exact H2).
      rewrite (rstrip_digits_newline _ H1). reflexivity.
Qed.

Variable env : Env.

(** X13: the job [enqueueSlurm] waits for is the job [sbatch] announced:
    when the submission answers [Submitted batch job n] and a line end,
    the status queries are made for [str(n)], the fourth word of the
    answer without its line end, and [enqueueSlurm] ends as the polling of
    that job ends. *)
Theorem enqueueSlurm_polls_the_job_submitted fuel cmd n stderr w :
  sbatch env ("sbatch " ++ cmd)
  = (0, "Submitted batch job " ++ Py.str n ++ String "010" EmptyString,
     stderr) ->
  enqueueSlurm fuel env cmd w
  = match waitForSlurmJob fuel env (Py.str n) 0 with
    | PollSet _ _ => Ok tt w
    | PollDied _ _ => Blocked w
    | PollOutOfFuel => OutOfFuel
    end.
Proof.
  intros Hs. unfold enqueueSlurm. rewrite Hs. cbn [Z.eqb negb].
  destruct (str_stands_alone n) as [Hb Hst].
  set (t := Py.str n ++ String "010" EmptyString) in *.
  change ("Submitted batch job " ++ t)
    with ("Submitted" ++ String " " ("batch" ++ String " "
            ("job" ++ String " " t))).
  rewrite !split_app_sep by reflexivity.
  rewrite (split_no_sep _ _ Hb). cbn [map base.lookup list_lookup].
  rewrite Hst. reflexivity.
Qed.

(** X14: an answer of [sbatch] with fewer than four words stops
    [enqueueSlurm] with [IndexError]: no job is polled. *)
Theorem enqueueSlurm_short_answer fuel cmd stdout stderr w :
  sbatch env ("sbatch " ++ cmd) = (0, stdout, stderr) ->
  (length (Py.split " " stdout) <= 3)%nat ->
  enqueueSlurm fuel env cmd w = Raised IndexError w.
Proof.
  intros Hs Hl. unfold enqueueSlurm. rewrite Hs. cbn [Z.eqb negb].
  rewrite (proj2 (lookup_ge_None _ 3%nat));
    [reflexivity | rewrite length_map; exact Hl].
Qed.

(** The threads, whatever the scheduler answers: the event is set at most
    once, by the polling thread on its way out, and the caller leaves its
    loop only on an event that is set. *)
Lemma threads_invariant jobId sched :
  let s := run_threads env jobId sched in
  ((poller s = Finished /\ resultAvailable s = true /\ sets s = 1%nat) \/
   (poller s <> Finished /\ resultAvailable s = false /\ sets s = 0%nat
    /\ waiter s = Waiting)) /\
  match waiter s with
  | Waiting => unblocks s = 0%nat
  | Unblocked => unblocks s = 1%nat /\ resultAvailable s = true
  end.
Proof.
  induction sched as [|t sched IH] using rev_ind.
  - simpl. split; [right; repeat split; discriminate | reflexivity].
  - intros s. unfold s. rewrite run_threads_snoc.
    destruct IH as (Hp & Hw).
    set (s0 := run_threads env jobId sched) in *.
    destruct t; cbn [thread_step].
    + unfold waiter_step.
      destruct (waiter s0) eqn:Ew.
      * destruct (resultAvailable s0) eqn:Er; cbn; rewrite ?Er, ?Hw.
        -- split; [|split; reflexivity].
           destruct Hp as [Hp|(_ & Hp & _)]; [left; exact Hp | discriminate Hp].
        -- split; [|reflexivity].
           destruct Hp as [(_ & Hp & _)|(H1 & H2 & H3 & _)];
             [discriminate Hp|].
           right. split; [exact H1|]. split; [reflexivity|].
           split; [exact H3 | reflexivity].
      * rewrite Ew. split; [exact Hp | exact Hw].
    + unfold poller_step.
      destruct (poller s0) as [i| | |e] eqn:Ep.
      * destruct (squeue env jobId i) as [[rc out] err].
        destruct Hp as [(Hp & _)|(_ & H2 & H3 & H4)]; [discriminate Hp|].
        rewrite H4 in Hw.
        destruct (negb (rc =? 0)); cbn; rewrite H4;
          (split; [|exact Hw]); right;
          (split; [try destruct (String.eqb out EmptyString); discriminate|]);
          (split; [exact H2|]); (split; [exact H3 | reflexivity]).
      * destruct Hp as [(Hp & _)|(_ & H2 & H3 & H4)]; [discriminate Hp|].
        rewrite H4 in Hw. cbn. rewrite H3, H4.
        split; [|exact Hw]. left. repeat split.
      * rewrite Ep. split; [exact Hp | exact Hw].
      * rewrite Ep. split; [exact Hp | exact Hw].
Qed.

(** X15: for every scheduler and every schedule of the two threads, the
    event is set at most once and only by a polling thread that has left
    its loop, and the caller leaves its waiting loop at most once and only
    when the event is set. *)
Theorem caller_leaves_only_on_the_event jobId sched :
  let s := run_threads env jobId sched in
  (sets s <= 1)%nat /\
  (unblocks s <= sets s)%nat /\
  (resultAvailable s = true <-> poller s = Finished) /\
  (waiter s = Unblocked -> resultAvailable s = true /\ unblocks s = 1%nat).
Proof.
  intros s. destruct (threads_invariant jobId sched) as (Hp & Hw).
  fold s in Hp, Hw.
  destruct Hp as [(H1 & H2 & H3)|(H1 & H2 & H3 & H4)].
  - rewrite H1, H2, H3. split; [lia|].
    split; [destruct (waiter s); [lia | destruct Hw; lia]|].
    split; [tauto|]. intros E. rewrite E in Hw. destruct Hw. auto.
  - rewrite H2, H3, H4 in *. split; [lia|]. split; [lia|].
    split; [split; [discriminate | intros E; contradiction]|].
    discriminate.
Qed.

(** X16: no patience runs out: as long as the scheduler reports the job,
    the polling goes on, the event stays unset and the caller stays in its
    waiting loop, however long the time limit given to the [Runner]. *)
Theorem job_that_stays_is_waited_for jobId :
  (forall i, exists out err,
      squeue env jobId i = (0, out, err) /\ out <> EmptyString) ->
  (forall fuel i, waitForSlurmJob fuel env jobId i = PollOutOfFuel) /\
  (forall sched,
      let s := run_threads env jobId sched in
      resultAvailable s = false /\ waiter s = Waiting /\
      exists i, poller s = Polling i /\ queries s = i).
Proof.
  intros Hbusy. split.
  - induction fuel as [|fuel IH]; intros i; [reflexivity|].
    cbn [waitForSlurmJob].
    destruct (Hbusy i) as (out & err & Hq & Hout). rewrite Hq.
    cbn [Z.eqb negb].
    destruct (String.eqb out EmptyString) eqn:Eo;
      [apply String.eqb_eq in Eo; contradiction|].
    apply IH.
  - induction sched as [|t sched IH] using rev_ind.
    + simpl. repeat split. exists 0%nat. split; reflexivity.
    + intros s. unfold s. rewrite run_threads_snoc.
      destruct IH as (Hr & Hw & i & Hp & Hq).
      set (s0 := run_threads env jobId sched) in *.
      destruct t; cbn [thread_step].
      * unfold waiter_step. rewrite Hw, Hr. cbn.
        split; [reflexivity|]. split; [reflexivity|].
        exists i. split; assumption.
      * unfold poller_step. rewrite Hp.
        destruct (Hbusy i) as (out & err & Hq' & Hout). rewrite Hq'.
        cbn [Z.eqb negb].
        destruct (String.eqb out EmptyString) eqn:Eo;
          [apply String.eqb_eq in Eo; contradiction|].
        cbn. split; [exact Hr|]. split; [exact Hw|].
        exists (S i). split; [reflexivity | rewrite Hq; reflexivity].
Qed.

End Runner.

(** ** The time limit in the script *)

Section SlurmRules.

Import workflow.



End SlurmRules.


(** ** The statements above on the sample inputs *)


Lemma sample_site_A_enters :
  match Main.loopEntry (fun s d => inr (DAL.getSiteID s d))
          Sample.env_ok Sample.config0 1 "A" Sample.world0 with
  | Ok (Some _) _ => true
  | _ => false
  end = true.
Proof. vm_compute. reflexivity. Qed.

Lemma loop_entered_for_a_registered_run_witness :
  match Main.loopEntry (fun s d => inr (DAL.getSiteID s d))
          Sample.env_ok Sample.config0 1 "A" Sample.world0 with
  | Ok (Some _) w1 =>
      trace w1 = trace Sample.world0 /\
      exists siteId,
        inr (DAL.getSiteID "A" (db Sample.world0))
        = (inr (Some siteId) : Exn + option Z) /\
        siteId <> 0 /\
        DAL.addRunInfo (now Sample.env_ok) 1 siteId
          (Main.input_ERF_id Sample.config0)
          (Main.input_model_id Sample.config0)
          (Main.setup_sourceFrequency Sample.config0)
          (Main.setup_frequency Sample.config0) (db Sample.world0)
        = inr (db w1)
  | _ => False
  end.
Proof.
  pose proof sample_site_A_enters as Hb.
  destruct (Main.loopEntry (fun s d => inr (DAL.getSiteID s d))
              Sample.env_ok Sample.config0 1 "A" Sample.world0)
    as [[[cfg rstage]|] w1|e w1|w1|] eqn:E; try discriminate Hb.
  exact (loop_entered_for_a_registered_run Sample.env_ok Sample.config0 1 "A"
           (fun s d => inr (DAL.getSiteID s d)) Sample.world0 cfg rstage w1 E).
Defined.

Lemma runSite_empty_restart_file_witness :
  Main.runSite 3 Sample.env_ok Sample.config_restart 1 "A"
    Sample.world_empty_token
  = Raised IndexError Sample.world_empty_token.
Proof.
  refine (runSite_empty_restart_file 3 Sample.env_ok Sample.config_restart
            1 "A" Sample.world_empty_token eq_refl _ _).
  - apply (bool_decide_unpack _). vm_compute. exact I.
  - vm_compute. reflexivity.
Defined.

Lemma sample_site_A_returns :
  is_ok (Main.runSite 3 Sample.env_ok Sample.config0 1 "A" Sample.world0)
  = true.
Proof. vm_compute. reflexivity. Qed.

Lemma finished_run_is_skipped_on_restart_witness :
  match Main.runSite 3 Sample.env_ok Sample.config0 1 "A" Sample.world0 with
  | Ok _ w' =>
      Main.runSite 0 Sample.env_squeue_fails Sample.config_restart 1 "A" w'
      = Ok tt w'
  | _ => False
  end.
Proof.
  pose proof sample_site_A_returns as Hok.
  destruct (Main.runSite 3 Sample.env_ok Sample.config0 1 "A" Sample.world0)
    as [[] w'|e w'|w'|] eqn:E; try discriminate Hok.
  exact (finished_run_is_skipped_on_restart 3 Sample.env_ok Sample.config0
           1 "A" 0%nat Sample.env_squeue_fails Sample.config_restart
           "/scratch/ruptures" Sample.world0 w'
           eq_refl eq_refl eq_refl eq_refl eq_refl E).
Defined.

Lemma enqueueSlurm_polls_the_job_submitted_witness :
  workflow.enqueueSlurm 3 Sample.env_ok "/scratch/out/A_1/preSGT.slurm"
    Sample.world_A
  = match workflow.waitForSlurmJob 3 Sample.env_ok (Py.str 4711) 0 with
    | workflow.PollSet _ _ => Ok tt Sample.world_A
    | workflow.PollDied _ _ => Blocked Sample.world_A
    | workflow.PollOutOfFuel => OutOfFuel
    end.
Proof.
  apply (enqueueSlurm_polls_the_job_submitted Sample.env_ok 3
           "/scratch/out/A_1/preSGT.slurm" 4711 EmptyString Sample.world_A).
  reflexivity.
Defined.

Lemma enqueueSlurm_short_answer_witness :
  workflow.enqueueSlurm 3 Sample.env_sbatch_silent
    "/scratch/out/A_1/preSGT.slurm" Sample.world_A
  = Raised IndexError Sample.world_A.
Proof.
  apply (enqueueSlurm_short_answer Sample.env_sbatch_silent 3
           "/scratch/out/A_1/preSGT.slurm" EmptyString EmptyString
           Sample.world_A).
  - reflexivity.
  - simpl. lia.
Defined.

Lemma job_that_stays_is_waited_for_witness :
  (forall fuel i,
      workflow.waitForSlurmJob fuel Sample.env_job_stays "4711" i
      = workflow.PollOutOfFuel) /\
  (forall sched,
      let s := workflow.run_threads Sample.env_job_stays "4711" sched in
      workflow.resultAvailable s = false /\
      workflow.waiter s = workflow.Waiting /\
      exists i, workflow.poller s = workflow.Polling i
                /\ workflow.queries s = i).
Proof.
  apply (job_that_stays_is_waited_for Sample.env_job_stays "4711").
  intros i.
  exists ("Slurm job PENDING (0:00 of 10:00)" ++ Sample.newline), EmptyString.
  split; [reflexivity | discriminate].
Defined.


